(** * axios-http-mock: the stub registry and the matching engine

    A shallow embedding of [src/types.ts], [src/request.ts],
    [src/request-matcher.ts], [src/errors.ts], [src/util.ts] (the part
    of it the adapter runs: [settle]) and [src/http-mock.ts].

    JavaScript objects are references.  The [Request] objects created by
    [HttpMock.on] are at the same time elements of the registry arrays
    and handles in the hands of the test author, who configures them
    after registration ([on(..).to(..).respondWith(..)]).  The embedding
    therefore keeps the [Request] objects in a heap (a list indexed by
    allocation order) and lets the registry hold references into it. *)

From Stdlib Require Import List String Ascii ZArith Bool Arith Lia Permutation.
From Stdlib Require DecimalString.
Import ListNotations.
Open Scope string_scope.
Open Scope list_scope.
Open Scope Z_scope.
Set Warnings "-register-all".

(** ** JavaScript values *)

(** The values that travel through the matcher: what [JSON.parse]
    produces, plus [undefined].  Numbers are the integer-valued ones.
    An object is the list of its own enumerable properties, in
    insertion order; a property key occurs once. *)
Inductive Value : Type :=
| VUndefined
| VNull
| VBool (b : bool)
| VNum (n : Z)
| VStr (s : string)
| VArr (items : list Value)
| VObj (props : list (string * Value)).

(** [ToBoolean]: what [!v], [!!v], [v && ..] and [if (v)] test. *)
Definition truthy (v : Value) : bool :=
  match v with
  | VUndefined | VNull => false
  | VBool b => b
  | VNum n => negb (n =? 0)
  | VStr s => negb (s =? "")%string
  | VArr _ | VObj _ => true
  end.

(** [v === undefined || v === null] *)
Definition nullish (v : Value) : bool :=
  match v with
  | VUndefined | VNull => true
  | _ => false
  end.

(** Own-property lookup in a property list. *)
Fixpoint assoc (k : string) (props : list (string * Value)) : option Value :=
  match props with
  | [] => None
  | (k', v) :: rest => if (k' =? k)%string then Some v else assoc k rest
  end.

(** [v.k] for a truthy [v]: a missing property reads as [undefined];
    strings, numbers, booleans and arrays have no property called
    [data] or [headers], the only keys this is used with. *)
Definition getProp (v : Value) (k : string) : Value :=
  match v with
  | VObj props => match assoc k props with Some x => x | None => VUndefined end
  | _ => VUndefined
  end.

Definition ToNumber_bool (b : bool) : Z := if b then 1 else 0.

(** A decimal reading of a string, used where the examples below need a
    concrete [StringToNumber]: the empty string is 0, a run of digits
    is its value, anything else is not a number. *)
Definition digit_of (c : ascii) : option Z :=
  let n := Z.of_nat (nat_of_ascii c) in
  if (48 <=? n) && (n <=? 57) then Some (n - 48) else None.

Fixpoint decimal_acc (s : string) (acc : Z) : option Z :=
  match s with
  | EmptyString => Some acc
  | String c rest =>
      match digit_of c with
      | Some d => decimal_acc rest (10 * acc + d)
      | None => None
      end
  end.

Definition decimalToNumber (s : string) : option Z := decimal_acc s 0.

(** The status texts of the [http-status] package the examples use. *)
Definition statusTexts (status : Z) : Value :=
  if status =? 200 then VStr "OK"
  else if status =? 201 then VStr "Created"
  else if status =? 401 then VStr "Unauthorized"
  else if status =? 422 then VStr "Unprocessable Entity"
  else VUndefined.

(** ** src/types.ts *)

Inductive Method : Type :=
| GET | DELETE | HEAD | OPTIONS | POST | PUT | PATCH | PURGE | LINK | UNLINK.

Definition Method_eqb (a b : Method) : bool :=
  match a, b with
  | GET, GET | DELETE, DELETE | HEAD, HEAD | OPTIONS, OPTIONS | POST, POST
  | PUT, PUT | PATCH, PATCH | PURGE, PURGE | LINK, LINK | UNLINK, UNLINK => true
  | _, _ => false
  end.

Inductive MatchMode : Type := strict | partial.

(** [RequestOptions]: three optional properties.  [None] is a key the
    object does not have, [Some VUndefined] a key that is there and
    holds [undefined]; reading either gives [undefined], but the spread
    in [Request.with] copies only the second. *)
Record RequestOptions : Type := mkOptions {
  params : option Value;
  body : option Value;
  headers : option Value
}.

Definition noOptions : RequestOptions := mkOptions None None None.

Inductive MatcherKey : Type := K_headers | K_params | K_body.

Definition read (slot : option Value) : Value :=
  match slot with Some v => v | None => VUndefined end.

(** [options[key]] *)
Definition getOption (o : RequestOptions) (key : MatcherKey) : Value :=
  match key with
  | K_headers => read (headers o)
  | K_params => read (params o)
  | K_body => read (body o)
  end.

(** [{ ...a, ...b }] *)
Definition spread (a b : RequestOptions) : RequestOptions :=
  let over (x y : option Value) := match y with Some _ => y | None => x end in
  mkOptions (over (params a) (params b))
            (over (body a) (body b))
            (over (headers a) (headers b)).

(** ** src/request.ts and src/errors.ts: data *)

Record Response : Type := mkResponse {
  status : Z;
  statusText : Value;
  data : Value;
  response_headers : Value
}.

(** What [Request.toJSON] returns, and so what [JSON.stringify] prints
    of a request in the messages of the errors. *)
Record RequestJSON : Type := mkJSON {
  json_method : Method;
  json_uri : option string;
  json_headers : Value;
  json_params : Value;
  json_body : Value
}.

(** The call the adapter is given, after lines 68 to 89 of
    [http-mock.ts] have read it off the Axios configuration: the
    method, the joined URI, and the options ([body] parsed from
    [config.data], [headers] flattened, [params] as given).
    [validateStatus] is the caller's predicate [settle] consults.
    A call whose [config.data] is not JSON, on which [JSON.parse]
    throws between the validation and the matcher, has no [Config]. *)
Record Config : Type := mkConfig {
  config_method : Method;
  config_uri : string;
  config_options : RequestOptions;
  validateStatus : option (Z -> bool)
}.

Inductive AxiosErrorCode : Type := ERR_BAD_REQUEST | ERR_BAD_RESPONSE.

(** What is thrown: a plain [Error] with its message ([timeout()]
    makes one), the three classes of [errors.ts] with what their
    messages print, the [AxiosError] of [settle], and the [TypeError]
    of reading a property of [undefined]. *)
Inductive Error : Type :=
| JsError (message : string)
| UnconfiguredResponseError (m : Method) (uri : option string)
                            (options : option RequestOptions)
| InvalidRequestsError (requests : list RequestJSON)
| RequestNotFoundError (config : Config) (registered : list RequestJSON)
| AxiosError (response : Response) (code : option AxiosErrorCode)
| TypeError.

(** The fields of a [Request].  The outcome is kept in two fields,
    [exception] and [_response], which can both be set; the getter
    [response] looks at [exception] first.  [invocationCount] starts at
    0 and is only ever incremented. *)
Record Request : Type := mkRequest {
  method : Method;
  _uri : option string;
  options : option RequestOptions;
  exception : option Error;
  _response : option Response;
  invocationCount : nat;
  maxInvocationCount : option Z
}.

(** [new Request(method)] *)
Definition newRequest (m : Method) : Request :=
  mkRequest m None None None None 0%nat None.

(** What evaluating an expression that may throw comes to. *)
Inductive Completion (A : Type) : Type :=
| Returned (a : A)
| Threw (e : Error).
Arguments Returned {A} a.
Arguments Threw {A} e.

(** What the adapter comes to: it throws, or it returns a promise that
    is resolved or rejected by the time it is returned ([settle] runs
    its executor at once). *)
Inductive Outcome : Type :=
| Throws (e : Error)
| Resolves (r : Response)
| Rejects (e : Error).

Section Engine.

(** Two things the code takes from its platform.  [StringToNumber] is
    the conversion [==] applies to a string that meets a number or a
    boolean ([None]: the string is not an integer).  [httpStatus] is the
    table of the [http-status] package, from a status code to its
    text. *)
Variable StringToNumber : string -> option Z.
Variable httpStatus : Z -> Value.

(** ** Node's [assert.deepEqual] *)

(** [a == b] on two values that are not objects. *)
Definition looseEq (a b : Value) : bool :=
  match a, b with
  | (VUndefined | VNull), (VUndefined | VNull) => true
  | VBool x, VBool y => Bool.eqb x y
  | VNum x, VNum y => x =? y
  | VStr x, VStr y => (x =? y)%string
  | VNum x, VStr s | VStr s, VNum x =>
      match StringToNumber s with Some n => x =? n | None => false end
  | VBool x, VNum y | VNum y, VBool x => ToNumber_bool x =? y
  | VBool x, VStr s | VStr s, VBool x =>
      match StringToNumber s with
      | Some n => ToNumber_bool x =? n
      | None => false
      end
  | _, _ => false
  end.

(** The legacy (loose) deep equality of Node 18, on the values above:
    two primitives are compared with [==]; a primitive never equals an
    object; an array equals an array of the same length with equal
    items; an object equals an object with as many own keys, each key
    of the first being a key of the second with an equal value.  The
    order of the keys plays no part. *)
Fixpoint deepEqual (v1 v2 : Value) {struct v1} : bool :=
  match v1, v2 with
  | VArr l1, VArr l2 =>
      (fix items (l1 l2 : list Value) {struct l1} : bool :=
         match l1, l2 with
         | [], [] => true
         | x :: xs, y :: ys => deepEqual x y && items xs ys
         | _, _ => false
         end) l1 l2
  | VObj o1, VObj o2 =>
      (List.length o1 =? List.length o2)%nat &&
      (fix keys (o : list (string * Value)) {struct o} : bool :=
         match o with
         | [] => true
         | (k, x) :: rest =>
             match assoc k o2 with
             | Some y => deepEqual x y
             | None => false
             end && keys rest
         end) o1
  | VArr _, _ | VObj _, _ | _, VArr _ | _, VObj _ => false
  | _, _ => looseEq v1 v2
  end.

(** ** src/request.ts: the methods of [Request] *)

Definition Request_to (uri : string) (r : Request) : Request :=
  mkRequest (method r) (Some uri) (options r) (exception r) (_response r)
            (invocationCount r) (maxInvocationCount r).

Definition Request_with (o : RequestOptions) (r : Request) : Request :=
  let old := match options r with Some x => x | None => noOptions end in
  mkRequest (method r) (_uri r) (Some (spread old o)) (exception r)
            (_response r) (invocationCount r) (maxInvocationCount r).

Definition once (r : Request) : Request :=
  mkRequest (method r) (_uri r) (options r) (exception r) (_response r)
            (invocationCount r) (Some 1).

Definition timeout (r : Request) : Request :=
  mkRequest (method r) (_uri r) (options r) (Some (JsError "Timeout"))
            (_response r) (invocationCount r) (maxInvocationCount r).

Definition isResponseWithHeaders (response : Value) : bool :=
  negb (match getProp response "data" with VUndefined => true | _ => false end)
  && negb (match getProp response "headers" with VUndefined => true | _ => false end).

Definition respondWith (st : Z) (response : Value) (r : Request) : Request :=
  let '(d, h) :=
    if truthy response then
      if isResponseWithHeaders response
      then (getProp response "data", getProp response "headers")
      else (response, VObj [])
    else (VUndefined, VObj []) in
  mkRequest (method r) (_uri r) (options r) (exception r)
            (Some (mkResponse st (httpStatus st) d h))
            (invocationCount r) (maxInvocationCount r).

Definition isInvokable (r : Request) : bool :=
  match maxInvocationCount r with
  | None => true
  | Some m => negb (truthy (VNum m)) || (Z.of_nat (invocationCount r) <? m)
  end.

Definition Request_uri (r : Request) : option string := _uri r.

Definition Request_headers (r : Request) : Value :=
  match options r with Some o => read (headers o) | None => VUndefined end.

Definition Request_body (r : Request) : Value :=
  match options r with Some o => read (body o) | None => VUndefined end.

Definition Request_params (r : Request) : Value :=
  match options r with Some o => read (params o) | None => VUndefined end.

(** [!!this.uri]: a string is truthy when it is not empty. *)
Definition uriTruthy (u : option string) : bool :=
  match u with
  | Some s => truthy (VStr s)
  | None => false
  end.

Definition isSome {A : Type} (x : option A) : bool :=
  match x with Some _ => true | None => false end.

Definition isValid (r : Request) : bool :=
  uriTruthy (Request_uri r) && (isSome (_response r) || isSome (exception r)).

Definition toJSON (r : Request) : RequestJSON :=
  mkJSON (method r) (Request_uri r) (Request_headers r) (Request_params r)
         (Request_body r).

(** [this.invocationCount++] *)
Definition countInvocation (r : Request) : Request :=
  mkRequest (method r) (_uri r) (options r) (exception r) (_response r)
            (S (invocationCount r)) (maxInvocationCount r).

(** The getter [response]: the request as it leaves the getter, and
    what the getter comes to. *)
Definition Request_response (r : Request) : Request * Completion Response :=
  let r' := countInvocation r in
  match exception r' with
  | Some e => (r', Threw e)
  | None =>
      match _response r' with
      | None =>
          (r', Threw (UnconfiguredResponseError (method r') (Request_uri r')
                                                (options r')))
      | Some resp => (r', Returned resp)
      end
  end.

(** [this.request[key]] *)
Definition getRequest (r : Request) (key : MatcherKey) : Value :=
  match key with
  | K_headers => Request_headers r
  | K_params => Request_params r
  | K_body => Request_body r
  end.

(** ** src/request-matcher.ts *)

(** [eq]: [assert.deepEqual] did not throw. *)
Definition eq_ (expected actual : Value) : bool := deepEqual expected actual.

Definition ok (expected actual : Value) : bool :=
  if negb (truthy expected) || negb (truthy actual) then true
  else eq_ expected actual.

Definition score_ (expected actual : Value) : Z :=
  let multiplier := if truthy expected && truthy actual then 2 else 0 in
  (if ok expected actual then 1 else 0) * multiplier.

Definition matcherKeys : list MatcherKey := [K_headers; K_params; K_body].

Definition FilterableRequest_for (r : Request) (uri : string) : bool :=
  match Request_uri r with
  | Some u => (u =? uri)%string
  | None => false
  end && isInvokable r.

Definition FilterableRequest_pass (r : Request) (o : RequestOptions) : bool :=
  fold_left
    (fun k key =>
       k && (negb (truthy (getOption o key))
             || ok (getOption o key) (getRequest r key)))
    matcherKeys true.

Definition FilterableRequest_score (r : Request) (o : RequestOptions) : Z :=
  fold_left
    (fun sum key => sum + score_ (getRequest r key) (getOption o key))
    matcherKeys 0.

Definition FilterableRequest_eq (r : Request) (o : RequestOptions) : bool :=
  eq_ (Request_headers r) (read (headers o))
  && eq_ (Request_params r) (read (params o))
  && eq_ (Request_body r) (read (body o)).

(** *** The object store *)

(** A reference to a [Request] object: its position in the heap. *)
Definition Ref : Type := nat.

(** A [FilterableRequest] wraps one request: here the reference, and
    the object as it is read through it. *)
Definition FilterableRequest : Type := (Ref * Request)%type.

Fixpoint update {A : Type} (i : nat) (x : A) (l : list A) : list A :=
  match l, i with
  | [], _ => []
  | _ :: t, O => x :: t
  | h :: t, S j => h :: update j x t
  end.

(** The getter [filterable]: every request of the array, wrapped.  A
    reference is read in the heap; the references the code holds all
    come from [on], so each has its object. *)
Definition filterable (heap : list Request) (requests : list Ref)
  : list FilterableRequest :=
  flat_map (fun i => match nth_error heap i with
                     | Some r => [(i, r)]
                     | None => []
                     end) requests.

(** [Array.prototype.sort] with a comparator: a stable sort.  [x] comes
    from before every element of [l] and stays ahead of [y] unless the
    comparator puts it after ([cmp x y > 0]). *)
Fixpoint insertBy {A : Type} (cmp : A -> A -> Z) (x : A) (l : list A) : list A :=
  match l with
  | [] => [x]
  | y :: ys => if 0 <? cmp x y then y :: insertBy cmp x ys else x :: y :: ys
  end.

Fixpoint sortBy {A : Type} (cmp : A -> A -> Z) (l : list A) : list A :=
  match l with
  | [] => []
  | x :: xs => insertBy cmp x (sortBy cmp xs)
  end.

(** *** [RequestMatcher.matchFor] *)

Definition candidates (heap : list Request) (requests : list Ref) (uri : string)
  : list FilterableRequest :=
  filter (fun r => FilterableRequest_for (snd r) uri) (filterable heap requests).

Definition matchFor (heap : list Request) (requests : list Ref) (mode : MatchMode)
           (uri : string) (options : option RequestOptions) : option Ref :=
  let matchOptions := match options with Some o => o | None => noOptions end in
  let requests := candidates heap requests uri in
  let match_ :=
    match mode with
    | partial =>
        let sorted :=
          sortBy (fun a b => FilterableRequest_score (snd b) matchOptions
                             - FilterableRequest_score (snd a) matchOptions)
                 (filter (fun r => FilterableRequest_pass (snd r) matchOptions)
                         requests) in
        hd_error sorted
    | strict =>
        find (fun r => FilterableRequest_eq (snd r) matchOptions) requests
    end in
  option_map fst match_.

(** ** src/http-mock.ts *)

(** The registry: an object with one array per method; its keys in
    insertion order, as [Object.keys] and [Object.values] walk them. *)
Definition MockRegistry : Type := list (Method * list Ref).

Record HttpMock : Type := mkMock {
  heap : list Request;
  registry : MockRegistry;
  mode : MatchMode
}.

Definition emptyRegistry : MockRegistry :=
  [(GET, []); (POST, []); (PUT, []); (DELETE, []); (HEAD, []); (LINK, []);
   (OPTIONS, []); (PATCH, []); (PURGE, []); (UNLINK, [])].

(** [new HttpMock(options)] *)
Definition newHttpMock (matching : option MatchMode) : HttpMock :=
  mkMock [] emptyRegistry (match matching with Some m => m | None => strict end).

(** [registry[method]] *)
Fixpoint registryGet (m : Method) (reg : MockRegistry) : option (list Ref) :=
  match reg with
  | [] => None
  | (k, l) :: rest => if Method_eqb k m then Some l else registryGet m rest
  end.

(** [registry[method].push(ref)] *)
Fixpoint registryPush (m : Method) (ref : Ref) (reg : MockRegistry) : MockRegistry :=
  match reg with
  | [] => []
  | (k, l) :: rest =>
      if Method_eqb k m then (k, l ++ [ref]) :: rest
      else (k, l) :: registryPush m ref rest
  end.

Definition reset (mock : HttpMock) : HttpMock :=
  mkMock (heap mock) (map (fun entry => (fst entry, [])) (registry mock))
         (mode mock).

(** [on]: the new request is made, then pushed; with no array under
    the method the push is a [TypeError]. *)
Definition on (m : Method) (mock : HttpMock) : Completion Ref * HttpMock :=
  let ref := List.length (heap mock) in
  let made := heap mock ++ [newRequest m] in
  match registryGet m (registry mock) with
  | None => (Threw TypeError, mkMock made (registry mock) (mode mock))
  | Some _ =>
      (Returned ref, mkMock made (registryPush m ref (registry mock)) (mode mock))
  end.

(** [Object.values(this.registry).flat()] *)
Definition registered (mock : HttpMock) : list FilterableRequest :=
  filterable (heap mock) (List.concat (map snd (registry mock))).

Definition invalidRequests (mock : HttpMock) : list FilterableRequest :=
  filter (fun r => negb (isValid (snd r))) (registered mock).

(** ** src/util.ts: [settle] *)

Definition axiosErrorCode (st : Z) : option AxiosErrorCode :=
  let i := st / 100 - 4 in
  if i =? 0 then Some ERR_BAD_REQUEST
  else if i =? 1 then Some ERR_BAD_RESPONSE
  else None.

(** The promise's executor runs at once: it reads the getter
    [request.response], which counts the invocation and may throw (the
    promise is then rejected with what was thrown), and resolves or
    rejects on the status.  The [config] the code adds to the response
    is the call itself and is left out of [Response]. *)
Definition settle (request : Ref) (config : Config) (mock : HttpMock)
  : Outcome * HttpMock :=
  match nth_error (heap mock) request with
  | None => (Throws TypeError, mock)
  | Some r =>
      let '(r', got) := Request_response r in
      let mock' := mkMock (update request r' (heap mock)) (registry mock)
                          (mode mock) in
      match got with
      | Threw e => (Rejects e, mock')
      | Returned response =>
          if negb (truthy (VNum (status response)))
             || match validateStatus config with
                | None => true
                | Some valid => valid (status response)
                end
          then (Resolves response, mock')
          else (Rejects (AxiosError response (axiosErrorCode (status response))),
                mock')
      end
  end.

(** ** [HttpMock.adapter] *)

Definition adapter (mock : HttpMock) (config : Config) : Outcome * HttpMock :=
  let invalid := invalidRequests mock in
  if (0 <? List.length invalid)%nat then
    (Throws (InvalidRequestsError (map (fun r => toJSON (snd r)) invalid)), mock)
  else
    match registryGet (config_method config) (registry mock) with
    | None => (Throws TypeError, mock)
    | Some requests =>
        match matchFor (heap mock) requests (mode mock) (config_uri config)
                       (Some (config_options config)) with
        | None =>
            (Throws (RequestNotFoundError
                       config (map (fun r => toJSON (snd r)) (registered mock))),
             mock)
        | Some request => settle request config mock
        end
    end.

(** ** What a test does with a mock *)

(** One call of the public interface: on the mock ([reset], [on], a
    call that reaches the adapter) or on a request handle. *)
Inductive Command : Type :=
| Reset
| On (m : Method)
| To (h : Ref) (uri : string)
| With (h : Ref) (o : RequestOptions)
| Once (h : Ref)
| Timeout (h : Ref)
| RespondWith (h : Ref) (st : Z) (response : Value)
| GetResponse (h : Ref)
| Call (config : Config).

(** A method of the request behind a handle. *)
Definition configure (h : Ref) (f : Request -> Request) (mock : HttpMock)
  : HttpMock :=
  match nth_error (heap mock) h with
  | Some r => mkMock (update h (f r) (heap mock)) (registry mock) (mode mock)
  | None => mock
  end.

Definition exec (mock : HttpMock) (c : Command) : HttpMock :=
  match c with
  | Reset => reset mock
  | On m => snd (on m mock)
  | To h uri => configure h (Request_to uri) mock
  | With h o => configure h (Request_with o) mock
  | Once h => configure h once mock
  | Timeout h => configure h timeout mock
  | RespondWith h st response => configure h (respondWith st response) mock
  | GetResponse h => configure h (fun r => fst (Request_response r)) mock
  | Call config => snd (adapter mock config)
  end.

Definition run (mock : HttpMock) (script : list Command) : HttpMock :=
  fold_left exec script mock.

(** Which request a call is settled with, if any: the adapter's path
    up to [settle]. *)
Definition selects (mock : HttpMock) (config : Config) : option Ref :=
  if (0 <? List.length (invalidRequests mock))%nat then None
  else
    match registryGet (config_method config) (registry mock) with
    | None => None
    | Some requests =>
        matchFor (heap mock) requests (mode mock) (config_uri config)
                 (Some (config_options config))
    end.

(** * The vocabulary of the statements *)

(** A definition limited to one invocation that has had it. *)
Definition exhausted (r : Request) : Prop :=
  maxInvocationCount r = Some 1 /\ (1 <= invocationCount r)%nat.

(** [x] is the first element of [l] to reach the largest value of [f]. *)
Definition firstMax {A : Type} (f : A -> Z) (l : list A) (x : A)
           (pre post : list A) : Prop :=
  l = pre ++ x :: post
  /\ (forall y, In y pre -> f y < f x)
  /\ (forall y, In y post -> f y <= f x).

(** The comparator of [matchFor], [(a, b) => f(b) - f(a)]. *)
Definition descendingBy {A : Type} (f : A -> Z) (a b : A) : Z := f b - f a.

(** Deep equality in the words of the specification: structural,
    recursive, and blind to the order of the keys of a mapping.  Two
    scalars are equal when they are the same scalar; two sequences,
    when they are as long and equal item by item; two mappings, when
    they have as many keys and each key of the first is a key of the
    second with an equal value.  An absent value is equal to an absent
    value and to nothing else. *)
Fixpoint structEq (v1 v2 : Value) {struct v1} : bool :=
  match v1, v2 with
  | VUndefined, VUndefined => true
  | VNull, VNull => true
  | VBool x, VBool y => Bool.eqb x y
  | VNum x, VNum y => x =? y
  | VStr x, VStr y => (x =? y)%string
  | VArr l1, VArr l2 =>
      (fix items (l1 l2 : list Value) {struct l1} : bool :=
         match l1, l2 with
         | [], [] => true
         | x :: xs, y :: ys => structEq x y && items xs ys
         | _, _ => false
         end) l1 l2
  | VObj o1, VObj o2 =>
      (List.length o1 =? List.length o2)%nat &&
      (fix keys (o : list (string * Value)) {struct o} : bool :=
         match o with
         | [] => true
         | (k, x) :: rest =>
             match assoc k o2 with
             | Some y => structEq x y
             | None => false
             end && keys rest
         end) o1
  | _, _ => false
  end.

(** A field the definition or the call lacks: reading it gives
    [undefined]. *)
Definition absent (v : Value) : bool :=
  match v with
  | VUndefined => true
  | _ => false
  end.

(** No scalar of [v1] meets, where the two values are compared, a
    scalar of another type of [v2]: a number is compared with a number
    only, a string with a string, a boolean with a boolean, and [null]
    never with [undefined].  A scalar may meet an object or an array,
    and [undefined] or [null] a number, a string or a boolean: no
    conversion makes those equal. *)
Fixpoint sameTypes (v1 v2 : Value) {struct v1} : bool :=
  match v1, v2 with
  | VArr l1, VArr l2 =>
      (fix items (l1 l2 : list Value) {struct l1} : bool :=
         match l1, l2 with
         | x :: xs, y :: ys => sameTypes x y && items xs ys
         | _, _ => true
         end) l1 l2
  | VObj o1, VObj o2 =>
      (fix keys (o : list (string * Value)) {struct o} : bool :=
         match o with
         | [] => true
         | (k, x) :: rest =>
             match assoc k o2 with
             | Some y => sameTypes x y
             | None => true
             end && keys rest
         end) o1
  | VArr _, _ | VObj _, _ | _, VArr _ | _, VObj _ => true
  | VUndefined, VNull | VNull, VUndefined => false
  | (VUndefined | VNull), _ | _, (VUndefined | VNull) => true
  | VBool _, VBool _ | VNum _, VNum _ | VStr _, VStr _ => true
  | _, _ => false
  end.

(** A definition matches a call in strict mode, in the words of the
    specification: the URI is the call's, the definition can still be
    invoked, and the headers, the params and the body are each
    deep-equal to the call's. *)
Definition strictlyMatches (r : Request) (uri : string) (o : RequestOptions)
  : Prop :=
  Request_uri r = Some uri
  /\ isInvokable r = true
  /\ forall key, structEq (getRequest r key) (getOption o key) = true.

(** One attribute lets the definition through the filter of partial
    mode: a side is falsy, or both are truthy and deep-equal. *)
Definition fieldPasses (r : Request) (o : RequestOptions) (key : MatcherKey)
  : Prop :=
  truthy (getRequest r key) = false
  \/ truthy (getOption o key) = false
  \/ (truthy (getRequest r key) = true /\ truthy (getOption o key) = true
      /\ deepEqual (getOption o key) (getRequest r key) = true).

(** The attribute counts in the score: both sides truthy, and
    deep-equal. *)
Definition countsInScore (r : Request) (o : RequestOptions) (key : MatcherKey)
  : bool :=
  truthy (getRequest r key) && truthy (getOption o key)
  && deepEqual (getRequest r key) (getOption o key).

(** The candidates partial mode sorts: right URI, invokable, through
    the filter. *)
Definition passing (heap : list Request) (requests : list Ref) (uri : string)
           (o : RequestOptions) : list FilterableRequest :=
  filter (fun x => FilterableRequest_pass (snd x) o)
         (candidates heap requests uri).

(** From [r] to [r']: the count has not gone down, and a limit of one
    is still a limit of one. *)
Definition grows (r r' : Request) : Prop :=
  (invocationCount r <= invocationCount r')%nat
  /\ (maxInvocationCount r = Some 1 -> maxInvocationCount r' = Some 1).

(** A definition is incomplete: no URI, or no outcome (neither a
    response nor an exception). *)
Definition incomplete (r : Request) : Prop :=
  _uri r = None \/ (_response r = None /\ exception r = None).

(** The limit the claim reads: unset, or above the count. *)
Definition withinLimit (r : Request) : Prop :=
  maxInvocationCount r = None
  \/ exists m, maxInvocationCount r = Some m
               /\ Z.of_nat (invocationCount r) < m.

(** Every limit in the heap is unset or one. *)
Definition limitsUnsetOrOne (mock : HttpMock) : Prop :=
  forall ref r, nth_error (heap mock) ref = Some r ->
                maxInvocationCount r = None \/ maxInvocationCount r = Some 1.

(** An attribute lets the definition through, in the words of the
    specification: a side lacks the field, or both have it and they are
    deep-equal. *)
Definition fieldPassesAsStated (r : Request) (o : RequestOptions)
           (key : MatcherKey) : Prop :=
  absent (getRequest r key) = true
  \/ absent (getOption o key) = true
  \/ (absent (getRequest r key) = false /\ absent (getOption o key) = false
      /\ structEq (getRequest r key) (getOption o key) = true).

(** An attribute counts in the score, in the words of the
    specification: both sides present, and deep-equal. *)
Definition countsAsStated (r : Request) (o : RequestOptions) (key : MatcherKey)
  : bool :=
  negb (absent (getRequest r key)) && negb (absent (getOption o key))
  && structEq (getRequest r key) (getOption o key).

(** The score of a definition for a call, in the words of the
    specification: 2 for each of the three fields that counts. *)
Definition scoreAsStated (r : Request) (o : RequestOptions) : Z :=
  2 * Z.of_nat (List.length (filter (countsAsStated r o) matcherKeys)).

(** Induction on a value, with the items of an array and the values of
    an object as smaller values. *)
Section ValueInduction.
Variable P : Value -> Prop.
Hypothesis P_undefined : P VUndefined.
Hypothesis P_null : P VNull.
Hypothesis P_bool : forall b, P (VBool b).
Hypothesis P_num : forall n, P (VNum n).
Hypothesis P_str : forall s, P (VStr s).
Hypothesis P_arr : forall items, Forall P items -> P (VArr items).
Hypothesis P_obj : forall props, Forall (fun p => P (snd p)) props -> P (VObj props).

Fixpoint Value_nested_ind (v : Value) : P v :=
  match v with
  | VUndefined => P_undefined
  | VNull => P_null
  | VBool b => P_bool b
  | VNum n => P_num n
  | VStr s => P_str s
  | VArr items =>
      P_arr items
            ((fix all (l : list Value) : Forall P l :=
                match l with
                | [] => Forall_nil P
                | x :: xs => Forall_cons x (Value_nested_ind x) (all xs)
                end) items)
  | VObj props =>
      P_obj props
            ((fix all (l : list (string * Value))
                : Forall (fun p => P (snd p)) l :=
                match l with
                | [] => Forall_nil _
                | (k, x) :: xs =>
                    Forall_cons (k, x) (Value_nested_ind x) (all xs)
                end) props)
  end.
End ValueInduction.

(** * Properties *)

(** ** The heap *)

Lemma update_length {A : Type} (i : nat) (x : A) (l : list A) :
  List.length (update i x l) = List.length l.
Proof.
  revert i; induction l as [|h t IH]; intros [|j]; simpl; auto.
Qed.

Lemma nth_error_update_same {A : Type} (i : nat) (x y : A) (l : list A) :
  nth_error l i = Some y -> nth_error (update i x l) i = Some x.
Proof.
  revert i; induction l as [|h t IH]; intros [|j]; simpl; try discriminate; auto.
Qed.

Lemma nth_error_update_other {A : Type} (i j : nat) (x : A) (l : list A) :
  i <> j -> nth_error (update i x l) j = nth_error l j.
Proof.
  revert i j; induction l as [|h t IH]; intros [|i] [|j] Hne; simpl;
    try congruence; auto.
Qed.

Lemma nth_error_snoc_old {A : Type} (l : list A) (x y : A) (i : nat) :
  nth_error l i = Some y -> nth_error (l ++ [x]) i = Some y.
Proof.
  intros H. rewrite nth_error_app1; auto.
  apply nth_error_Some. congruence.
Qed.

(** ** The getter [response] *)

Lemma Request_response_fst (r : Request) :
  fst (Request_response r) = countInvocation r.
Proof.
  unfold Request_response.
  destruct (exception (countInvocation r)); [reflexivity|].
  destruct (_response (countInvocation r)); reflexivity.
Qed.

Lemma Request_response_exception (r : Request) (e : Error) :
  exception r = Some e -> Request_response r = (countInvocation r, Threw e).
Proof.
  intros H. unfold Request_response. simpl. rewrite H. reflexivity.
Qed.

(** ** Candidacy *)

Lemma exhausted_not_invokable (r : Request) :
  exhausted r -> isInvokable r = false.
Proof.
  intros [Hm Hc]. unfold isInvokable. rewrite Hm. simpl.
  apply Z.ltb_ge. lia.
Qed.

Lemma exhausted_not_for (r : Request) (uri : string) :
  exhausted r -> FilterableRequest_for r uri = false.
Proof.
  intros H. unfold FilterableRequest_for.
  rewrite (exhausted_not_invokable r H). apply andb_false_r.
Qed.

Lemma filterable_In heap requests ref r :
  In (ref, r) (filterable heap requests) <->
  In ref requests /\ nth_error heap ref = Some r.
Proof.
  unfold filterable. rewrite in_flat_map. split.
  - intros [i [Hi Hin]]. destruct (nth_error heap i) as [r0|] eqn:E.
    + destruct Hin as [Heq|[]]. inversion Heq; subst. auto.
    + destruct Hin.
  - intros [Hi Hr]. exists ref. split; auto. rewrite Hr. left; reflexivity.
Qed.

Lemma candidates_In heap requests uri ref r :
  In (ref, r) (candidates heap requests uri) <->
  In ref requests /\ nth_error heap ref = Some r
  /\ FilterableRequest_for r uri = true.
Proof.
  unfold candidates. rewrite filter_In, filterable_In. simpl. tauto.
Qed.

(** ** Lists: [find], and the head of a stable sort *)

Lemma find_filter {A : Type} (g p : A -> bool) (l : list A) :
  find p (filter g l) = find (fun x => g x && p x) l.
Proof.
  induction l as [|a l IH]; simpl; [reflexivity|].
  destruct (g a); simpl; [destruct (p a)|]; auto.
Qed.

Lemma find_first {A : Type} (p : A -> bool) (l : list A) (x : A) :
  find p l = Some x <->
  exists pre post, l = pre ++ x :: post /\ p x = true
                   /\ forall y, In y pre -> p y = false.
Proof.
  split.
  - induction l as [|a l IH]; simpl; [discriminate|].
    destruct (p a) eqn:E; intros H.
    + inversion H; subst. exists [], l. repeat split; auto. intros y [].
    + destruct (IH H) as (pre & post & -> & Hx & Hpre).
      exists (a :: pre), post. repeat split; auto.
      intros y [<-|Hy]; auto.
  - intros (pre & post & -> & Hx & Hpre).
    induction pre as [|a pre IH]; simpl.
    + rewrite Hx. reflexivity.
    + rewrite (Hpre a (or_introl eq_refl)). apply IH.
      intros y Hy. apply Hpre. right; exact Hy.
Qed.

Lemma find_none_iff {A : Type} (p : A -> bool) (l : list A) :
  find p l = None <-> forall y, In y l -> p y = false.
Proof.
  split; [apply find_none|].
  induction l as [|a l IH]; simpl; intros H; [reflexivity|].
  rewrite (H a (or_introl eq_refl)). apply IH. intros y Hy. apply H. auto.
Qed.

Section SortHead.
Context {A : Type} (f : A -> Z).

Local Abbreviation descending := (descendingBy f).

Lemma sortBy_nil (l : list A) : sortBy descending l = [] -> l = [].
Proof.
  destruct l as [|a l]; [reflexivity|]. simpl.
  destruct (sortBy descending l) as [|y ys]; simpl; [discriminate|].
  destruct (0 <? descending a y); discriminate.
Qed.

Lemma sortBy_hd_firstMax (l : list A) (x : A) :
  hd_error (sortBy descending l) = Some x ->
  exists pre post, firstMax f l x pre post.
Proof.
  revert x. induction l as [|a l IH]; simpl; intros x H; [discriminate|].
  destruct (sortBy descending l) as [|y ys] eqn:E; simpl in H.
  - inversion H; subst. apply sortBy_nil in E. subst.
    exists [], []. repeat split; auto; intros y [].
  - destruct (IH y eq_refl) as (pre & post & Hl & Hpre & Hpost).
    unfold descendingBy in H at 1.
    destruct (0 <? f y - f a) eqn:Hc; simpl in H; inversion H; subst x.
    + apply Z.ltb_lt in Hc.
      exists (a :: pre), post. split; [rewrite Hl; reflexivity|]. split; auto.
      intros z [<-|Hz]; [lia|auto].
    + apply Z.ltb_ge in Hc.
      exists [], l. split; [reflexivity|]. split; [intros z []|].
      intros z Hz. rewrite Hl in Hz. apply in_app_or in Hz.
      destruct Hz as [Hz|[<-|Hz]].
      * specialize (Hpre z Hz). lia.
      * lia.
      * specialize (Hpost z Hz). lia.
Qed.

Lemma firstMax_sortBy_hd (l : list A) (x : A) (pre post : list A) :
  firstMax f l x pre post -> hd_error (sortBy descending l) = Some x.
Proof.
  intros (Hl & Hpre & Hpost). subst l.
  induction pre as [|a pre IH]; simpl.
  - destruct (sortBy descending post) as [|y ys] eqn:E; simpl; [reflexivity|].
    destruct (sortBy_hd_firstMax post y) as (p1 & p2 & Hy & _ & _).
    { rewrite E. reflexivity. }
    assert (Hin : In y post) by (rewrite Hy; apply in_elt).
    specialize (Hpost y Hin). unfold descendingBy at 1.
    destruct (0 <? f y - f x) eqn:Hc; [apply Z.ltb_lt in Hc; lia|reflexivity].
  - assert (IH' : hd_error (sortBy descending (pre ++ x :: post)) = Some x).
    { apply IH. intros y Hy. apply Hpre. right; exact Hy. }
    destruct (sortBy descending (pre ++ x :: post)) as [|y ys]; simpl in IH';
      [discriminate|]. inversion IH'; subst y. simpl.
    specialize (Hpre a (or_introl eq_refl)). unfold descendingBy at 1.
    destruct (0 <? f x - f a) eqn:Hc; [reflexivity|apply Z.ltb_ge in Hc; lia].
Qed.

End SortHead.

(** ** The matcher *)

Lemma FilterableRequest_for_true (r : Request) (uri : string) :
  FilterableRequest_for r uri = true <->
  Request_uri r = Some uri /\ isInvokable r = true.
Proof.
  unfold FilterableRequest_for. rewrite andb_true_iff.
  destruct (Request_uri r) as [u|].
  - rewrite String.eqb_eq. split; intros [H1 H2]; split; congruence.
  - split; intros [H1 H2]; discriminate.
Qed.

Lemma matchFor_strict (heap : list Request) (requests : list Ref)
      (uri : string) (o : RequestOptions) :
  matchFor heap requests strict uri (Some o) =
  option_map fst
    (find (fun x => FilterableRequest_for (snd x) uri
                    && FilterableRequest_eq (snd x) o)
          (filterable heap requests)).
Proof.
  unfold matchFor, candidates. rewrite find_filter. reflexivity.
Qed.

Lemma fieldPasses_iff (r : Request) (o : RequestOptions) (key : MatcherKey) :
  negb (truthy (getOption o key))
  || ok (getOption o key) (getRequest r key) = true <->
  fieldPasses r o key.
Proof.
  unfold fieldPasses, ok, eq_.
  destruct (truthy (getOption o key)), (truthy (getRequest r key)); simpl;
    intuition congruence.
Qed.

Lemma FilterableRequest_pass_iff (r : Request) (o : RequestOptions) :
  FilterableRequest_pass r o = true <-> forall key, fieldPasses r o key.
Proof.
  unfold FilterableRequest_pass, matcherKeys. cbn [fold_left].
  rewrite !andb_true_iff, !fieldPasses_iff. split.
  - intros [[[_ Hh] Hp] Hb] key. destruct key; assumption.
  - intros H. repeat split; apply H.
Qed.

Lemma score__cases (expected actual : Value) :
  score_ expected actual =
  if truthy expected && truthy actual && deepEqual expected actual
  then 2 else 0.
Proof.
  unfold score_, ok, eq_.
  destruct (truthy expected), (truthy actual); simpl; try reflexivity.
  destruct (deepEqual expected actual); reflexivity.
Qed.

Lemma FilterableRequest_score_count (r : Request) (o : RequestOptions) :
  FilterableRequest_score r o =
  2 * Z.of_nat (List.length (filter (countsInScore r o) matcherKeys)).
Proof.
  unfold FilterableRequest_score, matcherKeys. cbn [fold_left].
  rewrite !score__cases. unfold filter, countsInScore.
  destruct (truthy (getRequest r K_headers) && truthy (getOption o K_headers)
            && deepEqual (getRequest r K_headers) (getOption o K_headers));
  destruct (truthy (getRequest r K_params) && truthy (getOption o K_params)
            && deepEqual (getRequest r K_params) (getOption o K_params));
  destruct (truthy (getRequest r K_body) && truthy (getOption o K_body)
            && deepEqual (getRequest r K_body) (getOption o K_body));
  reflexivity.
Qed.

Lemma matchFor_partial (heap : list Request) (requests : list Ref)
      (uri : string) (o : RequestOptions) :
  matchFor heap requests partial uri (Some o) =
  option_map fst
    (hd_error (sortBy (descendingBy (fun x => FilterableRequest_score (snd x) o))
                      (passing heap requests uri o))).
Proof. reflexivity. Qed.

(** Whatever the mode, the request [matchFor] returns is one of the
    candidates. *)
Lemma matchFor_candidate (heap : list Request) (requests : list Ref)
      (m : MatchMode) (uri : string) (options : option RequestOptions)
      (ref : Ref) :
  matchFor heap requests m uri options = Some ref ->
  exists r, In (ref, r) (candidates heap requests uri).
Proof.
  unfold matchFor. destruct m.
  - destruct (find _ _) as [[i r]|] eqn:E; simpl; [|discriminate].
    intros H; inversion H; subst. exists r.
    apply find_some in E. tauto.
  - set (o := match options with Some o => o | None => noOptions end).
    destruct (hd_error _) as [[i r]|] eqn:E; simpl; [|discriminate].
    intros H; inversion H; subst. exists r.
    apply (sortBy_hd_firstMax (fun x => FilterableRequest_score (snd x) o))
      in E.
    destruct E as (pre & post & Hl & _).
    assert (Hin : In (ref, r)
                     (filter (fun x => FilterableRequest_pass (snd x) o)
                             (candidates heap requests uri)))
      by (rewrite Hl; apply in_elt).
    apply filter_In in Hin. tauto.
Qed.

(** ** The adapter, case by case *)

Lemma nonempty_length {A : Type} (l : list A) :
  (0 <? List.length l)%nat = false <-> l = [].
Proof.
  destruct l; simpl; split; intros H; try reflexivity; discriminate.
Qed.

Lemma adapter_invalid (mock : HttpMock) (config : Config) :
  invalidRequests mock <> [] ->
  adapter mock config =
  (Throws (InvalidRequestsError
             (map (fun r => toJSON (snd r)) (invalidRequests mock))), mock).
Proof.
  intros H. unfold adapter.
  destruct (0 <? List.length (invalidRequests mock))%nat eqn:E; [reflexivity|].
  apply nonempty_length in E. contradiction.
Qed.

Lemma adapter_valid (mock : HttpMock) (config : Config) :
  invalidRequests mock = [] ->
  adapter mock config =
  match registryGet (config_method config) (registry mock) with
  | None => (Throws TypeError, mock)
  | Some requests =>
      match matchFor (heap mock) requests (mode mock) (config_uri config)
                     (Some (config_options config)) with
      | None =>
          (Throws (RequestNotFoundError
                     config (map (fun r => toJSON (snd r)) (registered mock))),
           mock)
      | Some request => settle request config mock
      end
  end.
Proof.
  intros H. unfold adapter. rewrite H. reflexivity.
Qed.

Lemma selects_Some (mock : HttpMock) (config : Config) (ref : Ref) :
  selects mock config = Some ref <->
  invalidRequests mock = []
  /\ exists requests,
       registryGet (config_method config) (registry mock) = Some requests
       /\ matchFor (heap mock) requests (mode mock) (config_uri config)
                   (Some (config_options config)) = Some ref.
Proof.
  unfold selects.
  destruct (0 <? List.length (invalidRequests mock))%nat eqn:E.
  - split; [discriminate|]. intros [H _]. rewrite H in E. discriminate.
  - apply nonempty_length in E. split.
    + intros H. split; [exact E|].
      destruct (registryGet _ _) as [requests|]; [|discriminate].
      exists requests. auto.
    + intros [_ (requests & -> & H)]. exact H.
Qed.

Lemma selects_candidate (mock : HttpMock) (config : Config) (ref : Ref) :
  selects mock config = Some ref ->
  exists r, nth_error (heap mock) ref = Some r
            /\ FilterableRequest_for r (config_uri config) = true.
Proof.
  intros H. apply selects_Some in H. destruct H as [_ (requests & _ & H)].
  apply matchFor_candidate in H. destruct H as [r H].
  apply candidates_In in H. exists r. tauto.
Qed.

Lemma adapter_selects (mock : HttpMock) (config : Config) (ref : Ref) :
  selects mock config = Some ref ->
  adapter mock config = settle ref config mock.
Proof.
  intros H. apply selects_Some in H. destruct H as [Hv (requests & Hg & Hm)].
  rewrite (adapter_valid _ _ Hv), Hg, Hm. reflexivity.
Qed.

Lemma adapter_selects_none (mock : HttpMock) (config : Config) :
  selects mock config = None ->
  snd (adapter mock config) = mock
  /\ exists e, fst (adapter mock config) = Throws e.
Proof.
  unfold selects, adapter.
  destruct (0 <? List.length (invalidRequests mock))%nat; [simpl; eauto|].
  destruct (registryGet _ _); [|simpl; eauto].
  intros ->. simpl; eauto.
Qed.

Lemma settle_state (request : Ref) (config : Config) (mock : HttpMock) :
  snd (settle request config mock) = configure request countInvocation mock.
Proof.
  unfold settle, configure.
  destruct (nth_error (heap mock) request) as [r|]; [|reflexivity].
  pose proof (Request_response_fst r) as Hf.
  destruct (Request_response r) as [r' got]. simpl in Hf. subst r'.
  destruct got as [response|e]; [|reflexivity].
  destruct (_ || _); reflexivity.
Qed.

Lemma settle_outcome (request : Ref) (config : Config) (mock : HttpMock)
      (r : Request) :
  nth_error (heap mock) request = Some r ->
  (forall e, fst (settle request config mock) <> Throws e)
  /\ (forall e, snd (Request_response r) = Threw e ->
                fst (settle request config mock) = Rejects e).
Proof.
  intros H. unfold settle. rewrite H.
  destruct (Request_response r) as [r' [response|e]]; simpl.
  - split; [|discriminate]. intros e. destruct (_ || _); discriminate.
  - split; [discriminate|]. intros e' He. inversion He. reflexivity.
Qed.

Lemma adapter_state (mock : HttpMock) (config : Config) :
  snd (adapter mock config) =
  match selects mock config with
  | Some ref => configure ref countInvocation mock
  | None => mock
  end.
Proof.
  destruct (selects mock config) as [ref|] eqn:E.
  - rewrite (adapter_selects _ _ _ E). apply settle_state.
  - apply adapter_selects_none. exact E.
Qed.

(** ** What the commands do to a request in the heap *)

Lemma configure_lookup (h : Ref) (f : Request -> Request) (mock : HttpMock)
      (ref : Ref) (r : Request) :
  nth_error (heap mock) ref = Some r ->
  nth_error (heap (configure h f mock)) ref
  = Some (if (h =? ref)%nat then f r else r).
Proof.
  intros H. unfold configure.
  destruct (h =? ref)%nat eqn:E.
  - apply Nat.eqb_eq in E. subst h. rewrite H. simpl.
    eapply nth_error_update_same; eauto.
  - apply Nat.eqb_neq in E.
    destruct (nth_error (heap mock) h); simpl; [|exact H].
    rewrite nth_error_update_other; auto.
Qed.

Lemma configure_registry (h : Ref) (f : Request -> Request) (mock : HttpMock) :
  registry (configure h f mock) = registry mock
  /\ mode (configure h f mock) = mode mock.
Proof.
  unfold configure. destruct (nth_error (heap mock) h); auto.
Qed.

Lemma grows_refl (r : Request) : grows r r.
Proof. split; auto. Qed.

Lemma grows_trans (a b c : Request) : grows a b -> grows b c -> grows a c.
Proof. intros [H1 H2] [H3 H4]. split; [lia|auto]. Qed.

Lemma grows_if (b : bool) (f : Request -> Request) (r : Request) :
  grows r (f r) -> grows r (if b then f r else r).
Proof. destruct b; auto using grows_refl. Qed.

Lemma exec_grows (mock : HttpMock) (c : Command) (ref : Ref) (r : Request) :
  nth_error (heap mock) ref = Some r ->
  exists r', nth_error (heap (exec mock c)) ref = Some r' /\ grows r r'.
Proof.
  intros H. destruct c; simpl.
  - exists r. split; [exact H|apply grows_refl].
  - exists r. split; [|apply grows_refl]. unfold on.
    destruct (registryGet m (registry mock)); simpl;
      apply nth_error_snoc_old; exact H.
  - eexists. split; [apply configure_lookup; exact H|].
    apply grows_if. split; simpl; auto.
  - eexists. split; [apply configure_lookup; exact H|].
    apply grows_if. split; simpl; auto.
  - eexists. split; [apply configure_lookup; exact H|].
    apply grows_if. split; simpl; auto.
  - eexists. split; [apply configure_lookup; exact H|].
    apply grows_if. split; simpl; auto.
  - eexists. split; [apply configure_lookup; exact H|].
    apply grows_if. unfold respondWith.
    destruct (if truthy response then _ else _). split; simpl; auto.
  - eexists. split; [apply configure_lookup; exact H|].
    apply grows_if. rewrite Request_response_fst. split; simpl; auto.
  - rewrite adapter_state. destruct (selects mock config) as [h|].
    + eexists. split; [apply configure_lookup; exact H|].
      apply grows_if. split; simpl; auto.
    + exists r. split; [exact H|apply grows_refl].
Qed.

Lemma run_grows (script : list Command) (mock : HttpMock) (ref : Ref)
      (r : Request) :
  nth_error (heap mock) ref = Some r ->
  exists r', nth_error (heap (run mock script)) ref = Some r' /\ grows r r'.
Proof.
  revert mock r. induction script as [|c script IH]; intros mock r H; simpl.
  - exists r. split; [exact H|apply grows_refl].
  - destruct (exec_grows mock c ref r H) as (r1 & H1 & G1).
    destruct (IH (exec mock c) r1 H1) as (r2 & H2 & G2).
    exists r2. split; [exact H2|]. eapply grows_trans; eauto.
Qed.

Lemma grows_exhausted (r r' : Request) :
  exhausted r -> grows r r' -> exhausted r'.
Proof. intros [Hm Hc] [G1 G2]. split; [auto|lia]. Qed.

(** Once exhausted, a definition is never a candidate again, whatever
    the test does next. *)
Lemma exhausted_forever (mock : HttpMock) (ref : Ref) (r : Request)
      (script : list Command) :
  nth_error (heap mock) ref = Some r -> exhausted r ->
  exists r', nth_error (heap (run mock script)) ref = Some r'
             /\ (forall u, FilterableRequest_for r' u = false)
             /\ (forall config, selects (run mock script) config <> Some ref).
Proof.
  intros H Hx. destruct (run_grows script mock ref r H) as (r' & H' & G).
  pose proof (grows_exhausted _ _ Hx G) as Hx'.
  exists r'. split; [exact H'|]. split.
  - intros u. apply exhausted_not_for. exact Hx'.
  - intros config Hs. apply selects_candidate in Hs.
    destruct Hs as (r'' & Hr & Hf). rewrite H' in Hr. inversion Hr; subst r''.
    rewrite (exhausted_not_for _ _ Hx') in Hf. discriminate.
Qed.

Lemma adapter_selected_request (mock : HttpMock) (config : Config) (ref : Ref)
      (r : Request) :
  selects mock config = Some ref -> nth_error (heap mock) ref = Some r ->
  nth_error (heap (snd (adapter mock config))) ref = Some (countInvocation r).
Proof.
  intros Hs Hr. rewrite adapter_state, Hs.
  rewrite (configure_lookup _ _ _ _ _ Hr), Nat.eqb_refl. reflexivity.
Qed.

Lemma counted_exhausted (r : Request) :
  maxInvocationCount r = Some 1 -> exhausted (countInvocation r).
Proof. intros H. split; simpl; [exact H|lia]. Qed.

(** ** The registry *)

Lemma registered_In (mock : HttpMock) (ref : Ref) (r : Request) :
  In (ref, r) (registered mock) <->
  exists m l, In (m, l) (registry mock) /\ In ref l
              /\ nth_error (heap mock) ref = Some r.
Proof.
  unfold registered. rewrite filterable_In, in_concat. split.
  - intros [(l & Hl & Hin) Hr]. apply in_map_iff in Hl.
    destruct Hl as ([m l'] & Heq & Hml). simpl in Heq. subst l'.
    exists m, l. auto.
  - intros (m & l & Hml & Hin & Hr). split; [|exact Hr].
    exists l. split; [|exact Hin]. apply in_map_iff. exists (m, l). auto.
Qed.

Lemma registryGet_reset (m : Method) (reg : MockRegistry) :
  registryGet m (map (fun entry => (fst entry, [])) reg)
  = match registryGet m reg with Some _ => Some [] | None => None end.
Proof.
  induction reg as [|[k l] reg IH]; simpl; [reflexivity|].
  destruct (Method_eqb k m); auto.
Qed.

Lemma concat_reset (reg : MockRegistry) :
  List.concat (map snd (map (fun entry : Method * list Ref => (fst entry, @nil Ref)) reg))
  = [].
Proof. induction reg as [|[k l] reg IH]; simpl; auto. Qed.

Lemma registered_reset (mock : HttpMock) : registered (reset mock) = [].
Proof. unfold registered, reset. simpl. rewrite concat_reset. reflexivity. Qed.

Lemma matchFor_nil (heap : list Request) (m : MatchMode) (uri : string)
      (options : option RequestOptions) :
  matchFor heap [] m uri options = None.
Proof. destruct m; reflexivity. Qed.

Lemma adapter_after_reset (mock : HttpMock) (config : Config) :
  registryGet (config_method config) (registry mock) <> None ->
  adapter (reset mock) config
  = (Throws (RequestNotFoundError config []), reset mock).
Proof.
  intros H. rewrite adapter_valid.
  - simpl registry. rewrite registryGet_reset.
    destruct (registryGet (config_method config) (registry mock));
      [|contradiction].
    rewrite matchFor_nil, registered_reset. reflexivity.
  - unfold invalidRequests. rewrite registered_reset. reflexivity.
Qed.

Lemma adapter_registry (mock : HttpMock) (config : Config) :
  registry (snd (adapter mock config)) = registry mock
  /\ mode (snd (adapter mock config)) = mode mock.
Proof.
  rewrite adapter_state. destruct (selects mock config); auto.
  apply configure_registry.
Qed.

(** ** Incomplete definitions *)

Lemma incomplete_invalid (r : Request) : incomplete r -> isValid r = false.
Proof.
  unfold isValid, Request_uri. intros [H|[H1 H2]].
  - rewrite H. reflexivity.
  - rewrite H1, H2. apply andb_false_r.
Qed.

(** C1. If any definition in any verb's sequence is incomplete (no URI
    or no outcome), dispatching any call throws the error for invalid
    definitions: the error is built from every request that fails
    [isValid], among them every incomplete one, whatever the verb it is
    registered under; the outcome does not depend on the call, nothing
    is matched, and the mock is left as it was. *)
Theorem invalid_definitions_fail_dispatch :
  forall (mock : HttpMock) (config : Config),
    (exists m l ref r, In (m, l) (registry mock) /\ In ref l
                       /\ nth_error (heap mock) ref = Some r /\ incomplete r) ->
    adapter mock config
    = (Throws (InvalidRequestsError
                 (map (fun x => toJSON (snd x)) (invalidRequests mock))), mock)
    /\ (forall m l ref r,
          In (m, l) (registry mock) -> In ref l ->
          nth_error (heap mock) ref = Some r -> incomplete r ->
          In (ref, r) (invalidRequests mock)
          /\ In (toJSON r)
                (map (fun x => toJSON (snd x)) (invalidRequests mock))).
Proof.
  intros mock config (m & l & ref & r & Hml & Hin & Hr & Hinc).
  assert (Hall : forall m l ref r,
             In (m, l) (registry mock) -> In ref l ->
             nth_error (heap mock) ref = Some r -> incomplete r ->
             In (ref, r) (invalidRequests mock)).
  { intros m' l' ref' r' H1 H2 H3 H4. unfold invalidRequests.
    apply filter_In. split.
    - apply registered_In. exists m', l'. auto.
    - simpl. rewrite (incomplete_invalid _ H4). reflexivity. }
  split.
  - apply adapter_invalid. intros Hnil.
    specialize (Hall m l ref r Hml Hin Hr Hinc). rewrite Hnil in Hall.
    destruct Hall.
  - intros m' l' ref' r' H1 H2 H3 H4.
    pose proof (Hall m' l' ref' r' H1 H2 H3 H4) as Hi. split; [exact Hi|].
    apply (in_map (fun x => toJSON (snd x))) in Hi. exact Hi.
Qed.

(** ** Strict mode *)

(** Where no scalar meets a scalar of another type, [assert.deepEqual]
    is the structural equality. *)
Lemma sameTypes_deepEqual (v1 v2 : Value) :
  sameTypes v1 v2 = true -> deepEqual v1 v2 = structEq v1 v2.
Proof.
  revert v2.
  induction v1 as [| |b|n|s|items IH|props IH] using Value_nested_ind;
    intros v2 H.
  1-5: destruct v2; simpl in *; try reflexivity; discriminate.
  - destruct v2 as [| |b|n|s|items2|props2]; try reflexivity.
    revert items2 H.
    induction IH as [|x xs Hx _ IHxs]; intros [|y ys] H; try reflexivity.
    simpl in H. apply andb_true_iff in H. destruct H as [H1 H2].
    change (deepEqual x y && deepEqual (VArr xs) (VArr ys)
            = structEq x y && structEq (VArr xs) (VArr ys)).
    rewrite (Hx y H1), (IHxs ys H2). reflexivity.
  - destruct v2 as [| |b|n|s|items2|props2]; try reflexivity.
    simpl. f_equal. simpl in H.
    induction IH as [|[k x] rest Hx _ IHrest]; [reflexivity|].
    simpl in Hx. apply andb_true_iff in H. destruct H as [H1 H2].
    rewrite (IHrest H2). f_equal.
    destruct (assoc k props2) as [y|]; [apply Hx; exact H1|reflexivity].
Qed.

Lemma strictlyMatches_iff (r : Request) (uri : string) (o : RequestOptions) :
  (FilterableRequest_for r uri = true ->
   forall key, sameTypes (getRequest r key) (getOption o key) = true) ->
  (FilterableRequest_for r uri && FilterableRequest_eq r o = true <->
   strictlyMatches r uri o).
Proof.
  intros Hs. unfold strictlyMatches, FilterableRequest_eq, eq_.
  rewrite !andb_true_iff. split.
  - intros [Hf [[Hh Hp] Hb]]. specialize (Hs Hf).
    apply FilterableRequest_for_true in Hf. destruct Hf as [Hu Hi].
    split; [exact Hu|]. split; [exact Hi|].
    intros key. rewrite <- (sameTypes_deepEqual _ _ (Hs key)).
    destruct key; assumption.
  - intros (Hu & Hi & Hk).
    assert (Hf : FilterableRequest_for r uri = true)
      by (apply FilterableRequest_for_true; split; assumption).
    specialize (Hs Hf). split; [exact Hf|].
    pose proof (Hk K_headers) as Hh. pose proof (Hk K_params) as Hp.
    pose proof (Hk K_body) as Hb.
    rewrite <- (sameTypes_deepEqual _ _ (Hs K_headers)) in Hh.
    rewrite <- (sameTypes_deepEqual _ _ (Hs K_params)) in Hp.
    rewrite <- (sameTypes_deepEqual _ _ (Hs K_body)) in Hb.
    repeat split; assumption.
Qed.

Lemma eq__absent_other (v : Value) :
  nullish v = false -> eq_ VUndefined v = false /\ eq_ v VUndefined = false.
Proof. destruct v; simpl; intros; try discriminate; split; reflexivity. Qed.

(** C2, amended.  In strict mode, for a call whose headers, params and
    body hold no scalar that meets, in the comparison with a candidate
    definition, a scalar of another type, the matcher returns the first
    definition, in registration order, whose URI is the call's, which
    is invokable, and whose headers, params and body are each
    deep-equal to the call's: absent on both sides is equal, absent
    against a value is not.  When every registered definition is valid,
    the call is settled with that definition, and if there is none the
    adapter throws the error for a request that was not found, leaving
    the mock as it was. *)
Theorem strict_mode_first_match :
  forall (mock : HttpMock) (config : Config) (requests : list Ref),
    mode mock = strict ->
    registryGet (config_method config) (registry mock) = Some requests ->
    (forall x key,
        In x (candidates (heap mock) requests (config_uri config)) ->
        sameTypes (getRequest (snd x) key)
                  (getOption (config_options config) key) = true) ->
    (forall ref,
        matchFor (heap mock) requests (mode mock) (config_uri config)
                 (Some (config_options config)) = Some ref <->
        exists r pre post,
          filterable (heap mock) requests = pre ++ (ref, r) :: post
          /\ strictlyMatches r (config_uri config) (config_options config)
          /\ forall x, In x pre ->
                       ~ strictlyMatches (snd x) (config_uri config)
                         (config_options config))
    /\ eq_ VUndefined VUndefined = true
    /\ (forall v, nullish v = false ->
                  eq_ VUndefined v = false /\ eq_ v VUndefined = false)
    /\ (invalidRequests mock = [] ->
        forall ref,
          matchFor (heap mock) requests (mode mock) (config_uri config)
                   (Some (config_options config)) = Some ref ->
          adapter mock config = settle ref config mock)
    /\ (invalidRequests mock = [] ->
        (forall x, In x (filterable (heap mock) requests) ->
                   ~ strictlyMatches (snd x) (config_uri config)
                     (config_options config)) ->
        adapter mock config
        = (Throws (RequestNotFoundError
                     config (map (fun x => toJSON (snd x)) (registered mock))),
           mock)).
Proof.
  intros mock config requests Hmode Hget Htypes. rewrite Hmode.
  assert (Hiff : forall x,
             In x (filterable (heap mock) requests) ->
             (FilterableRequest_for (snd x) (config_uri config)
              && FilterableRequest_eq (snd x) (config_options config) = true
              <-> strictlyMatches (snd x) (config_uri config)
                                  (config_options config))).
  { intros x Hin. apply strictlyMatches_iff. intros Hf key.
    apply Htypes. unfold candidates. apply filter_In. split; assumption. }
  split; [|split; [reflexivity|split; [exact eq__absent_other|split]]].
  - intros ref. rewrite matchFor_strict. split.
    + destruct (find _ _) as [[i r]|] eqn:E; simpl; [|discriminate].
      intros H; inversion H; subst i.
      apply find_first in E. destruct E as (pre & post & Hl & Hx & Hpre).
      exists r, pre, post. split; [exact Hl|]. split.
      * apply (Hiff (ref, r)); [|exact Hx].
        rewrite Hl. apply in_or_app. right. left. reflexivity.
      * intros x Hin Hs. apply (Hiff x) in Hs.
        -- rewrite (Hpre x Hin) in Hs. discriminate.
        -- rewrite Hl. apply in_or_app. left. exact Hin.
    + intros (r & pre & post & Hl & Hx & Hpre).
      assert (E : find (fun x => FilterableRequest_for (snd x) (config_uri config)
                                 && FilterableRequest_eq (snd x)
                                      (config_options config))
                       (filterable (heap mock) requests) = Some (ref, r)).
      { apply find_first. exists pre, post. split; [exact Hl|]. split.
        - apply (Hiff (ref, r)); [|exact Hx].
          rewrite Hl. apply in_or_app. right. left. reflexivity.
        - intros y Hy. apply not_true_is_false. intros Ht.
          apply (Hpre y Hy). apply (Hiff y); [|exact Ht].
          rewrite Hl. apply in_or_app. left. exact Hy. }
      rewrite E. reflexivity.
  - intros Hv ref Hm. rewrite (adapter_valid _ _ Hv), Hget, Hmode, Hm.
    reflexivity.
  - intros Hv Hnone. rewrite (adapter_valid _ _ Hv), Hget, Hmode.
    rewrite matchFor_strict.
    assert (E : find (fun x => FilterableRequest_for (snd x) (config_uri config)
                               && FilterableRequest_eq (snd x)
                                    (config_options config))
                     (filterable (heap mock) requests) = None).
    { apply find_none_iff. intros y Hy. apply not_true_is_false. intros Ht.
      apply (Hnone y Hy). apply (Hiff y Hy). exact Ht. }
    rewrite E. reflexivity.
Qed.

(** ** Partial mode *)

(** X22.  The filter of partial mode, as the code has it: a definition
    passes when, for each of headers, params and body, one of the two
    values is falsy or the two are deep-equal.  There is no subset
    matching: a definition with the params [{a, b}] does not pass for a
    call that brings [{a}] or [{a, c}]. *)
Theorem partial_mode_filter :
  forall (r : Request) (o : RequestOptions),
    (FilterableRequest_pass r o = true <-> forall key, fieldPasses r o key)
    /\ (forall a b c va vb wa wc,
          a <> b -> c <> a -> c <> b ->
          Request_params r = VObj [(a, va); (b, vb)] ->
          read (params o) = VObj [(a, wa)]
          \/ read (params o) = VObj [(a, wa); (c, wc)] ->
          FilterableRequest_pass r o = false).
Proof.
  intros r o. split; [apply FilterableRequest_pass_iff|].
  intros a b c va vb wa wc Hab Hca Hcb Hr Ho.
  apply not_true_is_false. intros Hp.
  rewrite FilterableRequest_pass_iff in Hp. specialize (Hp K_params).
  unfold fieldPasses in Hp. simpl getRequest in Hp. simpl getOption in Hp.
  rewrite Hr in Hp.
  assert (Hac : (a =? c)%string = false)
    by (apply String.eqb_neq; congruence).
  assert (Hbc : (b =? c)%string = false)
    by (apply String.eqb_neq; congruence).
  destruct Ho as [Ho|Ho]; rewrite Ho in Hp; simpl in Hp;
    destruct Hp as [Hp|[Hp|(_ & _ & Hp)]]; try discriminate.
  rewrite String.eqb_refl, Hac, Hbc in Hp.
  rewrite andb_false_r in Hp. discriminate.
Qed.

(** X23.  The choice of partial mode, as the code has it: the
    definition returned is the passing candidate that comes first, in
    registration order, among those of the highest score; none is
    returned only when no candidate passes; and the score is twice the
    number of fields among the three whose two values are both truthy
    and deep-equal. *)
Theorem partial_mode_choice :
  forall (heap : list Request) (requests : list Ref) (uri : string)
         (o : RequestOptions),
    (forall ref,
        matchFor heap requests partial uri (Some o) = Some ref <->
        exists r pre post,
          firstMax (fun x => FilterableRequest_score (snd x) o)
                   (passing heap requests uri o) (ref, r) pre post)
    /\ (matchFor heap requests partial uri (Some o) = None <->
        passing heap requests uri o = [])
    /\ (forall r,
          FilterableRequest_score r o
          = 2 * Z.of_nat (List.length (filter (countsInScore r o) matcherKeys))).
Proof.
  intros heap requests uri o.
  rewrite matchFor_partial. split; [|split].
  - intros ref. split.
    + destruct (hd_error _) as [[i r]|] eqn:E; simpl; [|discriminate].
      intros H; inversion H; subst i.
      apply sortBy_hd_firstMax in E. destruct E as (pre & post & E).
      exists r, pre, post. exact E.
    + intros (r & pre & post & E). apply firstMax_sortBy_hd in E.
      rewrite E. reflexivity.
  - split.
    + destruct (sortBy _ _) as [|x xs] eqn:E; simpl; [|discriminate].
      intros _. apply sortBy_nil in E. exact E.
    + intros ->. reflexivity.
  - intros r. apply FilterableRequest_score_count.
Qed.

(** ** Invocation accounting *)

(** C5.  A definition limited to one invocation ([once()]) is a
    candidate for a call to its URI as long as it has not been
    materialized, and after its first materialization (the adapter
    settling a call with it, or the getter read on its handle) it is
    never a candidate again, whatever is done to the mock next.  Each
    materialization adds exactly one to the count of the definition,
    and no command makes the count of any definition go down. *)
Theorem once_definition_matches_once :
  (forall r, maxInvocationCount (once r) = Some 1
             /\ invocationCount (once r) = invocationCount r)
  /\ (forall heap requests ref r u,
        In ref requests -> nth_error heap ref = Some r ->
        maxInvocationCount r = Some 1 -> invocationCount r = 0%nat ->
        Request_uri r = Some u ->
        In (ref, r) (candidates heap requests u))
  /\ (forall mock ref r c,
        nth_error (heap mock) ref = Some r ->
        maxInvocationCount r = Some 1 ->
        c = GetResponse ref
        \/ (exists config, c = Call config /\ selects mock config = Some ref) ->
        forall script,
        exists r', nth_error (heap (run (exec mock c) script)) ref = Some r'
                   /\ (forall u, FilterableRequest_for r' u = false)
                   /\ (forall requests u,
                         ~ In (ref, r')
                           (candidates (heap (run (exec mock c) script))
                                       requests u))
                   /\ (forall config,
                         selects (run (exec mock c) script) config <> Some ref))
  /\ (forall r, invocationCount (fst (Request_response r))
                = S (invocationCount r))
  /\ (forall mock config ref r,
        selects mock config = Some ref -> nth_error (heap mock) ref = Some r ->
        exists r', nth_error (heap (snd (adapter mock config))) ref = Some r'
                   /\ invocationCount r' = S (invocationCount r))
  /\ (forall mock script ref r,
        nth_error (heap mock) ref = Some r ->
        exists r', nth_error (heap (run mock script)) ref = Some r'
                   /\ (invocationCount r <= invocationCount r')%nat).
Proof.
  split; [intros r; split; reflexivity|].
  split.
  { intros heap requests ref r u Hin Hr Hm Hc Hu.
    apply candidates_In. split; [exact Hin|]. split; [exact Hr|].
    apply FilterableRequest_for_true. split; [exact Hu|].
    unfold isInvokable. rewrite Hm, Hc. reflexivity. }
  split.
  { intros mock ref r c Hr Hm Hc script.
    assert (H1 : nth_error (heap (exec mock c)) ref = Some (countInvocation r)).
    { destruct Hc as [->|(config & -> & Hs)]; simpl.
      - rewrite (configure_lookup _ _ _ _ _ Hr), Nat.eqb_refl.
        rewrite Request_response_fst. reflexivity.
      - apply adapter_selected_request; assumption. }
    destruct (exhausted_forever (exec mock c) ref (countInvocation r) script H1
                                (counted_exhausted r Hm))
      as (r' & Hr' & Hfor & Hsel).
    exists r'. split; [exact Hr'|]. split; [exact Hfor|]. split; [|exact Hsel].
    intros requests u Hin. apply candidates_In in Hin.
    destruct Hin as (_ & _ & Hf). rewrite Hfor in Hf. discriminate. }
  split; [intros r; rewrite Request_response_fst; reflexivity|].
  split.
  { intros mock config ref r Hs Hr. exists (countInvocation r).
    split; [apply adapter_selected_request; assumption|reflexivity]. }
  intros mock script ref r Hr.
  destruct (run_grows script mock ref r Hr) as (r' & Hr' & [G _]).
  exists r'. auto.
Qed.

(** C6.  A definition whose outcome is a failure (its exception is
    set, as [timeout()] sets it to the error "Timeout") never yields a
    response: the getter throws the configured error, and the promise
    the adapter returns for a call settled with the definition is
    rejected with that error. *)
Theorem failure_outcome_never_responds :
  forall (r : Request) (e : Error),
    exception r = Some e ->
    snd (Request_response r) = Threw e
    /\ (forall response, snd (Request_response r) <> Returned response)
    /\ (forall mock ref config,
          nth_error (heap mock) ref = Some r ->
          fst (settle ref config mock) = Rejects e
          /\ forall response, fst (settle ref config mock) <> Resolves response)
    /\ (forall r0, exception (timeout r0) = Some (JsError "Timeout")).
Proof.
  intros r e He. rewrite (Request_response_exception r e He). simpl.
  split; [reflexivity|]. split; [discriminate|]. split; [|reflexivity].
  intros mock ref config Hr.
  destruct (settle_outcome ref config mock r Hr) as [_ H].
  rewrite (H e) by (rewrite (Request_response_exception r e He); reflexivity).
  split; [reflexivity|discriminate].
Qed.

(** C7.  [reset()] keeps every key of the registry and leaves an empty
    sequence under each; a call that was matched before the reset,
    dispatched right after it, meets the error for a request that was
    not found. *)
Theorem reset_empties_registry :
  forall (mock : HttpMock),
    map fst (registry (reset mock)) = map fst (registry mock)
    /\ (forall m l, In (m, l) (registry (reset mock)) -> l = [])
    /\ (forall config ref,
          selects mock config = Some ref ->
          adapter (reset mock) config
          = (Throws (RequestNotFoundError config []), reset mock)
          /\ adapter (reset (snd (adapter mock config))) config
             = (Throws (RequestNotFoundError config []),
                reset (snd (adapter mock config)))).
Proof.
  intros mock. split; [|split].
  - unfold reset. simpl. rewrite map_map. reflexivity.
  - unfold reset. simpl. intros m l H. apply in_map_iff in H.
    destruct H as (entry & Heq & _). inversion Heq. reflexivity.
  - intros config ref Hs.
    assert (Hkey : registryGet (config_method config) (registry mock) <> None).
    { apply selects_Some in Hs. destruct Hs as [_ (requests & Hg & _)].
      congruence. }
    split; apply adapter_after_reset; [exact Hkey|].
    destruct (adapter_registry mock config) as [-> _]. exact Hkey.
Qed.

(** C8, amended.  For every definition whose limit is not 0 (unset, or
    the 1 that [once()] sets, the only limit the interface can set) and
    every count, [isInvokable] holds if and only if the limit is unset
    or the count is below the limit. *)
Theorem isInvokable_within_limit :
  forall (r : Request),
    maxInvocationCount r <> Some 0 ->
    (isInvokable r = true <-> withinLimit r).
Proof.
  intros r H0. unfold isInvokable, withinLimit.
  destruct (maxInvocationCount r) as [m|].
  - assert (Hm : m <> 0) by congruence.
    simpl. apply Z.eqb_neq in Hm. rewrite Hm. simpl. rewrite Z.ltb_lt.
    split.
    + intros H. right. exists m. auto.
    + intros [H|(m' & Heq & H)]; [discriminate|]. inversion Heq; subst. exact H.
  - split; auto.
Qed.

(** C9.  A dispatch never touches the registry or the mode.  When the
    adapter throws (invalid definitions, no match) the mock is exactly
    as it was.  Otherwise the only change is in the heap, at the one
    request the call is settled with, and in that request only the
    invocation count, which goes up by one. *)
Theorem dispatch_changes_only_selected_count :
  forall (mock : HttpMock) (config : Config),
    registry (snd (adapter mock config)) = registry mock
    /\ mode (snd (adapter mock config)) = mode mock
    /\ (forall e, fst (adapter mock config) = Throws e ->
                  snd (adapter mock config) = mock)
    /\ (snd (adapter mock config) = mock
        \/ exists ref r r',
            selects mock config = Some ref
            /\ nth_error (heap mock) ref = Some r
            /\ heap (snd (adapter mock config)) = update ref r' (heap mock)
            /\ invocationCount r' = S (invocationCount r)
            /\ method r' = method r /\ _uri r' = _uri r
            /\ options r' = options r /\ exception r' = exception r
            /\ _response r' = _response r
            /\ maxInvocationCount r' = maxInvocationCount r).
Proof.
  intros mock config.
  destruct (adapter_registry mock config) as [Hreg Hmode].
  split; [exact Hreg|]. split; [exact Hmode|].
  destruct (selects mock config) as [ref|] eqn:Hs.
  - destruct (selects_candidate _ _ _ Hs) as (r & Hr & _).
    split.
    + intros e He. rewrite (adapter_selects _ _ _ Hs) in He.
      destruct (settle_outcome ref config mock r Hr) as [Hno _].
      destruct (Hno e He).
    + right. exists ref, r, (countInvocation r).
      split; [reflexivity|]. split; [exact Hr|].
      split; [|simpl; repeat split; reflexivity].
      rewrite adapter_state, Hs. unfold configure. rewrite Hr. reflexivity.
  - destruct (adapter_selects_none _ _ Hs) as [Hsame _].
    split; [intros; exact Hsame|left; exact Hsame].
Qed.

(** C10.  The getter counts the invocation before it looks at the
    outcome: the count goes up by one also when the getter throws, be
    it the configured exception or the error for a response that was
    never configured.  So a definition with [once()] and a failure
    outcome, once a call has been settled with it (the promise is
    rejected with the failure), is never a candidate again. *)
Theorem raising_materialization_counts :
  (forall r e, snd (Request_response r) = Threw e ->
               invocationCount (fst (Request_response r))
               = S (invocationCount r))
  /\ (forall r e, exception r = Some e ->
                  Request_response r = (countInvocation r, Threw e))
  /\ (forall r, exception r = None -> _response r = None ->
                Request_response r
                = (countInvocation r,
                   Threw (UnconfiguredResponseError (method r) (_uri r)
                                                    (options r))))
  /\ (forall r, maxInvocationCount (timeout (once r)) = Some 1
                /\ exception (timeout (once r)) = Some (JsError "Timeout"))
  /\ (forall mock config ref r e,
        selects mock config = Some ref -> nth_error (heap mock) ref = Some r ->
        maxInvocationCount r = Some 1 -> exception r = Some e ->
        fst (adapter mock config) = Rejects e
        /\ forall script,
          exists r',
            nth_error (heap (run (snd (adapter mock config)) script)) ref
            = Some r'
            /\ (forall u, FilterableRequest_for r' u = false)
            /\ (forall config',
                  selects (run (snd (adapter mock config)) script) config'
                  <> Some ref)).
Proof.
  split; [intros r e _; rewrite Request_response_fst; reflexivity|].
  split; [exact Request_response_exception|].
  split.
  { intros r He Hr. unfold Request_response. simpl. rewrite He, Hr.
    reflexivity. }
  split; [intros r; split; reflexivity|].
  intros mock config ref r e Hs Hr Hm He. split.
  - rewrite (adapter_selects _ _ _ Hs).
    apply (settle_outcome ref config mock r Hr).
    rewrite (Request_response_exception r e He). reflexivity.
  - intros script.
    apply (exhausted_forever (snd (adapter mock config)) ref (countInvocation r)).
    + apply adapter_selected_request; assumption.
    + apply counted_exhausted. exact Hm.
Qed.

(** ** What holds of every mock a test can build *)

Lemma nth_error_update_inv {A : Type} (i j : nat) (x y : A) (l : list A) :
  nth_error (update i x l) j = Some y ->
  (j = i /\ y = x) \/ nth_error l j = Some y.
Proof.
  destruct (Nat.eq_dec i j) as [->|Hne].
  - intros H. destruct (nth_error l j) as [z|] eqn:E.
    + rewrite (nth_error_update_same j x z l E) in H. inversion H. auto.
    + assert (Hlen : (j < List.length (update j x l))%nat)
        by (apply nth_error_Some; congruence).
      rewrite update_length in Hlen. apply nth_error_Some in Hlen.
      contradiction.
  - rewrite nth_error_update_other by exact Hne. auto.
Qed.

Lemma configure_limits (h : Ref) (f : Request -> Request) (mock : HttpMock) :
  (forall r, maxInvocationCount (f r) = maxInvocationCount r
             \/ maxInvocationCount (f r) = Some 1) ->
  limitsUnsetOrOne mock -> limitsUnsetOrOne (configure h f mock).
Proof.
  intros Hf Hl ref r. unfold configure.
  destruct (nth_error (heap mock) h) as [r0|] eqn:E; [|apply Hl].
  simpl. intros H. apply nth_error_update_inv in H.
  destruct H as [[-> ->]|H]; [|eapply Hl; eauto].
  destruct (Hf r0) as [->| ->]; [eapply Hl; eauto|auto].
Qed.

Lemma exec_limits (mock : HttpMock) (c : Command) :
  limitsUnsetOrOne mock -> limitsUnsetOrOne (exec mock c).
Proof.
  intros Hl. destruct c; simpl; try (apply configure_limits; auto; fail).
  - exact Hl.
  - intros ref r H.
    assert (H' : nth_error (heap mock ++ [newRequest m]) ref = Some r).
    { unfold on in H. destruct (registryGet m (registry mock)); exact H. }
    destruct (Nat.lt_ge_cases ref (List.length (heap mock))) as [Hlt|Hge].
    + rewrite nth_error_app1 in H' by exact Hlt. eapply Hl; eauto.
    + rewrite nth_error_app2 in H' by exact Hge.
      destruct (ref - List.length (heap mock))%nat as [|[|k]]; simpl in H';
        inversion H'. auto.
  - apply configure_limits; auto. intros r. unfold respondWith.
    destruct (if truthy response then _ else _). auto.
  - apply configure_limits; auto. intros r. rewrite Request_response_fst. auto.
  - rewrite adapter_state. destruct (selects mock config); [|exact Hl].
    apply configure_limits; auto.
Qed.

Lemma registryPush_keys (m : Method) (ref : Ref) (reg : MockRegistry) :
  map fst (registryPush m ref reg) = map fst reg.
Proof.
  induction reg as [|[k l] reg IH]; simpl; [reflexivity|].
  destruct (Method_eqb k m); simpl; congruence.
Qed.

Lemma exec_keys (mock : HttpMock) (c : Command) :
  map fst (registry (exec mock c)) = map fst (registry mock).
Proof.
  destruct c; simpl;
    try (match goal with
         | |- context [configure ?h ?f mock] =>
             destruct (configure_registry h f mock) as [-> _]; reflexivity
         end).
  - rewrite map_map. reflexivity.
  - unfold on. destruct (registryGet m (registry mock)); simpl;
      [apply registryPush_keys|reflexivity].
  - destruct (adapter_registry mock config) as [-> _]. reflexivity.
Qed.

(** Every mock reached from [new HttpMock()] has the ten method keys,
    so that no lookup in its registry fails, and only limits that are
    unset or one. *)
Lemma reachable_mock (matching : option MatchMode) (script : list Command) :
  map fst (registry (run (newHttpMock matching) script)) = map fst emptyRegistry
  /\ limitsUnsetOrOne (run (newHttpMock matching) script)
  /\ forall m, registryGet m (registry (run (newHttpMock matching) script))
               <> None.
Proof.
  assert (H : forall mock,
             map fst (registry mock) = map fst emptyRegistry ->
             limitsUnsetOrOne mock ->
             map fst (registry (run mock script)) = map fst emptyRegistry
             /\ limitsUnsetOrOne (run mock script)).
  { induction script as [|c script IH]; intros mock Hk Hl; simpl; [auto|].
    apply IH; [rewrite exec_keys; exact Hk|apply exec_limits; exact Hl]. }
  destruct (H (newHttpMock matching)) as [Hk Hl].
  - reflexivity.
  - intros ref r Hr. destruct ref; discriminate.
  - split; [exact Hk|]. split; [exact Hl|].
    intros m. revert Hk.
    generalize (registry (run (newHttpMock matching) script)) as reg.
    intros reg Hk.
    assert (Hin : In m (map fst reg))
      by (rewrite Hk; destruct m; simpl; tauto).
    clear Hk. induction reg as [|[k l] reg IH]; simpl in *; [destruct Hin|].
    destruct (Method_eqb k m) eqn:E; [discriminate|].
    apply IH. destruct Hin as [->|Hin]; [|exact Hin].
    destruct m; discriminate.
Qed.

(** The two [TypeError] branches of the embedding (a method without
    an array in the registry, a reference without an object) are never
    taken by a mock a test can build. *)
Lemma adapter_never_TypeError (matching : option MatchMode)
      (script : list Command) (config : Config) :
  fst (adapter (run (newHttpMock matching) script) config) <> Throws TypeError.
Proof.
  destruct (reachable_mock matching script) as (_ & _ & Hget).
  set (mock := run (newHttpMock matching) script) in *.
  unfold adapter.
  destruct (0 <? List.length (invalidRequests mock))%nat; [discriminate|].
  destruct (registryGet (config_method config) (registry mock))
    as [requests|] eqn:E; [|destruct (Hget _ E)].
  destruct (matchFor _ _ _ _ _) as [ref|] eqn:Em; [|discriminate].
  apply matchFor_candidate in Em. destruct Em as [r Hr].
  apply candidates_In in Hr. destruct Hr as (_ & Hr & _).
  apply (settle_outcome ref config mock r Hr).
Qed.

(** * More of the code *)

(** ** [Request]: the builder methods *)

(** [o[key]] as an own property: [None] when [o] has no such key. *)
Definition field (o : RequestOptions) (key : MatcherKey) : option Value :=
  match key with
  | K_headers => headers o
  | K_params => params o
  | K_body => body o
  end.

Lemma spread_assoc (a b c : RequestOptions) :
  spread (spread a b) c = spread a (spread b c).
Proof.
  unfold spread. destruct a, b, c; simpl.
  f_equal; match goal with |- context [match ?x with _ => _ end] =>
                             destruct x end; reflexivity.
Qed.

Lemma spread_noOptions (a : RequestOptions) : spread noOptions a = a.
Proof.
  destruct a as [p b h]. unfold spread. simpl.
  destruct p, b, h; reflexivity.
Qed.

(** X1.  [with] merges key by key: calling it twice is calling it once
    with the spread of the two arguments, and an attribute of the
    request afterwards is what the argument holds under that key, an
    explicit [undefined] included, and what the request had before when
    the argument has no such key. *)
Theorem Request_with_merges :
  forall (r : Request) (a b : RequestOptions) (key : MatcherKey),
    Request_with b (Request_with a r) = Request_with (spread a b) r
    /\ getRequest (Request_with a r) key
       = match field a key with
         | Some v => v
         | None => getRequest r key
         end.
Proof.
  intros r a b key. split.
  - unfold Request_with. simpl. rewrite spread_assoc. reflexivity.
  - unfold Request_with. destruct key; simpl;
      unfold Request_headers, Request_params, Request_body; simpl;
      destruct (options r) as [old|]; simpl;
      destruct a as [p bd h]; simpl;
      match goal with |- context [match ?x with _ => _ end] =>
                        destruct x end; reflexivity.
Qed.

(** X2.  The builder methods touch different fields: two different
    ones can be called in either order, [to] and [respondWith] keep
    what the last call gave, [once] and [timeout] called twice are as
    called once. *)
Theorem builder_methods_compose :
  forall (r : Request) (u u' : string) (o : RequestOptions) (st st' : Z)
         (v v' : Value),
    Request_with o (Request_to u r) = Request_to u (Request_with o r)
    /\ once (Request_to u r) = Request_to u (once r)
    /\ timeout (Request_to u r) = Request_to u (timeout r)
    /\ respondWith st v (Request_to u r) = Request_to u (respondWith st v r)
    /\ once (Request_with o r) = Request_with o (once r)
    /\ timeout (Request_with o r) = Request_with o (timeout r)
    /\ respondWith st v (Request_with o r) = Request_with o (respondWith st v r)
    /\ timeout (once r) = once (timeout r)
    /\ respondWith st v (once r) = once (respondWith st v r)
    /\ respondWith st v (timeout r) = timeout (respondWith st v r)
    /\ Request_to u' (Request_to u r) = Request_to u' r
    /\ respondWith st' v' (respondWith st v r) = respondWith st' v' r
    /\ once (once r) = once r
    /\ timeout (timeout r) = timeout r.
Proof.
  intros r u u' o st st' v v'.
  unfold respondWith.
  destruct (if truthy v then _ else _) as [d h].
  destruct (if truthy v' then _ else _) as [d' h'].
  repeat split.
Qed.

(** A property of requests that every method of [Request] keeps is
    kept, for the request behind a reference, by everything a test does
    with the mock. *)
Lemma run_keeps (P : Request -> Prop) :
  (forall r u, P r -> P (Request_to u r)) ->
  (forall r o, P r -> P (Request_with o r)) ->
  (forall r, P r -> P (once r)) ->
  (forall r, P r -> P (timeout r)) ->
  (forall r st v, P r -> P (respondWith st v r)) ->
  (forall r, P r -> P (countInvocation r)) ->
  forall script mock ref r,
    nth_error (heap mock) ref = Some r -> P r ->
    exists r', nth_error (heap (run mock script)) ref = Some r' /\ P r'.
Proof.
  intros Hto Hwith Honce Htimeout Hrespond Hcount.
  assert (Hif : forall (b : bool) (f : Request -> Request) r,
             P r -> (P r -> P (f r)) -> P (if b then f r else r))
    by (intros [|] f r Hr Hf; auto).
  induction script as [|c script IH]; intros mock ref r H HP; simpl.
  - exists r. auto.
  - assert (Hstep : exists r1, nth_error (heap (exec mock c)) ref = Some r1
                               /\ P r1).
    { destruct c; simpl.
      - exists r. auto.
      - exists r. split; [|exact HP]. unfold on.
        destruct (registryGet m (registry mock)); simpl;
          apply nth_error_snoc_old; exact H.
      - eexists. split; [apply configure_lookup; exact H|]. apply Hif; auto.
      - eexists. split; [apply configure_lookup; exact H|]. apply Hif; auto.
      - eexists. split; [apply configure_lookup; exact H|]. apply Hif; auto.
      - eexists. split; [apply configure_lookup; exact H|]. apply Hif; auto.
      - eexists. split; [apply configure_lookup; exact H|]. apply Hif; auto.
      - eexists. split; [apply configure_lookup; exact H|]. apply Hif; auto.
        rewrite Request_response_fst. auto.
      - rewrite adapter_state. destruct (selects mock config) as [h|].
        + eexists. split; [apply configure_lookup; exact H|]. apply Hif; auto.
        + exists r. auto. }
    destruct Hstep as (r1 & H1 & HP1).
    apply (IH (exec mock c) ref r1 H1 HP1).
Qed.

(** X3.  No method clears an exception: once [timeout()] has been
    called on a request, whatever the test does next ([respondWith]
    included), the getter [response] of that request throws the error
    "Timeout" and never returns a response. *)
Theorem timeout_is_final :
  forall (mock : HttpMock) (ref : Ref) (r : Request) (script : list Command),
    nth_error (heap mock) ref = Some r ->
    exception r = Some (JsError "Timeout") ->
    exists r',
      nth_error (heap (run mock script)) ref = Some r'
      /\ exception r' = Some (JsError "Timeout")
      /\ snd (Request_response r') = Threw (JsError "Timeout").
Proof.
  intros mock ref r script H He.
  destruct (run_keeps (fun x => exception x = Some (JsError "Timeout")))
    with (script := script) (mock := mock) (ref := ref) (r := r)
    as (r' & Hr' & He'); auto.
  - intros x st v Hx. unfold respondWith.
    destruct (if truthy v then _ else _). exact Hx.
  - exists r'. split; [exact Hr'|]. split; [exact He'|].
    rewrite (Request_response_exception r' _ He'). reflexivity.
Qed.

(** ** [Request.isValid] *)

(** X4.  A request is valid exactly when its URI is a string that is
    not empty and a response or an exception is set.  So a definition
    sent to the empty URI is as invalid as one with no URI: while it is
    registered, every call meets the error for invalid definitions and
    the mock is left as it was. *)
Theorem empty_uri_is_invalid :
  forall (mock : HttpMock) (config : Config) (m : Method) (l : list Ref)
         (ref : Ref) (r : Request),
    In (m, l) (registry mock) -> In ref l ->
    nth_error (heap mock) ref = Some r -> _uri r = Some "" ->
    (forall x, isValid x = true <->
               (exists u, _uri x = Some u /\ u <> "")
               /\ (_response x <> None \/ exception x <> None))
    /\ In (ref, r) (invalidRequests mock)
    /\ adapter mock config
       = (Throws (InvalidRequestsError
                    (map (fun x => toJSON (snd x)) (invalidRequests mock))),
          mock).
Proof.
  intros mock config m l ref r Hml Hin Hr Hu.
  split; [|assert (Hinv : In (ref, r) (invalidRequests mock)); [|split]].
  - intros x. unfold isValid, Request_uri, uriTruthy. rewrite andb_true_iff.
    rewrite orb_true_iff. split.
    + intros [H1 H2]. split.
      * destruct (_uri x) as [u|]; [|discriminate]. exists u. split; auto.
        intros ->. discriminate.
      * destruct H2 as [H2|H2]; [left|right]; intros E; rewrite E in H2;
          discriminate.
    + intros [(u & -> & Hne) H2]. split.
      * simpl. apply negb_true_iff. apply String.eqb_neq. exact Hne.
      * destruct (_response x), (exception x); simpl; auto.
        destruct H2 as [H2|H2]; congruence.
  - unfold invalidRequests. apply filter_In. split.
    + apply registered_In. exists m, l. auto.
    + simpl. unfold isValid, Request_uri. rewrite Hu. reflexivity.
  - exact Hinv.
  - apply adapter_invalid. intros Hnil. rewrite Hnil in Hinv. destruct Hinv.
Qed.

(** ** [Request.respondWith] and the getter [response] *)

(** X5.  What [respondWith] stores comes back from the getter, as long
    as no exception is set.  The second argument is unpacked when it is
    an object whose [data] and [headers] are both defined; any other
    truthy value is the data as a whole, with empty headers; and a falsy
    one (absent, null, false, 0, the empty string) leaves the data
    undefined. *)
Theorem respondWith_round_trip :
  forall (r : Request) (st : Z) (v : Value),
    exception r = None ->
    (truthy v = false ->
     snd (Request_response (respondWith st v r))
     = Returned (mkResponse st (httpStatus st) VUndefined (VObj [])))
    /\ (forall props d h,
           v = VObj props -> assoc "data" props = Some d ->
           assoc "headers" props = Some h ->
           d <> VUndefined -> h <> VUndefined ->
           snd (Request_response (respondWith st v r))
           = Returned (mkResponse st (httpStatus st) d h))
    /\ (truthy v = true ->
        getProp v "data" = VUndefined \/ getProp v "headers" = VUndefined ->
        snd (Request_response (respondWith st v r))
        = Returned (mkResponse st (httpStatus st) v (VObj []))).
Proof.
  intros r st v He.
  assert (Hget : forall d h,
             (if truthy v then
                if isResponseWithHeaders v
                then (getProp v "data", getProp v "headers")
                else (v, VObj [])
              else (VUndefined, VObj [])) = (d, h) ->
             snd (Request_response (respondWith st v r))
             = Returned (mkResponse st (httpStatus st) d h)).
  { intros d h E. unfold respondWith. rewrite E.
    unfold Request_response. simpl. rewrite He. reflexivity. }
  split; [|split].
  - intros Hf. apply Hget. rewrite Hf. reflexivity.
  - intros props d h -> Hd Hh Hdn Hhn. apply Hget.
    unfold isResponseWithHeaders, getProp. rewrite Hd, Hh. simpl.
    destruct d; try contradiction; destruct h; try contradiction; reflexivity.
  - intros Ht Hu. apply Hget. rewrite Ht.
    unfold isResponseWithHeaders.
    destruct Hu as [-> | ->]; simpl; [reflexivity|].
    rewrite andb_false_r. reflexivity.
Qed.

(** ** [settle] *)

(** X6.  How [settle] reads the status of a configured response: the
    promise is resolved with the response when the status is 0, when
    the call has no [validateStatus], or when [validateStatus] accepts
    the status; otherwise it is rejected with an [AxiosError] whose code
    is [ERR_BAD_REQUEST] exactly for the statuses 400 to 499,
    [ERR_BAD_RESPONSE] exactly for 500 to 599, and no code for any
    other.  Either way the invocation is counted. *)
Theorem settle_reads_status :
  forall (mock : HttpMock) (ref : Ref) (config : Config) (r : Request)
         (response : Response),
    nth_error (heap mock) ref = Some r ->
    exception r = None -> _response r = Some response ->
    (status response = 0
     \/ validateStatus config = None
     \/ (exists valid, validateStatus config = Some valid
                       /\ valid (status response) = true) ->
     fst (settle ref config mock) = Resolves response)
    /\ (forall valid,
           status response <> 0 -> validateStatus config = Some valid ->
           valid (status response) = false ->
           fst (settle ref config mock)
           = Rejects (AxiosError response (axiosErrorCode (status response))))
    /\ (forall st, axiosErrorCode st = Some ERR_BAD_REQUEST <-> 400 <= st <= 499)
    /\ (forall st, axiosErrorCode st = Some ERR_BAD_RESPONSE <-> 500 <= st <= 599)
    /\ nth_error (heap (snd (settle ref config mock))) ref
       = Some (countInvocation r).
Proof.
  intros mock ref config r response Hr He Hresp.
  assert (Hs : settle ref config mock
               = (if negb (truthy (VNum (status response)))
                     || match validateStatus config with
                        | None => true
                        | Some valid => valid (status response)
                        end
                  then Resolves response
                  else Rejects (AxiosError response
                                           (axiosErrorCode (status response))),
                  mkMock (update ref (countInvocation r) (heap mock))
                         (registry mock) (mode mock))).
  { unfold settle. rewrite Hr. unfold Request_response. simpl.
    rewrite He, Hresp. destruct (_ || _); reflexivity. }
  assert (Hdiv : forall st q, st / 100 - 4 = q <-> 100 * (q + 4) <= st < 100 * (q + 4) + 100).
  { intros st q. pose proof (Z.div_mod st 100 ltac:(lia)) as Hd.
    pose proof (Z.mod_pos_bound st 100 ltac:(lia)) as Hm. split; intros H.
    - lia.
    - assert (st / 100 = q + 4); [|lia].
      symmetry. apply (Z.div_unique_pos st 100 (q + 4) (st - 100 * (q + 4)));
        lia. }
  split; [|split; [|split; [|split]]].
  - intros H. rewrite Hs. simpl fst.
    destruct H as [H|[H|(valid & H & Hv)]].
    + rewrite H. reflexivity.
    + rewrite H. rewrite orb_true_r. reflexivity.
    + rewrite H, Hv. rewrite orb_true_r. reflexivity.
  - intros valid H0 H Hv. rewrite Hs. simpl fst. rewrite H, Hv. simpl.
    apply Z.eqb_neq in H0. rewrite H0. reflexivity.
  - intros st. unfold axiosErrorCode.
    destruct (st / 100 - 4 =? 0) eqn:E0.
    + apply Z.eqb_eq in E0. apply Hdiv in E0. split; [lia|reflexivity].
    + apply Z.eqb_neq in E0. split.
      * destruct (st / 100 - 4 =? 1); discriminate.
      * intros H. exfalso. apply E0. apply Hdiv. lia.
  - intros st. unfold axiosErrorCode.
    destruct (st / 100 - 4 =? 0) eqn:E0.
    + apply Z.eqb_eq in E0. apply Hdiv in E0. split; [discriminate|lia].
    + destruct (st / 100 - 4 =? 1) eqn:E1.
      * apply Z.eqb_eq in E1. apply Hdiv in E1. split; [lia|reflexivity].
      * apply Z.eqb_neq in E1. split; [discriminate|].
        intros H. exfalso. apply E1. apply Hdiv. lia.
  - rewrite Hs. simpl. eapply nth_error_update_same. exact Hr.
Qed.

(** ** Invocation accounting, exactly *)

(** The command materializes the request behind [ref]: it reads the
    getter on that handle, or it is a call the adapter settles with
    that request. *)
Definition materializes (mock : HttpMock) (c : Command) (ref : Ref) : bool :=
  match c with
  | GetResponse h => (h =? ref)%nat
  | Call config =>
      match selects mock config with
      | Some h => (h =? ref)%nat
      | None => false
      end
  | _ => false
  end.

(** How many commands of the script materialize the request. *)
Fixpoint materializations (mock : HttpMock) (script : list Command) (ref : Ref)
  : nat :=
  match script with
  | [] => 0
  | c :: rest =>
      ((if materializes mock c ref then 1 else 0)
       + materializations (exec mock c) rest ref)%nat
  end.

Lemma exec_counts (mock : HttpMock) (c : Command) (ref : Ref) (r : Request) :
  nth_error (heap mock) ref = Some r ->
  exists r',
    nth_error (heap (exec mock c)) ref = Some r'
    /\ invocationCount r'
       = (invocationCount r + (if materializes mock c ref then 1 else 0))%nat.
Proof.
  intros H.
  assert (Hsame : forall (h : Ref) (f : Request -> Request),
             (forall x, invocationCount (f x) = invocationCount x) ->
             exists r',
               nth_error (heap (configure h f mock)) ref = Some r'
               /\ invocationCount r' = (invocationCount r + 0)%nat).
  { intros h f Hf. eexists. split; [apply configure_lookup; exact H|].
    destruct (h =? ref)%nat; [rewrite Hf|]; lia. }
  assert (Hup : forall (h : Ref),
             exists r',
               nth_error (heap (configure h countInvocation mock)) ref = Some r'
               /\ invocationCount r'
                  = (invocationCount r + (if (h =? ref)%nat then 1 else 0))%nat).
  { intros h. eexists. split; [apply configure_lookup; exact H|].
    destruct (h =? ref)%nat; simpl; lia. }
  destruct c; simpl; try (apply Hsame; reflexivity).
  - exists r. split; [exact H|lia].
  - exists r. split; [|lia]. unfold on.
    destruct (registryGet m (registry mock)); simpl;
      apply nth_error_snoc_old; exact H.
  - apply Hsame. intros x. unfold respondWith.
    destruct (if truthy response then _ else _). reflexivity.
  - destruct (Hup h) as (r' & Hr' & Hc). exists r'. split; [|exact Hc].
    rewrite <- Hr'. unfold configure.
    destruct (nth_error (heap mock) h) as [x|]; [|reflexivity].
    rewrite Request_response_fst. reflexivity.
  - rewrite adapter_state. destruct (selects mock config) as [h|].
    + apply Hup.
    + exists r. split; [exact H|lia].
Qed.

(** X7.  The count of a definition is the number of times it has been
    materialized, no more and no less: over any script, it goes up by
    the number of commands that read its getter or are calls settled
    with it. *)
Theorem count_is_materializations :
  forall (script : list Command) (mock : HttpMock) (ref : Ref) (r : Request),
    nth_error (heap mock) ref = Some r ->
    exists r',
      nth_error (heap (run mock script)) ref = Some r'
      /\ invocationCount r'
         = (invocationCount r + materializations mock script ref)%nat.
Proof.
  induction script as [|c script IH]; intros mock ref r H; simpl.
  - exists r. split; [exact H|lia].
  - destruct (exec_counts mock c ref r H) as (r1 & H1 & C1).
    destruct (IH (exec mock c) ref r1 H1) as (r2 & H2 & C2).
    exists r2. split; [exact H2|]. rewrite C2, C1. lia.
Qed.

(** ** The registry, and the methods *)

Lemma Method_eqb_eq (a b : Method) : Method_eqb a b = true <-> a = b.
Proof. destruct a, b; simpl; split; intros H; congruence. Qed.

Lemma registryGet_In (m : Method) (reg : MockRegistry) (l : list Ref) :
  registryGet m reg = Some l -> In (m, l) reg.
Proof.
  induction reg as [|[k l'] reg IH]; simpl; [discriminate|].
  destruct (Method_eqb k m) eqn:E.
  - apply Method_eqb_eq in E. intros H. inversion H. subst. auto.
  - auto.
Qed.

Lemma registryPush_get (m m' : Method) (ref : Ref) (reg : MockRegistry) :
  registryGet m' (registryPush m ref reg)
  = if Method_eqb m m'
    then match registryGet m reg with
         | Some l => Some (l ++ [ref])
         | None => None
         end
    else registryGet m' reg.
Proof.
  induction reg as [|[k l] reg IH]; simpl.
  - destruct (Method_eqb m m'); reflexivity.
  - destruct (Method_eqb k m) eqn:Ekm; simpl.
    + apply Method_eqb_eq in Ekm. subst k.
      destruct (Method_eqb m m'); reflexivity.
    + rewrite IH. destruct (Method_eqb k m') eqn:Ekm'; [|reflexivity].
      apply Method_eqb_eq in Ekm'. subst k.
      destruct (Method_eqb m m') eqn:E; [|reflexivity].
      apply Method_eqb_eq in E. subst m'.
      rewrite (proj2 (Method_eqb_eq m m) eq_refl) in Ekm. discriminate.
Qed.

Lemma registryPush_In (m : Method) (ref : Ref) (reg : MockRegistry)
      (k : Method) (l : list Ref) :
  In (k, l) (registryPush m ref reg) ->
  In (k, l) reg \/ (k = m /\ exists l0, In (m, l0) reg /\ l = l0 ++ [ref]).
Proof.
  induction reg as [|[k0 l0] reg IH]; simpl; [tauto|].
  destruct (Method_eqb k0 m) eqn:E; simpl.
  - apply Method_eqb_eq in E. subst k0.
    intros [H|H]; [|auto]. inversion H; subst. right. split; [reflexivity|].
    exists l0. auto.
  - intros [H|H]; [auto|].
    destruct (IH H) as [H'|(-> & l1 & H1 & ->)]; [auto|].
    right. split; [reflexivity|]. exists l1. auto.
Qed.

(** X8.  [on(m)] makes a new, unconfigured request for [m], returns its
    handle, and appends it to the sequence of [m]: the sequences of the
    other methods and the requests already made are as they were. *)
Theorem on_appends :
  forall (mock : HttpMock) (m : Method) (l : list Ref),
    registryGet m (registry mock) = Some l ->
    fst (on m mock) = Returned (List.length (heap mock))
    /\ registryGet m (registry (snd (on m mock)))
       = Some (l ++ [List.length (heap mock)])
    /\ (forall m', m' <> m ->
                   registryGet m' (registry (snd (on m mock)))
                   = registryGet m' (registry mock))
    /\ nth_error (heap (snd (on m mock))) (List.length (heap mock))
       = Some (newRequest m)
    /\ (forall ref r, nth_error (heap mock) ref = Some r ->
                      nth_error (heap (snd (on m mock))) ref = Some r)
    /\ mode (snd (on m mock)) = mode mock.
Proof.
  intros mock m l Hget. unfold on. rewrite Hget. simpl.
  split; [reflexivity|]. split; [|split; [|split; [|split]]].
  - rewrite registryPush_get, Hget.
    destruct (Method_eqb m m) eqn:E; [reflexivity|].
    assert (Method_eqb m m = true) by (apply Method_eqb_eq; reflexivity).
    congruence.
  - intros m' Hne. rewrite registryPush_get.
    destruct (Method_eqb m m') eqn:E; [|reflexivity].
    apply Method_eqb_eq in E. congruence.
  - rewrite nth_error_app2 by lia. rewrite Nat.sub_diag. reflexivity.
  - intros ref r H. apply nth_error_snoc_old. exact H.
  - reflexivity.
Qed.

(** Every reference the registry holds under a method is to a request
    made for that method. *)
Definition registryOfMethods (mock : HttpMock) : Prop :=
  forall k l ref,
    In (k, l) (registry mock) -> In ref l ->
    exists r, nth_error (heap mock) ref = Some r /\ method r = k.

Lemma configure_registryOfMethods (h : Ref) (f : Request -> Request)
      (mock : HttpMock) :
  (forall r, method (f r) = method r) ->
  registryOfMethods mock -> registryOfMethods (configure h f mock).
Proof.
  intros Hf Hinv k l ref Hkl Hin.
  destruct (configure_registry h f mock) as [Hreg _]. rewrite Hreg in Hkl.
  destruct (Hinv k l ref Hkl Hin) as (r & Hr & Hm).
  eexists. split; [apply configure_lookup; exact Hr|].
  destruct (h =? ref)%nat; [rewrite Hf|]; exact Hm.
Qed.

Lemma exec_registryOfMethods (mock : HttpMock) (c : Command) :
  registryOfMethods mock -> registryOfMethods (exec mock c).
Proof.
  intros Hinv.
  destruct c; simpl; try (apply configure_registryOfMethods; auto; fail).
  - intros k l ref Hkl Hin. unfold reset in Hkl. simpl in Hkl.
    apply in_map_iff in Hkl. destruct Hkl as (entry & Heq & _).
    inversion Heq; subst. destruct Hin.
  - unfold on. destruct (registryGet m (registry mock)) as [l0|] eqn:Hget.
    + intros k l ref Hkl Hin. simpl in *.
      apply registryPush_In in Hkl.
      destruct Hkl as [Hkl|(-> & l1 & Hl1 & ->)].
      * destruct (Hinv k l ref Hkl Hin) as (r & Hr & Hm).
        exists r. split; [apply nth_error_snoc_old; exact Hr|exact Hm].
      * apply in_app_or in Hin. destruct Hin as [Hin|[<-|[]]].
        -- destruct (Hinv m l1 ref Hl1 Hin) as (r & Hr & Hm).
           exists r. split; [apply nth_error_snoc_old; exact Hr|exact Hm].
        -- exists (newRequest m). split; [|reflexivity].
           rewrite nth_error_app2 by lia. rewrite Nat.sub_diag. reflexivity.
    + intros k l ref Hkl Hin. simpl in *.
      destruct (Hinv k l ref Hkl Hin) as (r & Hr & Hm).
      exists r. split; [apply nth_error_snoc_old; exact Hr|exact Hm].
  - apply configure_registryOfMethods; auto. intros r. unfold respondWith.
    destruct (if truthy response then _ else _). reflexivity.
  - apply configure_registryOfMethods; auto. intros r.
    rewrite Request_response_fst. reflexivity.
  - rewrite adapter_state. destruct (selects mock config); [|exact Hinv].
    apply configure_registryOfMethods; auto.
Qed.

Lemma reachable_registryOfMethods (matching : option MatchMode)
      (script : list Command) :
  registryOfMethods (run (newHttpMock matching) script).
Proof.
  assert (H : forall mock, registryOfMethods mock ->
                           registryOfMethods (run mock script)).
  { induction script as [|c script IH]; intros mock Hinv; simpl; [exact Hinv|].
    apply IH. apply exec_registryOfMethods. exact Hinv. }
  apply H. intros k l ref Hkl Hin. simpl in Hkl.
  repeat (destruct Hkl as [Hkl|Hkl];
          [inversion Hkl; subst; destruct Hin|]).
  destruct Hkl.
Qed.

(** X9.  In a mock built through the interface, a call is settled only
    with a definition registered for the method of the call: the
    request the adapter selects was made by [on] with that method. *)
Theorem selects_own_method :
  forall (matching : option MatchMode) (script : list Command)
         (config : Config) (ref : Ref),
    selects (run (newHttpMock matching) script) config = Some ref ->
    exists r,
      nth_error (heap (run (newHttpMock matching) script)) ref = Some r
      /\ method r = config_method config.
Proof.
  intros matching script config ref Hs.
  pose proof (reachable_registryOfMethods matching script) as Hinv.
  apply selects_Some in Hs. destruct Hs as [_ (requests & Hget & Hm)].
  apply matchFor_candidate in Hm. destruct Hm as [r Hc].
  apply candidates_In in Hc. destruct Hc as (Hin & Hr & _).
  apply registryGet_In in Hget.
  destruct (Hinv _ _ _ Hget Hin) as (r' & Hr' & Hmeth).
  exists r'. auto.
Qed.

(** ** [reset] *)

Definition isOn (c : Command) : bool :=
  match c with On _ => true | _ => false end.

Lemma map_emptied (reg : MockRegistry) :
  (forall k l, In (k, l) reg -> l = []) ->
  map (fun entry : Method * list Ref => (fst entry, @nil Ref)) reg = reg.
Proof.
  induction reg as [|[k l] reg IH]; simpl; intros H; [reflexivity|].
  rewrite (H k l (or_introl eq_refl)). f_equal.
  apply IH. intros k' l' H'. apply (H k' l'). right. exact H'.
Qed.

Lemma concat_emptied (reg : MockRegistry) :
  (forall k l, In (k, l) reg -> l = []) ->
  List.concat (map snd reg) = [].
Proof.
  induction reg as [|[k l] reg IH]; simpl; intros H; [reflexivity|].
  rewrite (H k l (or_introl eq_refl)). simpl.
  apply IH. intros k' l' H'. apply (H k' l'). right. exact H'.
Qed.

Lemma exec_keeps_emptied (mock : HttpMock) (c : Command) :
  isOn c = false ->
  (forall k l, In (k, l) (registry mock) -> l = []) ->
  registry (exec mock c) = registry mock.
Proof.
  intros Hc Hempty. destruct c; simpl; try discriminate;
    try (match goal with
         | |- context [configure ?h ?f mock] =>
             destruct (configure_registry h f mock) as [-> _]; reflexivity
         end).
  - unfold reset. simpl. apply map_emptied. exact Hempty.
  - destruct (adapter_registry mock config) as [-> _]. reflexivity.
Qed.

Lemma adapter_emptied (mock : HttpMock) (config : Config) :
  (forall k l, In (k, l) (registry mock) -> l = []) ->
  registryGet (config_method config) (registry mock) <> None ->
  adapter mock config = (Throws (RequestNotFoundError config []), mock).
Proof.
  intros Hempty Hkey.
  assert (Hreg : registered mock = []).
  { unfold registered. rewrite (concat_emptied _ Hempty). reflexivity. }
  rewrite adapter_valid by (unfold invalidRequests; rewrite Hreg; reflexivity).
  destruct (registryGet (config_method config) (registry mock)) as [l|] eqn:E;
    [|contradiction].
  apply registryGet_In in E. rewrite (Hempty _ _ E), matchFor_nil, Hreg.
  reflexivity.
Qed.

(** ** [eq]: deep equality *)

(** No key occurs twice in the property list. *)
Fixpoint noDupKeys (props : list (string * Value)) : bool :=
  match props with
  | [] => true
  | (k, _) :: rest => negb (isSome (assoc k rest)) && noDupKeys rest
  end.

(** A value as JavaScript has them: in every object, nested ones
    included, a key occurs once. *)
Fixpoint wellFormed (v : Value) : bool :=
  match v with
  | VArr items =>
      (fix all (l : list Value) : bool :=
         match l with
         | [] => true
         | x :: xs => wellFormed x && all xs
         end) items
  | VObj props =>
      noDupKeys props
      && (fix all (l : list (string * Value)) : bool :=
            match l with
            | [] => true
            | (_, x) :: xs => wellFormed x && all xs
            end) props
  | _ => true
  end.

Fixpoint all2 {A : Type} (f : A -> A -> bool) (l1 l2 : list A) : bool :=
  match l1, l2 with
  | [], [] => true
  | x :: xs, y :: ys => f x y && all2 f xs ys
  | _, _ => false
  end.

Lemma wellFormed_arr (items : list Value) :
  wellFormed (VArr items) = true <->
  Forall (fun x => wellFormed x = true) items.
Proof.
  induction items as [|x xs IH]; simpl.
  - split; auto.
  - rewrite andb_true_iff. simpl in IH. rewrite IH. split.
    + intros [H1 H2]. constructor; auto.
    + intros H. inversion H; subst. auto.
Qed.

Lemma wellFormed_obj (props : list (string * Value)) :
  wellFormed (VObj props) = true <->
  noDupKeys props = true /\ Forall (fun p => wellFormed (snd p) = true) props.
Proof.
  simpl. rewrite andb_true_iff.
  assert (H : (fix all (l : list (string * Value)) : bool :=
                 match l with
                 | [] => true
                 | (_, x) :: xs => wellFormed x && all xs
                 end) props = true
              <-> Forall (fun p => wellFormed (snd p) = true) props).
  { induction props as [|[k x] xs IH]; simpl.
    - split; auto.
    - rewrite andb_true_iff, IH. split.
      + intros [H1 H2]. constructor; auto.
      + intros H. inversion H; subst. auto. }
  rewrite H. tauto.
Qed.

Lemma deepEqual_arr (l1 l2 : list Value) :
  deepEqual (VArr l1) (VArr l2) = all2 deepEqual l1 l2.
Proof.
  revert l2. induction l1 as [|x xs IH]; intros [|y ys]; simpl; try reflexivity.
  f_equal. apply (IH ys).
Qed.

Lemma deepEqual_obj (o1 o2 : list (string * Value)) :
  deepEqual (VObj o1) (VObj o2)
  = (List.length o1 =? List.length o2)%nat
    && forallb (fun p => match assoc (fst p) o2 with
                         | Some y => deepEqual (snd p) y
                         | None => false
                         end) o1.
Proof.
  simpl. f_equal.
  induction o1 as [|[k x] rest IH]; simpl; [reflexivity|].
  rewrite IH. reflexivity.
Qed.

Lemma assoc_In (k : string) (props : list (string * Value)) (v : Value) :
  assoc k props = Some v -> In (k, v) props.
Proof.
  induction props as [|[k' v'] rest IH]; simpl; [discriminate|].
  destruct (k' =? k)%string eqn:E.
  - apply String.eqb_eq in E. intros H. inversion H. subst. auto.
  - auto.
Qed.

Lemma assoc_None (k : string) (props : list (string * Value)) :
  assoc k props = None <-> ~ In k (map fst props).
Proof.
  induction props as [|[k' v'] rest IH]; simpl; [tauto|].
  destruct (k' =? k)%string eqn:E.
  - apply String.eqb_eq in E. split; [discriminate|]. intros H. tauto.
  - apply String.eqb_neq in E. rewrite IH. tauto.
Qed.

Lemma noDupKeys_NoDup (props : list (string * Value)) :
  noDupKeys props = true <-> NoDup (map fst props).
Proof.
  induction props as [|[k v] rest IH]; simpl.
  - split; [constructor|reflexivity].
  - rewrite andb_true_iff, IH, negb_true_iff. split.
    + intros [H1 H2]. constructor; [|exact H2].
      apply assoc_None. destruct (assoc k rest); [discriminate|reflexivity].
    + intros H. inversion H; subst. split; [|assumption].
      apply assoc_None in H2. rewrite H2. reflexivity.
Qed.

Lemma In_assoc (k : string) (props : list (string * Value)) (v : Value) :
  NoDup (map fst props) -> In (k, v) props -> assoc k props = Some v.
Proof.
  induction props as [|[k' v'] rest IH]; simpl; [tauto|].
  intros Hnd [H|H].
  - inversion H; subst. rewrite String.eqb_refl. reflexivity.
  - inversion Hnd; subst.
    destruct (k' =? k)%string eqn:E; [|auto].
    apply String.eqb_eq in E. subst k'.
    exfalso. apply H2. apply (in_map fst) in H. exact H.
Qed.

Lemma looseEq_sym (a b : Value) : looseEq a b = looseEq b a.
Proof.
  destruct a, b; simpl; try reflexivity.
  - match goal with |- Bool.eqb ?x ?y = _ => destruct x, y; reflexivity end.
  - apply Z.eqb_sym.
  - apply String.eqb_sym.
Qed.

Lemma looseEq_refl (a : Value) :
  match a with VArr _ | VObj _ => True | _ => looseEq a a = true end.
Proof.
  destruct a; simpl; auto.
  - destruct b; reflexivity.
  - apply Z.eqb_refl.
  - apply String.eqb_refl.
Qed.

Lemma deepEqual_refl (v : Value) : wellFormed v = true -> deepEqual v v = true.
Proof.
  induction v as [| |b|n|s|items IH|props IH] using Value_nested_ind;
    intros Hwf;
    try (exact (looseEq_refl VUndefined) || exact (looseEq_refl VNull)
         || exact (looseEq_refl (VBool b)) || exact (looseEq_refl (VNum n))
         || exact (looseEq_refl (VStr s))).
  - rewrite deepEqual_arr. apply wellFormed_arr in Hwf.
    induction items as [|x xs IHxs]; simpl; [reflexivity|].
    inversion IH as [|? ? Hx IHrest]; subst.
    inversion Hwf as [|? ? Hwx Hwxs]; subst.
    rewrite (Hx Hwx). simpl. apply IHxs; assumption.
  - rewrite deepEqual_obj, Nat.eqb_refl. simpl.
    apply wellFormed_obj in Hwf. destruct Hwf as [Hnd Hwf].
    apply noDupKeys_NoDup in Hnd.
    apply forallb_forall. intros [k x] Hin. simpl.
    rewrite (In_assoc k props x Hnd Hin).
    rewrite Forall_forall in IH, Hwf.
    apply (IH (k, x) Hin). apply (Hwf (k, x) Hin).
Qed.

Lemma deepEqual_sym (v1 : Value) :
  wellFormed v1 = true ->
  forall v2, wellFormed v2 = true ->
             deepEqual v1 v2 = true -> deepEqual v2 v1 = true.
Proof.
  induction v1 as [| |b|n|s|items IH|props IH] using Value_nested_ind;
    intros Hwf1 v2 Hwf2 H;
    try (destruct v2; simpl in *; try discriminate;
         try exact H;
         first [match goal with
                | |- Bool.eqb ?x ?y = _ => destruct x, y; exact H
                end
               |rewrite Z.eqb_sym; exact H
               |rewrite String.eqb_sym; exact H]).
  - destruct v2 as [| |b|n|s|items2|props2]; try discriminate.
    rewrite deepEqual_arr in *.
    apply wellFormed_arr in Hwf1. apply wellFormed_arr in Hwf2.
    revert items2 Hwf2 H.
    induction items as [|x xs IHxs]; intros [|y ys] Hwf2 H; simpl in *;
      try discriminate; [reflexivity|].
    apply andb_true_iff in H. destruct H as [Hxy Hrest].
    inversion IH as [|? ? Hx IHrest]; subst.
    inversion Hwf1 as [|? ? Hwx Hwxs]; subst.
    inversion Hwf2 as [|? ? Hwy Hwys]; subst.
    rewrite (Hx Hwx y Hwy Hxy). simpl. apply IHxs; assumption.
  - destruct v2 as [| |b|n|s|items2|props2]; try discriminate.
    rewrite deepEqual_obj in *.
    apply andb_true_iff in H. destruct H as [Hlen Hkeys].
    apply Nat.eqb_eq in Hlen.
    apply wellFormed_obj in Hwf1. destruct Hwf1 as [Hnd1 Hwf1].
    apply wellFormed_obj in Hwf2. destruct Hwf2 as [Hnd2 Hwf2].
    apply noDupKeys_NoDup in Hnd1. apply noDupKeys_NoDup in Hnd2.
    rewrite forallb_forall in Hkeys.
    rewrite Forall_forall in IH, Hwf1, Hwf2.
    assert (Hincl : incl (map fst props) (map fst props2)).
    { intros k Hk. apply in_map_iff in Hk. destruct Hk as ([k' x] & <- & Hin).
      specialize (Hkeys (k', x) Hin). simpl in Hkeys.
      destruct (assoc k' props2) as [y|] eqn:E; [|discriminate].
      apply assoc_In in E. apply (in_map fst) in E. exact E. }
    assert (Hincl2 : incl (map fst props2) (map fst props)).
    { apply NoDup_length_incl; [exact Hnd1| |exact Hincl].
      rewrite !length_map. lia. }
    apply andb_true_iff. split; [apply Nat.eqb_eq; lia|].
    apply forallb_forall. intros [k y] Hin. simpl.
    assert (Hk : In k (map fst props))
      by (apply Hincl2; apply (in_map fst) in Hin; exact Hin).
    apply in_map_iff in Hk. destruct Hk as ([k' x] & Hkk & Hinx).
    simpl in Hkk. subst k'.
    rewrite (In_assoc k props x Hnd1 Hinx).
    specialize (Hkeys (k, x) Hinx). simpl in Hkeys.
    rewrite (In_assoc k props2 y Hnd2 Hin) in Hkeys.
    apply (IH (k, x) Hinx (Hwf1 (k, x) Hinx) y (Hwf2 (k, y) Hin) Hkeys).
Qed.

(** X11.  The deep equality of the matcher does not look at the order
    of keys: on well-formed values it is reflexive and symmetric, and
    an object is deep-equal to any rearrangement of its properties.  So
    is [FilterableRequest.eq] to the order in which a definition and a
    call list their headers, params and body. *)
Theorem eq_ignores_key_order :
  forall (o1 o2 : list (string * Value)),
    wellFormed (VObj o1) = true ->
    Permutation.Permutation o1 o2 ->
    eq_ (VObj o1) (VObj o2) = true
    /\ eq_ (VObj o2) (VObj o1) = true
    /\ (forall v, wellFormed v = true -> eq_ v v = true)
    /\ (forall a b, wellFormed a = true -> wellFormed b = true ->
                    eq_ a b = eq_ b a).
Proof.
  intros o1 o2 Hwf Hperm. unfold eq_.
  assert (Hwf2 : wellFormed (VObj o2) = true).
  { apply wellFormed_obj in Hwf. destruct Hwf as [Hnd Hall].
    apply wellFormed_obj. split.
    - apply noDupKeys_NoDup. apply noDupKeys_NoDup in Hnd.
      eapply Permutation.Permutation_NoDup; [|exact Hnd].
      apply Permutation.Permutation_map. exact Hperm.
    - eapply Permutation.Permutation_Forall; eauto. }
  assert (H12 : deepEqual (VObj o1) (VObj o2) = true).
  { rewrite deepEqual_obj. apply andb_true_iff. split.
    - apply Nat.eqb_eq. apply Permutation.Permutation_length. exact Hperm.
    - apply forallb_forall. intros [k x] Hin. simpl.
      apply wellFormed_obj in Hwf2. destruct Hwf2 as [Hnd2 _].
      apply noDupKeys_NoDup in Hnd2.
      rewrite (In_assoc k o2 x Hnd2)
        by (eapply Permutation.Permutation_in; eauto).
      apply deepEqual_refl.
      apply wellFormed_obj in Hwf. destruct Hwf as [_ Hall].
      rewrite Forall_forall in Hall. apply (Hall (k, x) Hin). }
  split; [exact H12|]. split; [apply deepEqual_sym; assumption|].
  split; [exact deepEqual_refl|].
  intros a b Ha Hb.
  destruct (deepEqual a b) eqn:E1; destruct (deepEqual b a) eqn:E2;
    try reflexivity.
  - rewrite (deepEqual_sym a Ha b Hb E1) in E2. discriminate.
  - rewrite (deepEqual_sym b Hb a Ha E2) in E1. discriminate.
Qed.

(** ** What the matcher looks at *)

(** Two requests the matcher and the validation cannot tell apart:
    the same in every field but the count, and invokable or not
    together. *)
Definition alike (a b : Request) : Prop :=
  method a = method b /\ _uri a = _uri b /\ options a = options b
  /\ exception a = exception b /\ _response a = _response b
  /\ isInvokable a = isInvokable b.

(** Two lists of wrapped requests: the same references, to requests
    that are alike. *)
Definition alikeLists (l1 l2 : list FilterableRequest) : Prop :=
  Forall2 (fun x y => fst x = fst y /\ alike (snd x) (snd y)) l1 l2.

Lemma alike_refl (a : Request) : alike a a.
Proof. repeat split. Qed.

Lemma alike_getRequest (a b : Request) (key : MatcherKey) :
  alike a b -> getRequest a key = getRequest b key.
Proof.
  intros (_ & _ & Ho & _). destruct key; simpl;
    unfold Request_headers, Request_params, Request_body; rewrite Ho;
    reflexivity.
Qed.

Lemma alike_for (a b : Request) (uri : string) :
  alike a b -> FilterableRequest_for a uri = FilterableRequest_for b uri.
Proof.
  intros (_ & Hu & _ & _ & _ & Hi). unfold FilterableRequest_for, Request_uri.
  rewrite Hu, Hi. reflexivity.
Qed.

Lemma alike_pass (a b : Request) (o : RequestOptions) :
  alike a b -> FilterableRequest_pass a o = FilterableRequest_pass b o.
Proof.
  intros H. unfold FilterableRequest_pass, matcherKeys. cbn [fold_left].
  rewrite !(alike_getRequest a b _ H). reflexivity.
Qed.

Lemma alike_score (a b : Request) (o : RequestOptions) :
  alike a b -> FilterableRequest_score a o = FilterableRequest_score b o.
Proof.
  intros H. unfold FilterableRequest_score, matcherKeys. cbn [fold_left].
  rewrite !(alike_getRequest a b _ H). reflexivity.
Qed.

Lemma alike_eq (a b : Request) (o : RequestOptions) :
  alike a b -> FilterableRequest_eq a o = FilterableRequest_eq b o.
Proof.
  intros H. unfold FilterableRequest_eq.
  pose proof (alike_getRequest a b K_headers H) as Hh.
  pose proof (alike_getRequest a b K_params H) as Hp.
  pose proof (alike_getRequest a b K_body H) as Hb.
  simpl in Hh, Hp, Hb. rewrite Hh, Hp, Hb. reflexivity.
Qed.

Lemma alike_isValid (a b : Request) : alike a b -> isValid a = isValid b.
Proof.
  intros (_ & Hu & _ & He & Hr & _). unfold isValid, Request_uri.
  rewrite Hu, He, Hr. reflexivity.
Qed.

Lemma alike_toJSON (a b : Request) : alike a b -> toJSON a = toJSON b.
Proof.
  intros H. pose proof H as (Hm & Hu & Ho & _). unfold toJSON, Request_uri,
    Request_headers, Request_params, Request_body.
  rewrite Hm, Hu, Ho. reflexivity.
Qed.

Section AlikeLists.
Context {A : Type} (R : A -> A -> Prop).

Lemma Forall2_filter (p q : A -> bool) (l1 l2 : list A) :
  (forall x y, R x y -> p x = q y) ->
  Forall2 R l1 l2 -> Forall2 R (filter p l1) (filter q l2).
Proof.
  intros Hpq H. induction H as [|x y l1 l2 Hxy H IH]; simpl; [constructor|].
  rewrite (Hpq x y Hxy). destruct (q y); [constructor|]; auto.
Qed.

Lemma Forall2_find (p q : A -> bool) (l1 l2 : list A) :
  (forall x y, R x y -> p x = q y) ->
  Forall2 R l1 l2 ->
  match find p l1, find q l2 with
  | Some x, Some y => R x y
  | None, None => True
  | _, _ => False
  end.
Proof.
  intros Hpq H. induction H as [|x y l1 l2 Hxy H IH]; simpl; [exact I|].
  rewrite (Hpq x y Hxy). destruct (q y); [exact Hxy|exact IH].
Qed.

Lemma Forall2_insertBy (c1 c2 : A -> A -> Z) (x y : A) (l1 l2 : list A) :
  (forall a b a' b', R a b -> R a' b' -> c1 a a' = c2 b b') ->
  R x y -> Forall2 R l1 l2 ->
  Forall2 R (insertBy c1 x l1) (insertBy c2 y l2).
Proof.
  intros Hc Hxy H. induction H as [|a b l1 l2 Hab H IH]; simpl.
  - constructor; [exact Hxy|constructor].
  - rewrite (Hc x y a b Hxy Hab).
    destruct (0 <? c2 y b); repeat constructor; auto.
Qed.

Lemma Forall2_sortBy (c1 c2 : A -> A -> Z) (l1 l2 : list A) :
  (forall a b a' b', R a b -> R a' b' -> c1 a a' = c2 b b') ->
  Forall2 R l1 l2 -> Forall2 R (sortBy c1 l1) (sortBy c2 l2).
Proof.
  intros Hc H. induction H as [|a b l1 l2 Hab H IH]; simpl; [constructor|].
  apply Forall2_insertBy; auto.
Qed.

End AlikeLists.

Lemma filterable_alike (heap1 heap2 : list Request) (requests : list Ref) :
  (forall ref, In ref requests ->
               match nth_error heap1 ref, nth_error heap2 ref with
               | Some a, Some b => alike a b
               | None, None => True
               | _, _ => False
               end) ->
  alikeLists (filterable heap1 requests) (filterable heap2 requests).
Proof.
  unfold alikeLists, filterable.
  induction requests as [|i rest IH]; intros H; simpl; [constructor|].
  pose proof (H i (or_introl eq_refl)) as Hi.
  assert (Hrest : Forall2 (fun x y => fst x = fst y /\ alike (snd x) (snd y))
                          (flat_map (fun i => match nth_error heap1 i with
                                              | Some r => [(i, r)]
                                              | None => []
                                              end) rest)
                          (flat_map (fun i => match nth_error heap2 i with
                                              | Some r => [(i, r)]
                                              | None => []
                                              end) rest)).
  { apply IH. intros ref Hin. apply H. right. exact Hin. }
  destruct (nth_error heap1 i), (nth_error heap2 i); simpl; try contradiction.
  - constructor; auto.
  - exact Hrest.
Qed.

(** The matcher gives the same answer on two heaps in which the
    requests of the array are alike. *)
Lemma matchFor_alike (heap1 heap2 : list Request) (requests : list Ref)
      (m : MatchMode) (uri : string) (options : option RequestOptions) :
  alikeLists (filterable heap1 requests) (filterable heap2 requests) ->
  matchFor heap1 requests m uri options = matchFor heap2 requests m uri options.
Proof.
  intros H. unfold matchFor, candidates.
  set (o := match options with Some o => o | None => noOptions end).
  assert (Hc : alikeLists
                 (filter (fun r => FilterableRequest_for (snd r) uri)
                         (filterable heap1 requests))
                 (filter (fun r => FilterableRequest_for (snd r) uri)
                         (filterable heap2 requests))).
  { apply Forall2_filter; [|exact H]. intros x y [_ Hxy].
    apply alike_for. exact Hxy. }
  destruct m.
  - pose proof (Forall2_find _
                  (fun r => FilterableRequest_eq (snd r) o)
                  (fun r => FilterableRequest_eq (snd r) o) _ _
                  (fun x y Hxy => alike_eq _ _ o (proj2 Hxy)) Hc) as Hf.
    destruct (find _ _) as [x|], (find _ _) as [y|]; simpl; try contradiction;
      [|reflexivity].
    destruct Hf as [-> _]. reflexivity.
  - assert (Hs : alikeLists
                   (sortBy (fun a b => FilterableRequest_score (snd b) o
                                       - FilterableRequest_score (snd a) o)
                           (filter (fun r => FilterableRequest_pass (snd r) o)
                                   (filter (fun r => FilterableRequest_for (snd r) uri)
                                           (filterable heap1 requests))))
                   (sortBy (fun a b => FilterableRequest_score (snd b) o
                                       - FilterableRequest_score (snd a) o)
                           (filter (fun r => FilterableRequest_pass (snd r) o)
                                   (filter (fun r => FilterableRequest_for (snd r) uri)
                                           (filterable heap2 requests))))).
    { apply Forall2_sortBy.
      - intros a b a' b' [_ Hab] [_ Hab'].
        rewrite (alike_score _ _ o Hab), (alike_score _ _ o Hab'). reflexivity.
      - apply Forall2_filter; [|exact Hc]. intros x y [_ Hxy].
        apply alike_pass. exact Hxy. }
    destruct Hs as [|x y l1 l2 [Hxy _] _]; simpl; [reflexivity|].
    rewrite Hxy. reflexivity.
Qed.

Lemma filter_flat_map_skip {A B : Type} (f : A -> list B) (p : B -> bool)
      (g : A -> bool) (l : list A) :
  (forall a, g a = false -> filter p (f a) = []) ->
  filter p (flat_map f l) = filter p (flat_map f (filter g l)).
Proof.
  intros H. induction l as [|a l IH]; [reflexivity|].
  cbn [flat_map filter]. rewrite filter_app, IH.
  destruct (g a) eqn:E; cbn [flat_map].
  - rewrite filter_app. reflexivity.
  - rewrite (H a E). reflexivity.
Qed.

(** A request that cannot be invoked is, for the matcher, as if it
    were not in the array. *)
Lemma candidates_without (heap : list Request) (requests : list Ref)
      (uri : string) (ref : Ref) (r : Request) :
  nth_error heap ref = Some r -> isInvokable r = false ->
  candidates heap requests uri
  = candidates heap (filter (fun i => negb (i =? ref)%nat) requests) uri.
Proof.
  intros Hr Hi. unfold candidates, filterable.
  apply filter_flat_map_skip. intros a Ha.
  apply negb_false_iff in Ha. apply Nat.eqb_eq in Ha. subst a.
  rewrite Hr. simpl. unfold FilterableRequest_for.
  rewrite Hi, andb_false_r. reflexivity.
Qed.

Lemma matchFor_without (heap : list Request) (requests : list Ref)
      (m : MatchMode) (uri : string) (options : option RequestOptions)
      (ref : Ref) (r : Request) :
  nth_error heap ref = Some r -> isInvokable r = false ->
  matchFor heap requests m uri options
  = matchFor heap (filter (fun i => negb (i =? ref)%nat) requests) m uri options.
Proof.
  intros Hr Hi. unfold matchFor.
  rewrite (candidates_without heap requests uri ref r Hr Hi). reflexivity.
Qed.

(** X12.  A definition limited to one invocation, once a call has been
    settled with it, is for every later match as if it had never been
    registered: the matcher answers on the new heap what it would have
    answered before the call on the array without that definition. *)
Theorem used_once_is_as_unregistered :
  forall (mock : HttpMock) (config : Config) (ref : Ref) (r : Request),
    selects mock config = Some ref ->
    nth_error (heap mock) ref = Some r ->
    maxInvocationCount r = Some 1 ->
    forall requests m uri options,
      matchFor (heap (snd (adapter mock config))) requests m uri options
      = matchFor (heap mock)
                 (filter (fun i => negb (i =? ref)%nat) requests) m uri options.
Proof.
  intros mock config ref r Hs Hr Hm requests m uri options.
  pose proof (adapter_selected_request mock config ref r Hs Hr) as Hr'.
  rewrite (matchFor_without _ requests m uri options ref (countInvocation r) Hr')
    by (apply exhausted_not_invokable; apply counted_exhausted; exact Hm).
  apply matchFor_alike. apply filterable_alike.
  intros i Hi. apply filter_In in Hi. destruct Hi as [_ Hne].
  apply negb_true_iff in Hne. apply Nat.eqb_neq in Hne.
  rewrite adapter_state, Hs. unfold configure. rewrite Hr. simpl.
  rewrite nth_error_update_other by congruence.
  destruct (nth_error (heap mock) i); [apply alike_refl|exact I].
Qed.

Lemma alikeLists_length (l1 l2 : list FilterableRequest) :
  alikeLists l1 l2 -> List.length l1 = List.length l2.
Proof. intros H. induction H; simpl; congruence. Qed.

(** X13.  A definition without a limit can be used again and again:
    settling a call with it changes nothing in how any later call is
    validated and matched, so the same call, repeated, is settled with
    the same definition. *)
Theorem unlimited_definition_is_reusable :
  forall (mock : HttpMock) (config : Config) (ref : Ref) (r : Request),
    selects mock config = Some ref ->
    nth_error (heap mock) ref = Some r ->
    maxInvocationCount r = None ->
    (forall config',
        selects (snd (adapter mock config)) config' = selects mock config')
    /\ selects (snd (adapter mock config)) config = Some ref.
Proof.
  intros mock config ref r Hs Hr Hm.
  assert (Hall : forall requests,
             alikeLists (filterable (heap (snd (adapter mock config))) requests)
                        (filterable (heap mock) requests)).
  { intros requests. apply filterable_alike. intros i _.
    rewrite adapter_state, Hs.
    unfold configure. rewrite Hr. simpl.
    destruct (Nat.eq_dec ref i) as [<-|Hne].
    - rewrite (nth_error_update_same ref _ r _ Hr), Hr.
      repeat split. unfold isInvokable. simpl. rewrite Hm. reflexivity.
    - rewrite nth_error_update_other by exact Hne.
      destruct (nth_error (heap mock) i); [apply alike_refl|exact I]. }
  assert (Hsel : forall config',
             selects (snd (adapter mock config)) config' = selects mock config').
  { intros config'. unfold selects.
    destruct (adapter_registry mock config) as [Hreg Hmode].
    assert (Hinv : List.length (invalidRequests (snd (adapter mock config)))
                   = List.length (invalidRequests mock)).
    { apply alikeLists_length. unfold invalidRequests, registered.
      rewrite Hreg. apply Forall2_filter; [|apply Hall].
      intros x y [_ Hxy]. rewrite (alike_isValid _ _ Hxy). reflexivity. }
    rewrite Hinv, Hreg, Hmode.
    destruct (0 <? _)%nat; [reflexivity|].
    destruct (registryGet _ _) as [requests|]; [|reflexivity].
    apply matchFor_alike. apply Hall. }
  split; [exact Hsel|]. rewrite Hsel. exact Hs.
Qed.

(** X14.  In partial mode a call that brings no attribute (headers,
    params and body all absent or falsy) is answered by the first
    definition, in registration order, that has the URI of the call and
    can be invoked, whatever attributes that definition was given. *)
Theorem partial_without_attributes_takes_first :
  forall (heap : list Request) (requests : list Ref) (uri : string)
         (o : RequestOptions),
    (forall key, truthy (getOption o key) = false) ->
    matchFor heap requests partial uri (Some o)
    = option_map fst (hd_error (candidates heap requests uri))
    /\ matchFor heap requests partial uri None
       = option_map fst (hd_error (candidates heap requests uri)).
Proof.
  assert (H : forall heap requests uri o,
             (forall key, truthy (getOption o key) = false) ->
             matchFor heap requests partial uri (Some o)
             = option_map fst (hd_error (candidates heap requests uri))).
  { intros heap requests uri o Ho. rewrite matchFor_partial.
    assert (Hpass : forall r, FilterableRequest_pass r o = true).
    { intros r. apply FilterableRequest_pass_iff. intros key.
      right. left. apply Ho. }
    assert (Hscore : forall r, FilterableRequest_score r o = 0).
    { intros r. rewrite FilterableRequest_score_count.
      unfold matcherKeys, filter, countsInScore.
      rewrite !Ho, !andb_false_r. reflexivity. }
    assert (Hp : passing heap requests uri o = candidates heap requests uri).
    { unfold passing. induction (candidates heap requests uri) as [|x l IH];
        simpl; [reflexivity|]. rewrite Hpass, IH. reflexivity. }
    rewrite Hp. destruct (candidates heap requests uri) as [|x l] eqn:E;
      [reflexivity|].
    rewrite (firstMax_sortBy_hd _ (x :: l) x [] l); [reflexivity|].
    split; [reflexivity|]. split; [intros y []|].
    intros y _. rewrite !Hscore. lia. }
  intros heap requests uri o Ho. split; [apply H; exact Ho|].
  apply (H heap requests uri noOptions). intros key. destruct key; reflexivity.
Qed.

Lemma matchFor_partial_None (heap : list Request) (requests : list Ref)
      (uri : string) (o : RequestOptions) :
  matchFor heap requests partial uri (Some o) = None ->
  passing heap requests uri o = [].
Proof.
  rewrite matchFor_partial.
  destruct (sortBy _ _) as [|x xs] eqn:E; simpl; [|discriminate].
  intros _. apply sortBy_nil in E. exact E.
Qed.

(** X15.  What strict mode matches, partial mode matches too: when the
    values are well formed and strict mode finds a definition for a
    call, partial mode finds one as well, whose score is at least the
    score of the definition strict mode found. *)
Theorem strict_match_is_partial_match :
  forall (heap : list Request) (requests : list Ref) (uri : string)
         (o : RequestOptions) (ref : Ref) (r : Request),
    matchFor heap requests strict uri (Some o) = Some ref ->
    nth_error heap ref = Some r ->
    (forall key, wellFormed (getRequest r key) = true
                 /\ wellFormed (getOption o key) = true) ->
    exists ref' r',
      matchFor heap requests partial uri (Some o) = Some ref'
      /\ nth_error heap ref' = Some r'
      /\ FilterableRequest_score r o <= FilterableRequest_score r' o.
Proof.
  intros heap requests uri o ref r Hm Hr Hwf.
  rewrite matchFor_strict in Hm.
  destruct (find _ _) as [[i x]|] eqn:E; [|discriminate].
  simpl in Hm. inversion Hm; subst i. clear Hm.
  apply find_some in E. destruct E as [Hin Hx]. simpl in Hx.
  apply filterable_In in Hin. destruct Hin as [Hin Hrx].
  rewrite Hr in Hrx. inversion Hrx; subst x. clear Hrx.
  apply andb_true_iff in Hx. destruct Hx as [Hfor Heq].
  assert (Hpass : FilterableRequest_pass r o = true).
  { apply FilterableRequest_pass_iff. intros key.
    destruct (truthy (getRequest r key)) eqn:Tr; [|left; exact Tr].
    destruct (truthy (getOption o key)) eqn:To; [|right; left; exact To].
    right. right. split; [exact Tr|]. split; [exact To|].
    destruct (Hwf key) as [Wr Wo].
    apply (deepEqual_sym _ Wr _ Wo).
    unfold FilterableRequest_eq, eq_ in Heq.
    apply andb_true_iff in Heq. destruct Heq as [Heq Hb].
    apply andb_true_iff in Heq. destruct Heq as [Hh Hp].
    destruct key; assumption. }
  assert (Hp : In (ref, r) (passing heap requests uri o)).
  { unfold passing. apply filter_In. split; [|exact Hpass].
    apply candidates_In. auto. }
  destruct (matchFor heap requests partial uri (Some o)) as [ref'|] eqn:Em.
  - pose proof Em as Em'. rewrite matchFor_partial in Em'.
    destruct (hd_error _) as [[i r']|] eqn:Eh; [|discriminate].
    simpl in Em'. inversion Em'; subst i.
    apply sortBy_hd_firstMax in Eh.
    destruct Eh as (pre & post & Hl & Hpre & Hpost).
    assert (Hin' : In (ref', r') (passing heap requests uri o))
      by (rewrite Hl; apply in_elt).
    exists ref', r'. split; [reflexivity|]. split.
    + unfold passing in Hin'. apply filter_In in Hin'. destruct Hin' as [Hc _].
      apply candidates_In in Hc. tauto.
    + rewrite Hl in Hp. apply in_app_or in Hp.
      destruct Hp as [Hp|[Hp|Hp]].
      * specialize (Hpre _ Hp). simpl in Hpre. lia.
      * inversion Hp. lia.
      * specialize (Hpost _ Hp). simpl in Hpost. lia.
  - exfalso.
    apply matchFor_partial_None in Em. rewrite Em in Hp. destruct Hp.
Qed.

(** * The boundary: src/util.ts and the adapter in full *)

(** ** [joinUri] *)

(** [s.replace(/\/$/, "")]: one slash at the very end, if there is
    one, is taken off. *)
Fixpoint stripTrailingSlash (s : string) : string :=
  match s with
  | EmptyString => EmptyString
  | String c rest =>
      match rest with
      | EmptyString => if Ascii.eqb c "/" then EmptyString else s
      | String _ _ => String c (stripTrailingSlash rest)
      end
  end.

(** What a part that may be [undefined] adds to the joined string. *)
Definition text (e : option string) : string :=
  match e with Some s => s | None => "" end.

(** [joinUri(base, ...remain)]; [uriTruthy] is [!!e] on a string that
    may be [undefined]. *)
Definition joinUri (base : option string) (remain : list (option string))
  : string :=
  let parts :=
    if uriTruthy base then [option_map stripTrailingSlash base] else [] in
  String.concat "" (map text (filter uriTruthy (parts ++ remain))).

(** ** [extractRequestHeaders] *)

(** The decimal text of a number, as [toString] gives it. *)
Variable NumberToString : Z -> string.

(** [JSON.parse], which throws on what is not JSON. *)
Variable JSONparse : Value -> Completion Value.

Definition Props : Type := list (string * Value).

(** [{ ...props, [k]: v }] *)
Fixpoint setProp (k : string) (v : Value) (props : Props) : Props :=
  match props with
  | [] => [(k, v)]
  | (k', v') :: rest =>
      if (k' =? k)%string then (k, v) :: rest else (k', v') :: setProp k v rest
  end.

(** [{ ...a, ...b }] *)
Definition spreadProps (a b : Props) : Props :=
  fold_left (fun acc entry => setProp (fst entry) (snd entry) acc) b a.

(** The key of an array index. *)
Definition indexKey (n : nat) : string :=
  DecimalString.NilZero.string_of_uint (Nat.to_uint n).

Fixpoint indexed (i : nat) (items : list Value) : Props :=
  match items with
  | [] => []
  | x :: xs => (indexKey i, x) :: indexed (S i) xs
  end.

Fixpoint characters (s : string) : list Value :=
  match s with
  | EmptyString => []
  | String c rest => VStr (String c EmptyString) :: characters rest
  end.

(** [Object.entries(v)] for a [v] that is not null or undefined. *)
Definition entries (v : Value) : Props :=
  match v with
  | VObj props => props
  | VArr items => indexed 0 items
  | VStr s => indexed 0 (characters s)
  | _ => []
  end.

(** The conversion of a value to a string: what [toString()] returns on
    a value that has the method, and what [join] makes of an item.  A
    plain object whose own property [toString] hides the method cannot
    be converted. *)
Fixpoint ToString (v : Value) : Completion string :=
  match v with
  | VUndefined => Returned "undefined"
  | VNull => Returned "null"
  | VBool b => Returned (if b then "true" else "false")
  | VNum n => Returned (NumberToString n)
  | VStr s => Returned s
  | VArr items =>
      match
        (fix each (l : list Value) : Completion (list string) :=
           match l with
           | [] => Returned []
           | x :: xs =>
               match match x with
                     | VUndefined | VNull => Returned ""
                     | _ => ToString x
                     end with
               | Threw e => Threw e
               | Returned s =>
                   match each xs with
                   | Threw e => Threw e
                   | Returned ss => Returned (s :: ss)
                   end
               end
           end) items
      with
      | Threw e => Threw e
      | Returned ss => Returned (String.concat "," ss)
      end
  | VObj props =>
      if isSome (assoc "toString" props) then Threw TypeError
      else Returned "[object Object]"
  end.

(** [v.toString()] *)
Definition toStringMethod (v : Value) : Completion string :=
  match v with
  | VUndefined | VNull => Threw TypeError
  | _ => ToString v
  end.

(** [items.map((v) => v.toString())] *)
Fixpoint mapToString (items : list Value) : Completion (list string) :=
  match items with
  | [] => Returned []
  | x :: xs =>
      match toStringMethod x with
      | Threw e => Threw e
      | Returned s =>
          match mapToString xs with
          | Threw e => Threw e
          | Returned ss => Returned (s :: ss)
          end
      end
  end.

(** [METHODS.includes(key)] *)
Definition isMethodName (key : string) : bool :=
  existsb (String.eqb key)
          ["get"; "delete"; "head"; "options"; "post"; "put"; "patch"; "purge";
           "link"; "unlink"].

(** The value a raw header value is turned into. *)
Definition headerValue (rawValue : Value) : Completion string :=
  match rawValue with
  | VArr items =>
      match mapToString items with
      | Threw e => Threw e
      | Returned ss => Returned (String.concat "; " ss)
      end
  | _ => toStringMethod rawValue
  end.

(** The reducer over [Object.entries(remaining)], from the headers so
    far. *)
Fixpoint reduceRemaining (es : Props) (headers : Props) : Completion Props :=
  match es with
  | [] => Returned headers
  | (key, rawValue) :: rest =>
      if negb (truthy rawValue) || isMethodName key
      then reduceRemaining rest headers
      else
        match headerValue rawValue with
        | Threw e => Threw e
        | Returned value => reduceRemaining rest (setProp key (VStr value) headers)
        end
  end.

(** [extractRequestHeaders(incoming)], [incoming] an object.  [common]
    is read and set apart, and [remaining] is the object of the other
    properties.  [commonHeaders] and [remainingHeaders] are each
    [undefined] ([None]) or an object; the function returns [undefined]
    when both are [undefined], and their spread otherwise. *)
Definition extractRequestHeaders (incoming : Props) : Completion Value :=
  let common := match assoc "common" incoming with
                | Some v => v
                | None => VUndefined
                end in
  let remaining : Value :=
    VObj (filter (fun entry => negb (fst entry =? "common")%string) incoming) in
  let commonHeaders : option Props :=
    if truthy common
    then Some (fold_left (fun headers entry =>
                            setProp (fst entry) (snd entry) headers)
                         (entries common) [])
    else None in
  match (if truthy remaining
         then match reduceRemaining (entries remaining) [] with
              | Threw e => Threw e
              | Returned headers => Returned (Some headers)
              end
         else Returned None) with
  | Threw e => Threw e
  | Returned remainingHeaders =>
      if negb (isSome commonHeaders) && negb (isSome remainingHeaders)
      then Returned VUndefined
      else
        Returned
          (VObj (spreadProps
                   (match commonHeaders with Some c => c | None => [] end)
                   (match remainingHeaders with Some h => h | None => [] end)))
  end.

(** ** [HttpMock.adapter], from the configuration Axios hands it *)

Record AxiosRequestConfig : Type := mkAxiosConfig {
  axios_method : Method;
  axios_baseURL : option string;
  axios_url : option string;
  axios_data : Value;
  axios_headers : option Props;
  axios_params : Value;
  axios_validateStatus : option (Z -> bool)
}.

(** Lines 68 to 89: the method, the joined URI and the options the
    matcher is given. *)
Definition readConfig (config : AxiosRequestConfig) : Completion Config :=
  let uri := joinUri (axios_baseURL config) [axios_url config] in
  match (if truthy (axios_data config)
         then JSONparse (axios_data config)
         else Returned VUndefined) with
  | Threw e => Threw e
  | Returned body =>
      match (match axios_headers config with
             | Some incoming => extractRequestHeaders incoming
             | None => Returned VUndefined
             end) with
      | Threw e => Threw e
      | Returned headers =>
          Returned (mkConfig (axios_method config) uri
                             (mkOptions (Some (axios_params config)) (Some body)
                                        (Some headers))
                             (axios_validateStatus config))
      end
  end.

(** The adapter in full: the validation, then the reading of the
    configuration, then the matcher and [settle]. *)
Definition axiosAdapter (mock : HttpMock) (config : AxiosRequestConfig)
  : Outcome * HttpMock :=
  if (0 <? List.length (invalidRequests mock))%nat then
    (Throws (InvalidRequestsError
               (map (fun r => toJSON (snd r)) (invalidRequests mock))), mock)
  else
    match readConfig config with
    | Threw e => (Throws e, mock)
    | Returned call => adapter mock call
    end.

(** ** [joinUri]: properties *)

Fixpoint endsWithSlash (s : string) : bool :=
  match s with
  | EmptyString => false
  | String c rest =>
      match rest with
      | EmptyString => Ascii.eqb c "/"
      | String _ _ => endsWithSlash rest
      end
  end.

(** The strings of a list, one after the other. *)
Definition joined (l : list string) : string := fold_right String.append "" l.

Lemma append_empty_r (s : string) : (s ++ "")%string = s.
Proof. induction s as [|c s IH]; simpl; congruence. Qed.

Lemma append_assoc (a b c : string) :
  ((a ++ b) ++ c)%string = (a ++ (b ++ c))%string.
Proof. induction a as [|x a IH]; simpl; congruence. Qed.

Lemma concat_empty_separator (l : list string) : String.concat "" l = joined l.
Proof.
  induction l as [|x l IH]; [reflexivity|].
  simpl. destruct l as [|y l].
  - simpl. rewrite append_empty_r. reflexivity.
  - rewrite IH. reflexivity.
Qed.

Lemma joined_app (l1 l2 : list string) :
  joined (l1 ++ l2) = (joined l1 ++ joined l2)%string.
Proof.
  induction l1 as [|x l1 IH]; simpl; [reflexivity|].
  rewrite IH, append_assoc. reflexivity.
Qed.

Lemma joined_truthy (l : list (option string)) :
  joined (map text (filter uriTruthy l)) = joined (map text l).
Proof.
  induction l as [|e l IH]; simpl; [reflexivity|].
  destruct e as [[|c s]|]; simpl; rewrite IH; reflexivity.
Qed.

Lemma stripTrailingSlash_added (b : string) :
  stripTrailingSlash (b ++ "/")%string = b.
Proof.
  induction b as [|c b IH]; [reflexivity|].
  change ((String c b ++ "/")%string) with (String c (b ++ "/")%string).
  simpl. rewrite IH.
  destruct b; reflexivity.
Qed.

Lemma stripTrailingSlash_none (b : string) :
  endsWithSlash b = false -> stripTrailingSlash b = b.
Proof.
  induction b as [|c b IH]; [reflexivity|].
  simpl. destruct b as [|c' b'].
  - intros ->. reflexivity.
  - intros H. rewrite (IH H). reflexivity.
Qed.

(** X16.  [joinUri] puts its parts one after the other and nothing in
    between: the base without one trailing slash, then the remaining
    parts as they are, a part that is undefined or empty adding
    nothing.  No separator is ever inserted and no other slash
    removed. *)
Theorem joinUri_concatenates :
  forall (base : option string) (remain : list (option string)),
    joinUri base remain
    = (stripTrailingSlash (text base) ++ joined (map text remain))%string
    /\ (forall url, joinUri base [url]
                    = (stripTrailingSlash (text base) ++ text url)%string)
    /\ joinUri None remain = joined (map text remain).
Proof.
  assert (H : forall base remain,
             joinUri base remain
             = (stripTrailingSlash (text base) ++ joined (map text remain))%string).
  { intros base remain. unfold joinUri.
    rewrite concat_empty_separator, joined_truthy, map_app, joined_app.
    f_equal. destruct base as [[|c s]|]; simpl; try reflexivity.
    rewrite append_empty_r. reflexivity. }
  intros base remain. split; [apply H|]. split.
  - intros url. rewrite H. simpl. rewrite append_empty_r. reflexivity.
  - rewrite H. reflexivity.
Qed.

(** X17.  One trailing slash of the base makes no difference, a second
    one does: a base given with a slash at its end joins as the base
    without it, so a base that does not end in a slash can be given
    either way. *)
Theorem joinUri_trailing_slash :
  forall (b : string) (remain : list (option string)),
    joinUri (Some (b ++ "/")%string) remain = (b ++ joined (map text remain))%string
    /\ (endsWithSlash b = false ->
        joinUri (Some b) remain = joinUri (Some (b ++ "/")%string) remain).
Proof.
  assert (H : forall base remain,
             joinUri base remain
             = (stripTrailingSlash (text base) ++ joined (map text remain))%string).
  { intros base remain. unfold joinUri.
    rewrite concat_empty_separator, joined_truthy, map_app, joined_app.
    f_equal. destruct base as [[|c s]|]; simpl; try reflexivity.
    rewrite append_empty_r. reflexivity. }
  intros b remain. split.
  - rewrite H. simpl. rewrite stripTrailingSlash_added. reflexivity.
  - intros Hb. rewrite !H. simpl.
    rewrite stripTrailingSlash_added, (stripTrailingSlash_none b Hb).
    reflexivity.
Qed.

(** ** [extractRequestHeaders]: properties *)

Lemma assoc_setProp_same (k : string) (v : Value) (props : Props) :
  assoc k (setProp k v props) = Some v.
Proof.
  induction props as [|[k' v'] rest IH]; simpl.
  - rewrite String.eqb_refl. reflexivity.
  - destruct (k' =? k)%string eqn:E; simpl.
    + rewrite String.eqb_refl. reflexivity.
    + rewrite E. exact IH.
Qed.

Lemma assoc_setProp_other (k k' : string) (v : Value) (props : Props) :
  k <> k' -> assoc k (setProp k' v props) = assoc k props.
Proof.
  intros Hne. induction props as [|[k0 v0] rest IH]; simpl.
  - apply String.eqb_neq in Hne. rewrite String.eqb_sym, Hne. reflexivity.
  - destruct (k0 =? k')%string eqn:E; simpl.
    + apply String.eqb_eq in E. subst k0.
      assert (Hk : (k' =? k)%string = false)
        by (apply String.eqb_neq; congruence).
      rewrite Hk. reflexivity.
    + rewrite IH. reflexivity.
Qed.

Lemma setProp_keys (k : string) (v : Value) (props : Props) :
  NoDup (map fst props) -> NoDup (map fst (setProp k v props)).
Proof.
  intros H.
  assert (Hk : forall x, In x (map fst (setProp k v props)) ->
                         x = k \/ In x (map fst props)).
  { induction props as [|[k0 v0] rest IH]; simpl.
    - intros x [<-|[]]. auto.
    - destruct (k0 =? k)%string eqn:E; simpl.
      + apply String.eqb_eq in E. subst k0. intros x [<-|Hx]; auto.
      + inversion H; subst. intros x [<-|Hx]; auto.
        destruct (IH H3 x Hx); auto. }
  clear Hk.
  induction props as [|[k0 v0] rest IH]; simpl.
  - constructor; [intros []|constructor].
  - inversion H as [|? ? Hnotin Hrest]; subst.
    destruct (k0 =? k)%string eqn:E; simpl.
    + apply String.eqb_eq in E. subst k0. constructor; assumption.
    + constructor; [|apply IH; exact Hrest].
      intros Hin. apply Hnotin.
      assert (Hsub : forall x, In x (map fst (setProp k v rest)) ->
                               x = k \/ In x (map fst rest)).
      { clear. induction rest as [|[k1 v1] rest IH]; simpl.
        - intros x [<-|[]]. auto.
        - destruct (k1 =? k)%string eqn:E; simpl.
          + apply String.eqb_eq in E. subst k1. intros x [<-|Hx]; auto.
          + intros x [<-|Hx]; auto. destruct (IH x Hx); auto. }
      destruct (Hsub k0 Hin) as [->|Hin']; [|exact Hin'].
      rewrite String.eqb_refl in E. discriminate.
Qed.

Lemma spreadProps_assoc (b a : Props) (k : string) :
  NoDup (map fst b) ->
  assoc k (spreadProps a b)
  = match assoc k b with Some v => Some v | None => assoc k a end.
Proof.
  unfold spreadProps. revert a.
  induction b as [|[k0 v0] rest IH]; intros a Hnd; simpl; [reflexivity|].
  inversion Hnd as [|? ? Hnotin Hrest]; subst.
  rewrite (IH _ Hrest).
  destruct (k0 =? k)%string eqn:E.
  - apply String.eqb_eq in E. subst k0.
    apply assoc_None in Hnotin. rewrite Hnotin.
    apply assoc_setProp_same.
  - destruct (assoc k rest); [reflexivity|].
    apply assoc_setProp_other. apply String.eqb_neq in E. congruence.
Qed.

Lemma reduceRemaining_keys (es headers result : Props) :
  NoDup (map fst headers) -> reduceRemaining es headers = Returned result ->
  NoDup (map fst result).
Proof.
  revert headers. induction es as [|[key raw] rest IH]; intros headers Hnd H;
    simpl in H.
  - inversion H. subst. exact Hnd.
  - destruct (negb (truthy raw) || isMethodName key).
    + apply (IH headers Hnd H).
    + destruct (headerValue raw) as [value|e]; [|discriminate].
      apply (IH _ (setProp_keys key (VStr value) headers Hnd) H).
Qed.

Lemma reduceRemaining_untouched (es headers result : Props) (k : string) :
  reduceRemaining es headers = Returned result ->
  (forall raw, In (k, raw) es ->
               negb (truthy raw) || isMethodName k = true) ->
  assoc k result = assoc k headers.
Proof.
  revert headers. induction es as [|[key raw] rest IH]; intros headers H Hk;
    simpl in H.
  - inversion H. reflexivity.
  - destruct (negb (truthy raw) || isMethodName key) eqn:Eskip.
    + apply (IH headers H). intros raw' Hin. apply Hk. right. exact Hin.
    + destruct (headerValue raw) as [value|e]; [|discriminate].
      rewrite (IH _ H) by (intros raw' Hin; apply Hk; right; exact Hin).
      apply assoc_setProp_other. intros ->.
      rewrite (Hk raw (or_introl eq_refl)) in Eskip. discriminate.
Qed.

Lemma reduceRemaining_kept (es headers result : Props) (k : string)
      (raw : Value) :
  NoDup (map fst es) -> In (k, raw) es ->
  truthy raw = true -> isMethodName k = false ->
  reduceRemaining es headers = Returned result ->
  exists s, headerValue raw = Returned s /\ assoc k result = Some (VStr s).
Proof.
  revert headers. induction es as [|[key raw0] rest IH];
    intros headers Hnd Hin Ht Hm H; [destruct Hin|].
  inversion Hnd as [|? ? Hnotin Hrest]; subst.
  simpl in H. destruct Hin as [Hhead|Hin].
  - inversion Hhead; subst key raw0. rewrite Ht, Hm in H. simpl in H.
    destruct (headerValue raw) as [value|e]; [|discriminate].
    exists value. split; [reflexivity|].
    rewrite (reduceRemaining_untouched rest _ result k H).
    + apply assoc_setProp_same.
    + intros raw' Hin'. exfalso. apply Hnotin.
      apply (in_map fst) in Hin'. exact Hin'.
  - destruct (negb (truthy raw0) || isMethodName key).
    + apply (IH headers Hrest Hin Ht Hm H).
    + destruct (headerValue raw0) as [value|e]; [|discriminate].
      apply (IH _ Hrest Hin Ht Hm H).
Qed.

(** The strings [join] makes of the items of an array. *)
Fixpoint itemStrings (l : list Value) : Completion (list string) :=
  match l with
  | [] => Returned []
  | x :: xs =>
      match match x with
            | VUndefined | VNull => Returned ""
            | _ => ToString x
            end with
      | Threw e => Threw e
      | Returned s =>
          match itemStrings xs with
          | Threw e => Threw e
          | Returned ss => Returned (s :: ss)
          end
      end
  end.

Lemma ToString_arr (items : list Value) :
  ToString (VArr items)
  = match itemStrings items with
    | Threw e => Threw e
    | Returned ss => Returned (String.concat "," ss)
    end.
Proof.
  assert (H : (fix each (l : list Value) : Completion (list string) :=
                 match l with
                 | [] => Returned []
                 | x :: xs =>
                     match match x with
                           | VUndefined | VNull => Returned ""
                           | _ => ToString x
                           end with
                     | Threw e => Threw e
                     | Returned s =>
                         match each xs with
                         | Threw e => Threw e
                         | Returned ss => Returned (s :: ss)
                         end
                     end
                 end) items = itemStrings items).
  { induction items as [|x xs IH]; [reflexivity|].
    cbn [itemStrings]. rewrite <- IH. reflexivity. }
  simpl. rewrite H. reflexivity.
Qed.

Lemma ToString_throws (v : Value) :
  forall e, ToString v = Threw e -> e = TypeError.
Proof.
  induction v as [| |b|n|s|items IH|props IH] using Value_nested_ind;
    intros e; try (simpl; discriminate).
  - rewrite ToString_arr.
    destruct (itemStrings items) as [ss|e0] eqn:E; [discriminate|].
    intros H. inversion H; subst e0. clear H.
    induction items as [|x xs IHxs]; simpl in E; [discriminate|].
    inversion IH as [|? ? Hx Hxs]; subst.
    destruct (match x with
              | VUndefined | VNull => Returned ""
              | _ => ToString x
              end) as [s|e0] eqn:Ex.
    + destruct (itemStrings xs) as [ss|e1]; [discriminate|].
      inversion E; subst. apply (IHxs Hxs eq_refl).
    + inversion E; subst. apply Hx.
      destruct x; try discriminate; exact Ex.
  - simpl. destruct (isSome (assoc "toString" props)); [|discriminate].
    intros H. inversion H. reflexivity.
Qed.

Lemma headerValue_throws (raw : Value) (e : Error) :
  headerValue raw = Threw e -> e = TypeError.
Proof.
  assert (Hm : forall v e', toStringMethod v = Threw e' -> e' = TypeError).
  { intros v e' H. destruct v.
    - inversion H. reflexivity.
    - inversion H. reflexivity.
    - discriminate H.
    - discriminate H.
    - discriminate H.
    - apply (ToString_throws (VArr items) e' H).
    - apply (ToString_throws (VObj props) e' H). }
  destruct raw; try (apply Hm).
  simpl.
  - destruct (mapToString items) as [ss|e0] eqn:E; [discriminate|].
    intros H. inversion H; subst. clear H.
    induction items as [|x xs IH]; simpl in E; [discriminate|].
    destruct (toStringMethod x) as [s|e1] eqn:Ex.
    + destruct (mapToString xs) as [ss|e2]; [discriminate|].
      inversion E; subst. apply IH. reflexivity.
    + inversion E; subst. apply (Hm x e Ex).
Qed.

Lemma reduceRemaining_throws (es headers : Props) (e : Error) :
  reduceRemaining es headers = Threw e -> e = TypeError.
Proof.
  revert headers. induction es as [|[key raw] rest IH]; intros headers H;
    simpl in H; [discriminate|].
  destruct (negb (truthy raw) || isMethodName key); [apply (IH _ H)|].
  destruct (headerValue raw) as [value|e0] eqn:E; [apply (IH _ H)|].
  inversion H; subst. apply (headerValue_throws raw e E).
Qed.

Lemma mapToString_strings (ss : list string) :
  mapToString (map VStr ss) = Returned ss.
Proof.
  induction ss as [|s ss IH]; simpl; [reflexivity|]. rewrite IH. reflexivity.
Qed.

(** The rest of a destructuring is an object, and an object is truthy:
    the guard on [remaining] always holds, [remainingHeaders] is never
    left [undefined], and the last test never succeeds. *)
Lemma extractRequestHeaders_reduces (incoming : Props) :
  extractRequestHeaders incoming
  = match reduceRemaining
            (filter (fun entry => negb (fst entry =? "common")%string) incoming)
            [] with
    | Threw e => Threw e
    | Returned remainingHeaders =>
        Returned
          (VObj (spreadProps
                   (match (if truthy (match assoc "common" incoming with
                                      | Some v => v
                                      | None => VUndefined
                                      end)
                           then Some (fold_left
                                        (fun headers entry =>
                                           setProp (fst entry) (snd entry) headers)
                                        (entries (match assoc "common" incoming with
                                                  | Some v => v
                                                  | None => VUndefined
                                                  end)) [])
                           else None) with
                    | Some c => c
                    | None => []
                    end)
                   remainingHeaders))
    end.
Proof.
  unfold extractRequestHeaders. cbn [truthy entries].
  destruct (reduceRemaining _ []) as [remainingHeaders|e]; [|reflexivity].
  cbn [isSome negb]. rewrite andb_false_r. reflexivity.
Qed.

Lemma extractRequestHeaders_object_or_throw (incoming : Props) :
  match extractRequestHeaders incoming with
  | Returned v => exists result, v = VObj result
  | Threw e => e = TypeError
  end.
Proof.
  rewrite extractRequestHeaders_reduces.
  destruct (reduceRemaining _ []) as [remainingHeaders|e] eqn:E.
  - eexists. reflexivity.
  - apply (reduceRemaining_throws _ _ e E).
Qed.

(** X18.  [extractRequestHeaders] never returns [undefined], although
    its last test looks as if it could: whatever the incoming headers,
    it returns an object, the empty one for empty headers, unless a
    value cannot be turned into a string, which is a [TypeError]. *)
Theorem extractRequestHeaders_returns_object :
  forall (incoming : Props),
    match extractRequestHeaders incoming with
    | Returned v => exists result, v = VObj result
    | Threw e => e = TypeError
    end
    /\ extractRequestHeaders [] = Returned (VObj []).
Proof.
  intros incoming. split; [|reflexivity].
  unfold extractRequestHeaders.
  assert (Hguard : forall props, truthy (VObj props) = true)
    by reflexivity.
  rewrite Hguard. cbn [entries].
  destruct (reduceRemaining _ []) as [remainingHeaders|e] eqn:E.
  - assert (Hlast : forall c : option Props,
               negb (isSome c) && negb (isSome (Some remainingHeaders)) = false)
      by (intros c; apply andb_false_r).
    rewrite Hlast. eexists. reflexivity.
  - apply (reduceRemaining_throws _ _ e E).
Qed.

(** X19.  What [extractRequestHeaders] lets through.  A header whose
    value is truthy and whose name is neither [common] nor the name of
    a method comes out under its name as a string: a string as it is, a
    list of strings joined with "; ", and it wins over an entry of
    [common] with the same name.  With no [common], a header that is
    falsy or named after a method does not come out at all. *)
Theorem extractRequestHeaders_lets_through :
  forall (incoming result : Props),
    noDupKeys incoming = true ->
    extractRequestHeaders incoming = Returned (VObj result) ->
    (forall k raw,
        In (k, raw) incoming -> k <> "common" -> truthy raw = true ->
        isMethodName k = false ->
        exists s, headerValue raw = Returned s
                  /\ assoc k result = Some (VStr s))
    /\ (forall s, s <> "" -> headerValue (VStr s) = Returned s)
    /\ (forall ss, headerValue (VArr (map VStr ss))
                   = Returned (String.concat "; " ss))
    /\ (assoc "common" incoming = None ->
        forall k,
          (forall raw, In (k, raw) incoming ->
                       truthy raw = false \/ isMethodName k = true) ->
          assoc k result = None).
Proof.
  intros incoming result Hnd H.
  apply noDupKeys_NoDup in Hnd.
  rewrite extractRequestHeaders_reduces in H.
  set (remaining := filter (fun entry => negb (fst entry =? "common")%string)
                           incoming) in *.
  destruct (reduceRemaining remaining []) as [remainingHeaders|e] eqn:E;
    [|discriminate].
  inversion H as [Hres]. clear H.
  assert (Hndr : NoDup (map fst remaining)).
  { unfold remaining. clear -Hnd.
    induction incoming as [|[k v] rest IH]; simpl; [constructor|].
    inversion Hnd as [|? ? Hnotin Hrest]; subst.
    destruct (negb (k =? "common")%string); simpl; [|auto].
    constructor; [|auto]. intros Hin. apply Hnotin.
    apply in_map_iff in Hin. destruct Hin as (x & Hx & Hin).
    apply filter_In in Hin. destruct Hin as [Hin _].
    apply in_map_iff. exists x. auto. }
  assert (Hndh : NoDup (map fst remainingHeaders)).
  { apply (reduceRemaining_keys remaining [] remainingHeaders); [constructor|].
    exact E. }
  split; [|split; [|split]].
  - intros k raw Hin Hk Ht Hm.
    assert (Hin' : In (k, raw) remaining).
    { unfold remaining. apply filter_In. split; [exact Hin|]. simpl.
      apply negb_true_iff. apply String.eqb_neq. exact Hk. }
    destruct (reduceRemaining_kept remaining [] remainingHeaders k raw
                                   Hndr Hin' Ht Hm E) as (s & Hs & Ha).
    exists s. split; [exact Hs|].
    rewrite (spreadProps_assoc _ _ k Hndh), Ha. reflexivity.
  - intros s Hs. destruct s; [contradiction|reflexivity].
  - intros ss. simpl. rewrite mapToString_strings. reflexivity.
  - intros Hc k Hk. rewrite Hc. simpl.
    rewrite (spreadProps_assoc _ _ k Hndh).
    rewrite (reduceRemaining_untouched remaining [] remainingHeaders k E).
    + reflexivity.
    + intros raw Hin. unfold remaining in Hin. apply filter_In in Hin.
      destruct Hin as [Hin _].
      destruct (Hk raw Hin) as [-> | ->]; [reflexivity|apply orb_true_r].
Qed.

(** ** The adapter in full: properties *)

(** X20.  The order in which the adapter can fail.  Invalid
    definitions come first: with one registered, the call meets the
    error for invalid definitions whatever its data.  Then the data: a
    call whose data is truthy and is not JSON throws what [JSON.parse]
    throws, before any matching, so that no definition is used up.  A
    call without data or headers goes to the matcher with both
    undefined. *)
Theorem axiosAdapter_failure_order :
  forall (mock : HttpMock) (config : AxiosRequestConfig),
    (invalidRequests mock <> [] ->
     axiosAdapter mock config
     = (Throws (InvalidRequestsError
                  (map (fun r => toJSON (snd r)) (invalidRequests mock))),
        mock))
    /\ (forall e,
           invalidRequests mock = [] -> truthy (axios_data config) = true ->
           JSONparse (axios_data config) = Threw e ->
           axiosAdapter mock config = (Throws e, mock))
    /\ (invalidRequests mock = [] -> truthy (axios_data config) = false ->
        axios_headers config = None ->
        axiosAdapter mock config
        = adapter mock
                  (mkConfig (axios_method config)
                            (joinUri (axios_baseURL config) [axios_url config])
                            (mkOptions (Some (axios_params config))
                                       (Some VUndefined) (Some VUndefined))
                            (axios_validateStatus config))).
Proof.
  intros mock config. unfold axiosAdapter. split; [|split].
  - intros H. destruct (0 <? List.length (invalidRequests mock))%nat eqn:E;
      [reflexivity|]. apply nonempty_length in E. contradiction.
  - intros e Hv Ht He. rewrite Hv. simpl. unfold readConfig.
    rewrite Ht, He. reflexivity.
  - intros Hv Ht Hh. rewrite Hv. simpl. unfold readConfig.
    rewrite Ht, Hh. reflexivity.
Qed.

Lemma deepEqual_object_right (v : Value) (props : Props) :
  deepEqual v (VObj props) = true -> exists props', v = VObj props'.
Proof.
  destruct v; simpl; try discriminate. intros _. eexists. reflexivity.
Qed.

Lemma deepEqual_undefined_right (v : Value) :
  deepEqual v VUndefined = true -> nullish v = true.
Proof. destruct v; simpl; try discriminate; reflexivity. Qed.

(** X21.  In strict mode the adapter settles a call that has a headers
    object, as every call of Axios has, only with a definition that was
    given headers, and a call without data only with a definition
    without a body: a definition configured with the URI alone is never
    used for such a call. *)
Theorem axiosAdapter_strict_needs_headers :
  forall (mock : HttpMock) (config : AxiosRequestConfig) (call : Config)
         (ref : Ref) (r : Request),
    mode mock = strict ->
    readConfig config = Returned call ->
    selects mock call = Some ref ->
    nth_error (heap mock) ref = Some r ->
    axiosAdapter mock config = settle ref call mock
    /\ (axios_headers config <> None ->
        exists props, Request_headers r = VObj props)
    /\ (truthy (axios_data config) = false ->
        nullish (Request_body r) = true).
Proof.
  intros mock config call ref r Hmode Hread Hs Hr.
  split.
  { unfold axiosAdapter. rewrite Hread.
    pose proof Hs as Hs'. apply selects_Some in Hs'. destruct Hs' as [Hv _].
    rewrite Hv. simpl. apply adapter_selects. exact Hs. }
  apply selects_Some in Hs. destruct Hs as [_ (requests & _ & Hm)].
  rewrite Hmode, matchFor_strict in Hm.
  destruct (find _ _) as [[i x]|] eqn:E; [|discriminate].
  simpl in Hm. inversion Hm; subst i. clear Hm.
  apply find_some in E. destruct E as [Hin Hx]. simpl in Hx.
  apply filterable_In in Hin. destruct Hin as [_ Hrx].
  rewrite Hr in Hrx. inversion Hrx; subst x. clear Hrx.
  apply andb_true_iff in Hx. destruct Hx as [_ Heq].
  unfold FilterableRequest_eq, eq_ in Heq.
  apply andb_true_iff in Heq. destruct Heq as [Heq Hb].
  apply andb_true_iff in Heq. destruct Heq as [Hh _].
  unfold readConfig in Hread.
  destruct (if truthy (axios_data config) then _ else _) as [body|e] eqn:Eb;
    [|discriminate].
  destruct (match axios_headers config with
            | Some incoming => extractRequestHeaders incoming
            | None => Returned VUndefined
            end) as [hs|e] eqn:Eh; [|discriminate].
  inversion Hread; subst call. simpl in Hh, Hb. split.
  - intros Hsome. destruct (axios_headers config) as [incoming|];
      [|contradiction].
    pose proof (extractRequestHeaders_object_or_throw incoming) as Ho.
    rewrite Eh in Ho. destruct Ho as [result ->].
    apply (deepEqual_object_right _ _ Hh).
  - intros Ht. rewrite Ht in Eb. inversion Eb; subst body.
    apply (deepEqual_undefined_right _ Hb).
Qed.

Lemma readConfig_method (config : AxiosRequestConfig) (call : Config) :
  readConfig config = Returned call -> config_method call = axios_method config.
Proof.
  unfold readConfig.
  destruct (if truthy (axios_data config) then JSONparse (axios_data config)
            else Returned VUndefined) as [body|e]; [|discriminate].
  destruct (match axios_headers config with
            | Some incoming => extractRequestHeaders incoming
            | None => Returned VUndefined
            end) as [headers|e]; [|discriminate].
  intros H. inversion H. reflexivity.
Qed.

Lemma readConfig_throws (config : AxiosRequestConfig) (e : Error) :
  readConfig config = Threw e ->
  (truthy (axios_data config) = true
   /\ JSONparse (axios_data config) = Threw e)
  \/ e = TypeError.
Proof.
  unfold readConfig.
  destruct (truthy (axios_data config)).
  - destruct (JSONparse (axios_data config)) as [body|e0].
    + destruct (axios_headers config) as [incoming|]; [|discriminate].
      pose proof (extractRequestHeaders_object_or_throw incoming) as Hx.
      destruct (extractRequestHeaders incoming) as [headers|e1];
        [discriminate|].
      intros H. inversion H. right. congruence.
    + intros H. inversion H; subst. left. split; reflexivity.
  - destruct (axios_headers config) as [incoming|]; [|discriminate].
    pose proof (extractRequestHeaders_object_or_throw incoming) as Hx.
    destruct (extractRequestHeaders incoming) as [headers|e1];
      [discriminate|].
    intros H. inversion H. right. congruence.
Qed.

(** X10.  After [reset()] the definitions registered before are out of
    reach for good: as long as nothing new is registered with [on],
    whatever is done with the old handles (configuring them again
    included), no call is answered and none changes anything.  A call
    that cannot be read throws the error of the reading, which is what
    [JSON.parse] throws on its data or the [TypeError] of a header
    that has no string; every other call meets the error for a request
    that was not found, with no definition listed. *)
Theorem reset_is_final :
  forall (mock : HttpMock) (script : list Command)
         (config : AxiosRequestConfig),
    forallb (fun c => negb (isOn c)) script = true ->
    registryGet (axios_method config) (registry mock) <> None ->
    axiosAdapter (run (reset mock) script) config
    = (Throws (match readConfig config with
               | Threw e => e
               | Returned call => RequestNotFoundError call []
               end),
       run (reset mock) script)
    /\ (forall e, readConfig config = Threw e ->
                  (truthy (axios_data config) = true
                   /\ JSONparse (axios_data config) = Threw e)
                  \/ e = TypeError)
    /\ registry (run (reset mock) script) = registry (reset mock).
Proof.
  intros mock script config Hscript Hkey.
  assert (Hempty : forall k l, In (k, l) (registry (reset mock)) -> l = []).
  { unfold reset. simpl. intros k l H. apply in_map_iff in H.
    destruct H as (entry & Heq & _). inversion Heq. reflexivity. }
  assert (Hreg : forall m,
             registry m = registry (reset mock) ->
             registry (run m script) = registry (reset mock)).
  { induction script as [|c script IH]; intros m Hm; simpl; [exact Hm|].
    simpl in Hscript. apply andb_true_iff in Hscript.
    destruct Hscript as [Hc Hrest]. apply negb_true_iff in Hc.
    apply (IH Hrest). rewrite exec_keeps_emptied; [exact Hm|exact Hc|].
    rewrite Hm. exact Hempty. }
  specialize (Hreg (reset mock) eq_refl).
  split; [|split; [apply readConfig_throws|exact Hreg]].
  assert (Hnone : registered (run (reset mock) script) = []).
  { unfold registered. rewrite (concat_emptied (registry (run (reset mock) script)));
      [reflexivity|]. rewrite Hreg. exact Hempty. }
  unfold axiosAdapter, invalidRequests. rewrite Hnone. simpl.
  destruct (readConfig config) as [call|e] eqn:E; [|reflexivity].
  apply adapter_emptied.
  - rewrite Hreg. exact Hempty.
  - rewrite Hreg, (readConfig_method config call E).
    unfold reset. simpl. rewrite registryGet_reset.
    destruct (registryGet (axios_method config) (registry mock));
      [discriminate|contradiction].
Qed.

End Engine.

(** * Scenarios *)

(** The mocks and calls the statements below are tried on.  Strings
    that meet numbers are read with [decimalToNumber], status texts
    come from [statusTexts]. *)

Definition build (matching : option MatchMode) (script : list Command)
  : HttpMock :=
  run decimalToNumber statusTexts (newHttpMock matching) script.

Definition call (m : Method) (uri : string) (o : RequestOptions) : Config :=
  mkConfig m uri o None.

Definition getPath : Config := call GET "/path" noOptions.

Definition acceptJson : Value := VObj [("Accept", VStr "application/json")].
Definition keyValue : Value := VObj [("key", VStr "value")].

(** GET /path answers 200; a POST was registered and never configured. *)
Definition mockWithUnfinishedPost : HttpMock :=
  build None [On GET; To 0%nat "/path"; RespondWith 0%nat 200 VUndefined; On POST].

(** Strict mode: GET /path with an Accept header answers 200. *)
Definition strictMock : HttpMock :=
  build (Some strict)
        [On GET; To 0%nat "/path"; With 0%nat (mkOptions None None (Some acceptJson));
         RespondWith 0%nat 200 keyValue].

(** Partial mode: GET /path twice, the second with params. *)
Definition genericAndSpecific : HttpMock :=
  build (Some partial)
        [On GET; To 0%nat "/path";
         RespondWith 0%nat 200 (VObj [("match", VStr "generic")]);
         On GET; To 1%nat "/path";
         With 1%nat (mkOptions (Some (VObj [("q", VStr "v")])) None None);
         RespondWith 1%nat 201 (VObj [("match", VStr "specific")])].

(** GET /path once with 200, then once with 201. *)
Definition onceTwice : HttpMock :=
  build None [On GET; To 0%nat "/path"; RespondWith 0%nat 200 VUndefined; Once 0%nat;
              On GET; To 1%nat "/path"; RespondWith 1%nat 201 VUndefined; Once 1%nat].

(** GET /path times out, once. *)
Definition timeoutOnce : HttpMock :=
  build None [On GET; To 0%nat "/path"; Once 0%nat; Timeout 0%nat].

Definition paramsAB : Request :=
  Request_with
    (mkOptions (Some (VObj [("a", VStr "1"); ("b", VStr "2")])) None None)
    (Request_to "/path" (newRequest GET)).

(** A limit of 0, which no method of the interface sets. *)
Definition limitZero : Request := mkRequest GET None None None None 0%nat (Some 0).

Definition unfinishedPostJSON : RequestJSON :=
  mkJSON POST None VUndefined VUndefined VUndefined.

Definition withAccept : RequestOptions := mkOptions None None (Some acceptJson).
Definition withQ : RequestOptions :=
  mkOptions (Some (VObj [("q", VStr "v")])) None None.
Definition withBody (v : Value) : RequestOptions := mkOptions None (Some v) None.
Definition withParams (v : Value) : RequestOptions := mkOptions (Some v) None None.

(** The request behind a handle of a mock. *)
Definition at_ (mock : HttpMock) (h : Ref) : Request :=
  nth h (heap mock) (newRequest GET).

(** ** C1 *)

Lemma invalid_definitions_fail_dispatch_witness :
  (exists m l ref r,
      In (m, l) (registry mockWithUnfinishedPost) /\ In ref l
      /\ nth_error (heap mockWithUnfinishedPost) ref = Some r /\ incomplete r)
  /\ adapter decimalToNumber mockWithUnfinishedPost getPath
     = (Throws (InvalidRequestsError [unfinishedPostJSON]),
        mockWithUnfinishedPost).
Proof.
  assert (H : exists m l ref r,
             In (m, l) (registry mockWithUnfinishedPost) /\ In ref l
             /\ nth_error (heap mockWithUnfinishedPost) ref = Some r
             /\ incomplete r).
  { exists POST, [1%nat], 1%nat, (newRequest POST).
    split; [right; left; reflexivity|].
    split; [left; reflexivity|].
    split; [reflexivity|left; reflexivity]. }
  split; [exact H|].
  exact (proj1 (invalid_definitions_fail_dispatch
                  decimalToNumber mockWithUnfinishedPost getPath H)).
Defined.

(** ** C2 *)

(** Strict mode: GET /path without attributes, then twice with an
    Accept header. *)
Definition bareThenAcceptTwice : HttpMock :=
  build (Some strict)
        [On GET; To 0%nat "/path"; RespondWith 0%nat 200 VUndefined;
         On GET; To 1%nat "/path"; With 1%nat withAccept;
         RespondWith 1%nat 201 VUndefined;
         On GET; To 2%nat "/path"; With 2%nat withAccept;
         RespondWith 2%nat 200 keyValue].

(** Strict mode: GET /path with the params [{page: 1}], a number. *)
Definition pageOne : HttpMock :=
  build (Some strict)
        [On GET; To 0%nat "/path";
         With 0%nat (withParams (VObj [("page", VNum 1)]));
         RespondWith 0%nat 200 VUndefined].

(** Strict mode: GET /path with the body [null]. *)
Definition bodyNull : HttpMock :=
  build (Some strict)
        [On GET; To 0%nat "/path"; With 0%nat (withBody VNull);
         RespondWith 0%nat 200 VUndefined].

(** As the claim is worded it fails.  No definition matches
    GET /missing, yet the adapter does not throw the error for a
    request that was not found, because a POST definition is
    unfinished.  And the comparison converts: a call with the params
    [{page: '1'}], a string, is settled with the definition whose
    params are [{page: 1}], a number, and a call without a body with
    the definition whose body is [null], although neither pair is
    deep-equal. *)
Lemma strict_mode_no_match_counterexample :
  (mode mockWithUnfinishedPost = strict
   /\ (forall x, In x (registered mockWithUnfinishedPost) ->
                 ~ strictlyMatches (snd x) "/missing" noOptions)
   /\ fst (adapter decimalToNumber mockWithUnfinishedPost
                   (call GET "/missing" noOptions))
      = Throws (InvalidRequestsError [unfinishedPostJSON])
   /\ (forall c l,
         fst (adapter decimalToNumber mockWithUnfinishedPost
                      (call GET "/missing" noOptions))
         <> Throws (RequestNotFoundError c l)))
  /\ (mode pageOne = strict
      /\ matchFor decimalToNumber (heap pageOne) [0%nat] strict "/path"
                  (Some (withParams (VObj [("page", VStr "1")]))) = Some 0%nat
      /\ ~ strictlyMatches (at_ pageOne 0%nat) "/path"
                           (withParams (VObj [("page", VStr "1")]))
      /\ fst (adapter decimalToNumber pageOne
                      (call GET "/path"
                            (withParams (VObj [("page", VStr "1")]))))
         = Resolves (mkResponse 200 (VStr "OK") VUndefined (VObj [])))
  /\ (mode bodyNull = strict
      /\ matchFor decimalToNumber (heap bodyNull) [0%nat] strict "/path"
                  (Some noOptions) = Some 0%nat
      /\ ~ strictlyMatches (at_ bodyNull 0%nat) "/path" noOptions
      /\ fst (adapter decimalToNumber bodyNull getPath)
         = Resolves (mkResponse 200 (VStr "OK") VUndefined (VObj []))).
Proof.
  split; [|split].
  - split; [reflexivity|]. split; [|split; [reflexivity|discriminate]].
    intros x Hin [Hu _]. vm_compute in Hin.
    destruct Hin as [<-|[<-|[]]]; vm_compute in Hu; discriminate.
  - split; [reflexivity|]. split; [reflexivity|].
    split; [|reflexivity].
    intros (_ & _ & Hk). specialize (Hk K_params). vm_compute in Hk.
    discriminate.
  - split; [reflexivity|]. split; [reflexivity|].
    split; [|reflexivity].
    intros (_ & _ & Hk). specialize (Hk K_body). vm_compute in Hk.
    discriminate.
Qed.

Lemma strict_mode_first_match_witness :
  mode bareThenAcceptTwice = strict
  /\ registryGet GET (registry bareThenAcceptTwice)
     = Some [0%nat; 1%nat; 2%nat]
  /\ (forall x key,
         In x (candidates (heap bareThenAcceptTwice) [0%nat; 1%nat; 2%nat]
                          "/path") ->
         sameTypes (getRequest (snd x) key) (getOption withAccept key) = true)
  /\ matchFor decimalToNumber (heap bareThenAcceptTwice)
              [0%nat; 1%nat; 2%nat] strict "/path" (Some withAccept)
     = Some 1%nat
  /\ adapter decimalToNumber bareThenAcceptTwice (call GET "/path" withQ)
     = (Throws (RequestNotFoundError
                  (call GET "/path" withQ)
                  (map (fun x => toJSON (snd x))
                       (registered bareThenAcceptTwice))),
        bareThenAcceptTwice).
Proof.
  assert (Ha : forall x key,
             In x (candidates (heap bareThenAcceptTwice)
                              [0%nat; 1%nat; 2%nat] "/path") ->
             sameTypes (getRequest (snd x) key) (getOption withAccept key)
             = true).
  { intros x key Hin. vm_compute in Hin.
    destruct Hin as [<-|[<-|[<-|[]]]]; destruct key; reflexivity. }
  assert (Hq : forall x key,
             In x (candidates (heap bareThenAcceptTwice)
                              [0%nat; 1%nat; 2%nat] "/path") ->
             sameTypes (getRequest (snd x) key) (getOption withQ key) = true).
  { intros x key Hin. vm_compute in Hin.
    destruct Hin as [<-|[<-|[<-|[]]]]; destruct key; reflexivity. }
  split; [reflexivity|]. split; [reflexivity|]. split; [exact Ha|]. split.
  - destruct (strict_mode_first_match
                decimalToNumber bareThenAcceptTwice (call GET "/path" withAccept)
                [0%nat; 1%nat; 2%nat] eq_refl eq_refl Ha) as (H & _).
    apply H.
    exists (at_ bareThenAcceptTwice 1%nat),
           [(0%nat, at_ bareThenAcceptTwice 0%nat)],
           [(2%nat, at_ bareThenAcceptTwice 2%nat)].
    split; [reflexivity|]. split.
    + split; [reflexivity|]. split; [reflexivity|].
      intros key. destruct key; reflexivity.
    + intros x [<-|[]] (_ & _ & Hk). specialize (Hk K_headers).
      vm_compute in Hk. discriminate.
  - destruct (strict_mode_first_match
                decimalToNumber bareThenAcceptTwice (call GET "/path" withQ)
                [0%nat; 1%nat; 2%nat] eq_refl eq_refl Hq)
      as (_ & _ & _ & _ & H).
    apply H; [reflexivity|].
    intros x Hin (_ & _ & Hk). specialize (Hk K_params).
    vm_compute in Hin.
    destruct Hin as [<-|[<-|[<-|[]]]]; vm_compute in Hk; discriminate.
Defined.

(** ** C3 *)

(** Partial mode: POST /path with the body 0. *)
Definition bodyZeroMock : HttpMock :=
  build (Some partial)
        [On POST; To 0%nat "/path"; With 0%nat (withBody (VNum 0));
         RespondWith 0%nat 200 keyValue].

(** C3.  The definition has the body 0 and the call the body 1: both
    sides have the field and the two are not deep-equal, so the
    definition is not to pass, and strict mode does tell the two
    apart.  Yet [ok] tests the presence of a value by its truth, takes
    the 0 of the definition for a field that is not there, and lets
    the definition through: the call is answered with it. *)
Theorem partial_mode_falsy_body_passes :
  candidates (heap bodyZeroMock) [0%nat] "/path"
  = [(0%nat, at_ bodyZeroMock 0%nat)]
  /\ Request_body (at_ bodyZeroMock 0%nat) = VNum 0
  /\ ~ fieldPassesAsStated (at_ bodyZeroMock 0%nat) (withBody (VNum 1)) K_body
  /\ ok decimalToNumber (VNum 1) (VNum 0) = true
  /\ FilterableRequest_pass decimalToNumber (at_ bodyZeroMock 0%nat)
                            (withBody (VNum 1)) = true
  /\ FilterableRequest_eq decimalToNumber (at_ bodyZeroMock 0%nat)
                          (withBody (VNum 1)) = false
  /\ fst (adapter decimalToNumber bodyZeroMock
                  (call POST "/path" (withBody (VNum 1))))
     = Resolves (mkResponse 200 (VStr "OK") keyValue (VObj [])).
Proof.
  split; [reflexivity|]. split; [reflexivity|]. split.
  - intros [H|[H|(_ & _ & H)]]; vm_compute in H; discriminate.
  - repeat split; reflexivity.
Qed.

(** ** C4 *)

(** Partial mode: POST /path without attributes, then with the
    body 0. *)
Definition genericAndBodyZero : HttpMock :=
  build (Some partial)
        [On POST; To 0%nat "/path";
         RespondWith 0%nat 200 (VObj [("match", VStr "generic")]);
         On POST; To 1%nat "/path"; With 1%nat (withBody (VNum 0));
         RespondWith 1%nat 201 (VObj [("match", VStr "specific")])].

(** C4.  The call has the body 0.  Both definitions pass; the second
    has the body 0 too, present on both sides and deep-equal, so its
    score is to be 2 and it is the one to return.  Yet [score] tests
    the presence of the two values by their truth: the score of the
    second definition is 0, the scores tie, and the call is answered
    with the first definition. *)
Theorem partial_mode_falsy_body_scores_zero :
  passing decimalToNumber (heap genericAndBodyZero) [0%nat; 1%nat] "/path"
          (withBody (VNum 0))
  = [(0%nat, at_ genericAndBodyZero 0%nat);
     (1%nat, at_ genericAndBodyZero 1%nat)]
  /\ (forall key, fieldPassesAsStated (at_ genericAndBodyZero 1%nat)
                                      (withBody (VNum 0)) key)
  /\ scoreAsStated (at_ genericAndBodyZero 0%nat) (withBody (VNum 0)) = 0
  /\ scoreAsStated (at_ genericAndBodyZero 1%nat) (withBody (VNum 0)) = 2
  /\ score_ decimalToNumber (VNum 0) (VNum 0) = 0
  /\ FilterableRequest_score decimalToNumber (at_ genericAndBodyZero 1%nat)
                             (withBody (VNum 0)) = 0
  /\ matchFor decimalToNumber (heap genericAndBodyZero) [0%nat; 1%nat] partial
              "/path" (Some (withBody (VNum 0))) = Some 0%nat
  /\ fst (adapter decimalToNumber genericAndBodyZero
                  (call POST "/path" (withBody (VNum 0))))
     = Resolves (mkResponse 200 (VStr "OK") (VObj [("match", VStr "generic")])
                            (VObj [])).
Proof.
  split; [reflexivity|]. split.
  - intros key. destruct key; [left; reflexivity|left; reflexivity|].
    right. right. repeat split; reflexivity.
  - repeat split; reflexivity.
Qed.

(** ** C5 *)

Lemma once_definition_matches_once_witness :
  selects decimalToNumber onceTwice getPath = Some 0%nat
  /\ selects decimalToNumber
             (snd (adapter decimalToNumber onceTwice getPath)) getPath
     = Some 1%nat
  /\ (forall config,
        selects decimalToNumber
                (run decimalToNumber statusTexts
                     (exec decimalToNumber statusTexts onceTwice (Call getPath))
                     [Call getPath]) config
        <> Some 0%nat).
Proof.
  split; [reflexivity|]. split; [reflexivity|].
  destruct (once_definition_matches_once decimalToNumber statusTexts)
    as (_ & _ & H & _).
  destruct (H onceTwice 0%nat (at_ onceTwice 0%nat) (Call getPath)
              eq_refl eq_refl
              (or_intror (ex_intro _ getPath (conj eq_refl eq_refl)))
              [Call getPath]) as (r' & _ & _ & _ & Hsel).
  exact Hsel.
Defined.

(** ** C6 *)

Lemma failure_outcome_never_responds_witness :
  exception (timeout (Request_to "/path" (newRequest GET)))
  = Some (JsError "Timeout")
  /\ snd (Request_response (timeout (Request_to "/path" (newRequest GET))))
     = Threw (JsError "Timeout")
  /\ fst (settle 0%nat getPath timeoutOnce) = Rejects (JsError "Timeout").
Proof.
  split; [reflexivity|].
  split.
  - exact (proj1 (failure_outcome_never_responds
                    (timeout (Request_to "/path" (newRequest GET)))
                    (JsError "Timeout") eq_refl)).
  - destruct (failure_outcome_never_responds
                (at_ timeoutOnce 0%nat) (JsError "Timeout") eq_refl)
      as (_ & _ & H & _).
    exact (proj1 (H timeoutOnce 0%nat getPath eq_refl)).
Defined.

(** ** C7 *)

Lemma reset_empties_registry_witness :
  selects decimalToNumber onceTwice getPath = Some 0%nat
  /\ registry (reset onceTwice) = emptyRegistry
  /\ adapter decimalToNumber (reset onceTwice) getPath
     = (Throws (RequestNotFoundError getPath []), reset onceTwice).
Proof.
  split; [reflexivity|]. split; [reflexivity|].
  destruct (reset_empties_registry decimalToNumber onceTwice) as (_ & _ & H).
  exact (proj1 (H getPath 0%nat eq_refl)).
Defined.

(** ** C8 *)

(** As the claim is worded it fails: with a limit of 0 the definition
    is invokable, although the limit is set and the count is not below
    it. *)
Lemma isInvokable_zero_limit_counterexample :
  isInvokable limitZero = true /\ ~ withinLimit limitZero.
Proof.
  split; [reflexivity|].
  intros [H|(m & Hm & Hlt)]; [discriminate|].
  inversion Hm; subst m. simpl in Hlt. lia.
Qed.

Lemma isInvokable_within_limit_witness :
  maxInvocationCount (once (newRequest GET)) <> Some 0
  /\ (isInvokable (once (newRequest GET)) = true
      <-> withinLimit (once (newRequest GET))).
Proof.
  assert (H : maxInvocationCount (once (newRequest GET)) <> Some 0)
    by discriminate.
  split; [exact H|].
  exact (isInvokable_within_limit (once (newRequest GET)) H).
Defined.

(** ** C9 *)

Lemma dispatch_changes_only_selected_count_witness :
  fst (adapter decimalToNumber mockWithUnfinishedPost getPath)
  = Throws (InvalidRequestsError [unfinishedPostJSON])
  /\ snd (adapter decimalToNumber mockWithUnfinishedPost getPath)
     = mockWithUnfinishedPost
  /\ registry (snd (adapter decimalToNumber onceTwice getPath))
     = registry onceTwice.
Proof.
  split; [reflexivity|]. split.
  - destruct (dispatch_changes_only_selected_count
                decimalToNumber mockWithUnfinishedPost getPath)
      as (_ & _ & H & _).
    exact (H (InvalidRequestsError [unfinishedPostJSON]) eq_refl).
  - exact (proj1 (dispatch_changes_only_selected_count
                    decimalToNumber onceTwice getPath)).
Defined.

(** ** C10 *)

Lemma raising_materialization_counts_witness :
  selects decimalToNumber timeoutOnce getPath = Some 0%nat
  /\ fst (adapter decimalToNumber timeoutOnce getPath)
     = Rejects (JsError "Timeout")
  /\ (forall config,
        selects decimalToNumber
                (run decimalToNumber statusTexts
                     (snd (adapter decimalToNumber timeoutOnce getPath)) [])
                config
        <> Some 0%nat).
Proof.
  split; [reflexivity|].
  destruct (raising_materialization_counts decimalToNumber statusTexts)
    as (_ & _ & _ & _ & H).
  destruct (H timeoutOnce getPath 0%nat (at_ timeoutOnce 0%nat)
              (JsError "Timeout") eq_refl eq_refl eq_refl eq_refl)
    as (Hrej & Hnever).
  split; [exact Hrej|].
  destruct (Hnever []) as (r' & _ & _ & Hsel). exact Hsel.
Defined.

(** * The repository's own tests, run on the embedding *)

Definition host : string := "http://host.example".
Definition to_host (m : Method) : Request := Request_to host (newRequest m).
Definition oneTwo : Value := VObj [("one", VStr "two"); ("three", VStr "four")].
Definition twoOne : Value := VObj [("three", VStr "four"); ("one", VStr "two")].
Definition keyOther : Value := VObj [("key", VStr "value"); ("other", VStr "value")].
Definition all3 (v : Value) : RequestOptions := mkOptions (Some v) (Some v) (Some v).

(** [assert.deepEqual]: the order of keys plays no part, an extra key
    does, and primitives are compared with [==]. *)
Example deepEqual_tests :
  deepEqual decimalToNumber oneTwo twoOne = true
  /\ deepEqual decimalToNumber keyValue keyOther = false
  /\ deepEqual decimalToNumber keyOther keyValue = false
  /\ deepEqual decimalToNumber (VObj [("n", VNum 1)]) (VObj [("n", VStr "1")])
     = true
  /\ deepEqual decimalToNumber VUndefined VNull = true
  /\ deepEqual decimalToNumber VUndefined (VObj []) = false
  /\ deepEqual decimalToNumber (VArr [VNum 1; VNum 2]) (VArr [VNum 1]) = false.
Proof. repeat split; reflexivity. Qed.

(** request-matcher.spec.ts, partial: no requests. *)
Example partial_no_requests :
  matchFor decimalToNumber [] [] partial host None = None.
Proof. reflexivity. Qed.

(** request-matcher.spec.ts, partial: the first matching request when
    matching only on the URL, in either order. *)
Example partial_first_on_url :
  matchFor decimalToNumber
           [to_host GET; Request_with (withParams keyValue) (to_host GET)]
           [0%nat; 1%nat] partial host None = Some 0%nat
  /\ matchFor decimalToNumber
              [Request_with (withParams keyValue) (to_host GET); to_host GET]
              [0%nat; 1%nat] partial host None = Some 0%nat.
Proof. split; reflexivity. Qed.

(** request-matcher.spec.ts, partial: the request that matches the
    most options. *)
Example partial_most_options :
  matchFor decimalToNumber
           [to_host POST;
            Request_with (mkOptions None None (Some keyValue)) (to_host POST);
            Request_with (mkOptions (Some keyValue) None (Some keyValue))
                         (to_host POST);
            Request_with (all3 keyValue) (to_host POST)]
           [0%nat; 1%nat; 2%nat; 3%nat] partial host (Some (all3 keyValue))
  = Some 3%nat.
Proof. reflexivity. Qed.

(** request-matcher.spec.ts, partial: the order of the keys of the
    options plays no part. *)
Example partial_key_order :
  matchFor decimalToNumber
           [Request_with (all3 twoOne) (to_host POST);
            Request_with (all3 oneTwo) (to_host GET)]
           [0%nat; 1%nat] partial host (Some (all3 oneTwo)) = Some 0%nat.
Proof. reflexivity. Qed.

(** request-matcher.spec.ts, partial: an exact match on the attributes
    that are given. *)
Example partial_exact_attributes :
  matchFor decimalToNumber
           [Request_with (all3 keyOther) (to_host POST);
            Request_with (all3 keyValue) (to_host POST)]
           [0%nat; 1%nat] partial host (Some (all3 keyValue)) = Some 1%nat
  /\ matchFor decimalToNumber
              [Request_with (withParams keyOther) (to_host GET)]
              [0%nat] partial host (Some (withParams keyValue)) = None.
Proof. split; reflexivity. Qed.

(** request-matcher.spec.ts, strict. *)
Example strict_tests :
  matchFor decimalToNumber
           [to_host GET; Request_with (withParams keyValue) (to_host GET)]
           [0%nat; 1%nat] strict host None = Some 0%nat
  /\ matchFor decimalToNumber
              [Request_with (withParams twoOne) (to_host POST);
               Request_with (withParams oneTwo) (to_host GET)]
              [0%nat; 1%nat] strict host (Some (withParams oneTwo)) = Some 0%nat
  /\ matchFor decimalToNumber
              [Request_with (mkOptions None None (Some keyValue)) (to_host GET)]
              [0%nat] strict host None = None.
Proof. repeat split; reflexivity. Qed.

(** request.spec.ts: [isValid]. *)
Example isValid_tests :
  isValid (newRequest GET) = false
  /\ isValid (to_host GET) = false
  /\ isValid (respondWith statusTexts 200 VUndefined (to_host GET)) = true
  /\ isValid (timeout (to_host GET)) = true.
Proof. repeat split; reflexivity. Qed.

(** request.spec.ts: the getter [response]. *)
Example response_tests :
  snd (Request_response (newRequest GET))
  = Threw (UnconfiguredResponseError GET None None)
  /\ snd (Request_response (timeout (newRequest GET)))
     = Threw (JsError "Timeout")
  /\ snd (Request_response (respondWith statusTexts 200 VUndefined
                                        (newRequest GET)))
     = Returned (mkResponse 200 (VStr "OK") VUndefined (VObj []))
  /\ snd (Request_response
            (respondWith statusTexts 200
                         (VObj [("headers", acceptJson); ("data", keyValue)])
                         (newRequest GET)))
     = Returned (mkResponse 200 (VStr "OK") keyValue acceptJson).
Proof. repeat split; reflexivity. Qed.

(** The scenario of the specification: once with 200, once with 201;
    the third call finds nothing. *)
Example once_then_once_then_nothing :
  let first := adapter decimalToNumber onceTwice getPath in
  let second := adapter decimalToNumber (snd first) getPath in
  let third := adapter decimalToNumber (snd second) getPath in
  fst first = Resolves (mkResponse 200 (VStr "OK") VUndefined (VObj []))
  /\ fst second
     = Resolves (mkResponse 201 (VStr "Created") VUndefined (VObj []))
  /\ exists registered,
      fst third = Throws (RequestNotFoundError getPath registered).
Proof. repeat split. eexists. reflexivity. Qed.

(** integration.spec.ts: a status the caller's predicate refuses
    rejects the promise. *)
Example status_failure_bubbles_up :
  fst (adapter decimalToNumber
         (build (Some partial)
                [On POST; To 0%nat "/resource";
                 RespondWith 0%nat 422 (VObj [("error", VStr "Create failed")])])
         (mkConfig POST "/resource" noOptions
                   (Some (fun st => (200 <=? st) && (st <? 300)))))
  = Rejects (AxiosError
               (mkResponse 422 (VStr "Unprocessable Entity")
                           (VObj [("error", VStr "Create failed")]) (VObj []))
               (Some ERR_BAD_REQUEST)).
Proof. reflexivity. Qed.

(** * More of the code: scenarios *)

(** The decimal text of an integer, for [NumberToString]. *)
Definition decimalString (z : Z) : string :=
  DecimalString.NilZero.string_of_int (Z.to_int z).

(** A stand-in for [JSON.parse] on the texts the scenarios give it:
    the three literal names are read, a text that is not JSON makes it
    throw. *)
Definition parseLiteral (v : Value) : Completion Value :=
  match v with
  | VStr s =>
      if (s =? "null")%string then Returned VNull
      else if (s =? "true")%string then Returned (VBool true)
      else if (s =? "false")%string then Returned (VBool false)
      else Threw (JsError "Unexpected token")
  | _ => Threw (JsError "Unexpected token")
  end.

(** GET /path answers 200, with no limit. *)
Definition plainMock : HttpMock :=
  build None [On GET; To 0%nat "/path"; RespondWith 0%nat 200 keyValue].

(** A definition sent to the empty URI. *)
Definition emptyUriMock : HttpMock :=
  build None [On GET; To 0%nat ""; RespondWith 0%nat 200 VUndefined].

(** Strict mode: GET /path without attributes, then with an Accept
    header. *)
Definition bareAndAccept : HttpMock :=
  build (Some strict)
        [On GET; To 0%nat "/path"; RespondWith 0%nat 200 VUndefined;
         On GET; To 1%nat "/path"; With 1%nat withAccept;
         RespondWith 1%nat 201 VUndefined].

Definition axiosGet (base : option string) (url : string) (data : Value)
           (hs : option Props) : AxiosRequestConfig :=
  mkAxiosConfig GET base (Some url) data hs VUndefined None.

Lemma timeout_is_final_witness :
  nth_error (heap timeoutOnce) 0%nat = Some (at_ timeoutOnce 0%nat)
  /\ exception (at_ timeoutOnce 0%nat) = Some (JsError "Timeout")
  /\ exists r',
      nth_error (heap (run decimalToNumber statusTexts timeoutOnce
                           [RespondWith 0%nat 200 keyValue]))
                0%nat = Some r'
      /\ exception r' = Some (JsError "Timeout")
      /\ snd (Request_response r') = Threw (JsError "Timeout").
Proof.
  split; [reflexivity|]. split; [reflexivity|].
  exact (timeout_is_final decimalToNumber statusTexts timeoutOnce 0%nat
                          (at_ timeoutOnce 0%nat)
                          [RespondWith 0%nat 200 keyValue] eq_refl eq_refl).
Defined.

Lemma empty_uri_is_invalid_witness :
  In (GET, [0%nat]) (registry emptyUriMock) /\ In 0%nat [0%nat]
  /\ nth_error (heap emptyUriMock) 0%nat = Some (at_ emptyUriMock 0%nat)
  /\ _uri (at_ emptyUriMock 0%nat) = Some ""
  /\ adapter decimalToNumber emptyUriMock (call GET "" noOptions)
     = (Throws (InvalidRequestsError
                  [mkJSON GET (Some "") VUndefined VUndefined VUndefined]),
        emptyUriMock).
Proof.
  assert (H1 : In (GET, [0%nat]) (registry emptyUriMock))
    by (left; reflexivity).
  assert (H2 : In 0%nat [0%nat]) by (left; reflexivity).
  split; [exact H1|]. split; [exact H2|]. split; [reflexivity|].
  split; [reflexivity|].
  destruct (empty_uri_is_invalid decimalToNumber emptyUriMock
                                 (call GET "" noOptions) GET [0%nat] 0%nat
                                 (at_ emptyUriMock 0%nat) H1 H2 eq_refl eq_refl)
    as (_ & _ & H).
  exact H.
Defined.

Lemma respondWith_round_trip_witness :
  exception (newRequest GET) = None
  /\ snd (Request_response (respondWith statusTexts 200 (VNum 0)
                                        (newRequest GET)))
     = Returned (mkResponse 200 (VStr "OK") VUndefined (VObj []))
  /\ snd (Request_response
            (respondWith statusTexts 200 (VObj [("data", keyValue)])
                         (newRequest GET)))
     = Returned (mkResponse 200 (VStr "OK") (VObj [("data", keyValue)])
                            (VObj [])).
Proof.
  split; [reflexivity|].
  split.
  - exact (proj1 (respondWith_round_trip statusTexts (newRequest GET) 200
                                         (VNum 0) eq_refl) eq_refl).
  - destruct (respondWith_round_trip statusTexts (newRequest GET) 200
                                     (VObj [("data", keyValue)]) eq_refl)
      as (_ & _ & H).
    apply H; [reflexivity|right; reflexivity].
Defined.

Definition notFound : Response :=
  mkResponse 404 (VStr "Not Found") VUndefined (VObj []).

Definition notFoundHeap : HttpMock :=
  mkMock [mkRequest GET (Some "/path") None None (Some notFound) 0%nat None]
         emptyRegistry strict.

Definition success (st : Z) : bool := (200 <=? st) && (st <? 300).

Lemma settle_reads_status_witness :
  nth_error (heap notFoundHeap) 0%nat = Some (at_ notFoundHeap 0%nat)
  /\ exception (at_ notFoundHeap 0%nat) = None
  /\ _response (at_ notFoundHeap 0%nat) = Some notFound
  /\ fst (settle 0%nat (mkConfig GET "/path" noOptions (Some success))
                 notFoundHeap)
     = Rejects (AxiosError notFound (Some ERR_BAD_REQUEST))
  /\ fst (settle 0%nat getPath notFoundHeap) = Resolves notFound.
Proof.
  split; [reflexivity|]. split; [reflexivity|]. split; [reflexivity|].
  split.
  - destruct (settle_reads_status
                notFoundHeap 0%nat
                (mkConfig GET "/path" noOptions (Some success))
                (at_ notFoundHeap 0%nat) notFound eq_refl eq_refl eq_refl)
      as (_ & H & _).
    apply (H success); [cbv; discriminate|reflexivity|reflexivity].
  - destruct (settle_reads_status notFoundHeap 0%nat getPath
                                  (at_ notFoundHeap 0%nat) notFound
                                  eq_refl eq_refl eq_refl) as (H & _).
    apply H. right. left. reflexivity.
Defined.

Lemma count_is_materializations_witness :
  nth_error (heap plainMock) 0%nat = Some (at_ plainMock 0%nat)
  /\ materializations decimalToNumber statusTexts plainMock
                      [Call getPath; Once 0%nat; GetResponse 0%nat;
                       Call getPath] 0%nat = 2%nat
  /\ exists r',
      nth_error (heap (run decimalToNumber statusTexts plainMock
                           [Call getPath; Once 0%nat; GetResponse 0%nat;
                            Call getPath])) 0%nat = Some r'
      /\ invocationCount r'
         = (invocationCount (at_ plainMock 0%nat)
            + materializations decimalToNumber statusTexts plainMock
                               [Call getPath; Once 0%nat; GetResponse 0%nat;
                                Call getPath] 0%nat)%nat.
Proof.
  split; [reflexivity|]. split; [reflexivity|].
  exact (count_is_materializations
           decimalToNumber statusTexts
           [Call getPath; Once 0%nat; GetResponse 0%nat; Call getPath]
           plainMock 0%nat (at_ plainMock 0%nat) eq_refl).
Defined.

Lemma on_appends_witness :
  registryGet GET (registry plainMock) = Some [0%nat]
  /\ fst (on GET plainMock) = Returned 1%nat
  /\ registryGet GET (registry (snd (on GET plainMock))) = Some [0%nat; 1%nat]
  /\ registryGet POST (registry (snd (on GET plainMock))) = Some [].
Proof.
  split; [reflexivity|].
  destruct (on_appends plainMock GET [0%nat] eq_refl) as (H1 & H2 & H3 & _).
  split; [exact H1|]. split; [exact H2|].
  rewrite (H3 POST) by discriminate. reflexivity.
Defined.

Lemma selects_own_method_witness :
  selects decimalToNumber
          (run decimalToNumber statusTexts (newHttpMock None)
               [On GET; To 0%nat "/path"; RespondWith 0%nat 200 keyValue])
          getPath = Some 0%nat
  /\ exists r,
      nth_error (heap (run decimalToNumber statusTexts (newHttpMock None)
                           [On GET; To 0%nat "/path";
                            RespondWith 0%nat 200 keyValue])) 0%nat = Some r
      /\ method r = config_method getPath.
Proof.
  split; [reflexivity|].
  exact (selects_own_method decimalToNumber statusTexts None
                            [On GET; To 0%nat "/path";
                             RespondWith 0%nat 200 keyValue]
                            getPath 0%nat eq_refl).
Defined.

Lemma reset_is_final_witness :
  forallb (fun c => negb (isOn c))
          [RespondWith 0%nat 201 keyValue; To 0%nat "/path"; Call getPath]
  = true
  /\ registryGet GET (registry plainMock) <> None
  /\ axiosAdapter decimalToNumber decimalString parseLiteral
                  (run decimalToNumber statusTexts (reset plainMock)
                       [RespondWith 0%nat 201 keyValue; To 0%nat "/path";
                        Call getPath])
                  (axiosGet None "/path" VUndefined None)
     = (Throws (RequestNotFoundError
                  (call GET "/path"
                        (mkOptions (Some VUndefined) (Some VUndefined)
                                   (Some VUndefined))) []),
        run decimalToNumber statusTexts (reset plainMock)
            [RespondWith 0%nat 201 keyValue; To 0%nat "/path"; Call getPath])
  /\ axiosAdapter decimalToNumber decimalString parseLiteral
                  (run decimalToNumber statusTexts (reset plainMock)
                       [RespondWith 0%nat 201 keyValue; To 0%nat "/path";
                        Call getPath])
                  (axiosGet None "/path" (VStr "{") None)
     = (Throws (JsError "Unexpected token"),
        run decimalToNumber statusTexts (reset plainMock)
            [RespondWith 0%nat 201 keyValue; To 0%nat "/path"; Call getPath]).
Proof.
  assert (H : registryGet GET (registry plainMock) <> None) by discriminate.
  split; [reflexivity|]. split; [exact H|]. split.
  - exact (proj1 (reset_is_final decimalToNumber statusTexts decimalString
                                 parseLiteral plainMock
                                 [RespondWith 0%nat 201 keyValue;
                                  To 0%nat "/path"; Call getPath]
                                 (axiosGet None "/path" VUndefined None)
                                 eq_refl H)).
  - exact (proj1 (reset_is_final decimalToNumber statusTexts decimalString
                                 parseLiteral plainMock
                                 [RespondWith 0%nat 201 keyValue;
                                  To 0%nat "/path"; Call getPath]
                                 (axiosGet None "/path" (VStr "{") None)
                                 eq_refl H)).
Defined.

Lemma eq_ignores_key_order_witness :
  wellFormed (VObj [("one", VStr "two"); ("three", VStr "four")]) = true
  /\ Permutation [("one", VStr "two"); ("three", VStr "four")]
                 [("three", VStr "four"); ("one", VStr "two")]
  /\ eq_ decimalToNumber oneTwo twoOne = true.
Proof.
  assert (Hp : Permutation [("one", VStr "two"); ("three", VStr "four")]
                           [("three", VStr "four"); ("one", VStr "two")])
    by apply perm_swap.
  split; [reflexivity|]. split; [exact Hp|].
  exact (proj1 (eq_ignores_key_order
                  decimalToNumber
                  [("one", VStr "two"); ("three", VStr "four")]
                  [("three", VStr "four"); ("one", VStr "two")] eq_refl Hp)).
Defined.

Lemma used_once_is_as_unregistered_witness :
  selects decimalToNumber onceTwice getPath = Some 0%nat
  /\ nth_error (heap onceTwice) 0%nat = Some (at_ onceTwice 0%nat)
  /\ maxInvocationCount (at_ onceTwice 0%nat) = Some 1
  /\ matchFor decimalToNumber
              (heap (snd (adapter decimalToNumber onceTwice getPath)))
              [0%nat; 1%nat] strict "/path" (Some noOptions)
     = matchFor decimalToNumber (heap onceTwice) [1%nat] strict "/path"
                (Some noOptions).
Proof.
  split; [reflexivity|]. split; [reflexivity|]. split; [reflexivity|].
  exact (used_once_is_as_unregistered
           decimalToNumber onceTwice getPath 0%nat (at_ onceTwice 0%nat)
           eq_refl eq_refl eq_refl [0%nat; 1%nat] strict "/path"
           (Some noOptions)).
Defined.

Lemma unlimited_definition_is_reusable_witness :
  selects decimalToNumber plainMock getPath = Some 0%nat
  /\ nth_error (heap plainMock) 0%nat = Some (at_ plainMock 0%nat)
  /\ maxInvocationCount (at_ plainMock 0%nat) = None
  /\ selects decimalToNumber (snd (adapter decimalToNumber plainMock getPath))
             getPath = Some 0%nat.
Proof.
  split; [reflexivity|]. split; [reflexivity|]. split; [reflexivity|].
  exact (proj2 (unlimited_definition_is_reusable
                  decimalToNumber plainMock getPath 0%nat (at_ plainMock 0%nat)
                  eq_refl eq_refl eq_refl)).
Defined.

Lemma partial_without_attributes_takes_first_witness :
  (forall key, truthy (getOption noOptions key) = false)
  /\ matchFor decimalToNumber (heap genericAndSpecific) [1%nat; 0%nat] partial
              "/path" (Some noOptions)
     = option_map fst (hd_error (candidates (heap genericAndSpecific)
                                            [1%nat; 0%nat] "/path")).
Proof.
  assert (H : forall key, truthy (getOption noOptions key) = false)
    by (intros key; destruct key; reflexivity).
  split; [exact H|].
  exact (proj1 (partial_without_attributes_takes_first
                  decimalToNumber (heap genericAndSpecific) [1%nat; 0%nat]
                  "/path" noOptions H)).
Defined.

Lemma strict_match_is_partial_match_witness :
  matchFor decimalToNumber (heap bareAndAccept) [0%nat; 1%nat] strict "/path"
           (Some withAccept) = Some 1%nat
  /\ nth_error (heap bareAndAccept) 1%nat = Some (at_ bareAndAccept 1%nat)
  /\ (forall key,
         wellFormed (getRequest (at_ bareAndAccept 1%nat) key) = true
         /\ wellFormed (getOption withAccept key) = true)
  /\ exists ref' r',
      matchFor decimalToNumber (heap bareAndAccept) [0%nat; 1%nat] partial
               "/path" (Some withAccept) = Some ref'
      /\ nth_error (heap bareAndAccept) ref' = Some r'
      /\ FilterableRequest_score decimalToNumber (at_ bareAndAccept 1%nat)
                                 withAccept
         <= FilterableRequest_score decimalToNumber r' withAccept.
Proof.
  assert (H : forall key,
             wellFormed (getRequest (at_ bareAndAccept 1%nat) key) = true
             /\ wellFormed (getOption withAccept key) = true)
    by (intros key; destruct key; split; reflexivity).
  split; [reflexivity|]. split; [reflexivity|]. split; [exact H|].
  exact (strict_match_is_partial_match
           decimalToNumber (heap bareAndAccept) [0%nat; 1%nat] "/path"
           withAccept 1%nat (at_ bareAndAccept 1%nat) eq_refl eq_refl H).
Defined.

Lemma joinUri_trailing_slash_witness :
  endsWithSlash "https://host.example" = false
  /\ joinUri (Some "https://host.example") [Some "/path"]
     = joinUri (Some "https://host.example/") [Some "/path"]
  /\ joinUri (Some "https://host.example/") [Some "/path"]
     = "https://host.example/path".
Proof.
  split; [reflexivity|].
  destruct (joinUri_trailing_slash "https://host.example" [Some "/path"])
    as [H1 H2].
  split; [exact (H2 eq_refl)|exact H1].
Defined.

Definition incomingHeaders : Props :=
  [("Accept", VStr "application/json"); ("get", VObj []);
   ("X-Empty", VStr ""); ("X-List", VArr [VStr "a"; VStr "b"])].

Lemma extractRequestHeaders_lets_through_witness :
  noDupKeys incomingHeaders = true
  /\ extractRequestHeaders decimalString incomingHeaders
     = Returned (VObj [("Accept", VStr "application/json");
                       ("X-List", VStr "a; b")])
  /\ (exists s,
         headerValue decimalString (VArr [VStr "a"; VStr "b"]) = Returned s
         /\ assoc "X-List" [("Accept", VStr "application/json");
                            ("X-List", VStr "a; b")] = Some (VStr s))
  /\ assoc "get" [("Accept", VStr "application/json"); ("X-List", VStr "a; b")]
     = None.
Proof.
  split; [reflexivity|]. split; [reflexivity|].
  destruct (extractRequestHeaders_lets_through
              decimalToNumber decimalString incomingHeaders
              [("Accept", VStr "application/json"); ("X-List", VStr "a; b")]
              eq_refl eq_refl) as (H1 & _ & _ & H4).
  split.
  - apply (H1 "X-List" (VArr [VStr "a"; VStr "b"]));
      [right; right; right; left; reflexivity|discriminate|reflexivity
      |reflexivity].
  - apply (H4 eq_refl "get"). intros raw Hin. right. reflexivity.
Defined.

Lemma axiosAdapter_failure_order_witness :
  invalidRequests mockWithUnfinishedPost <> []
  /\ axiosAdapter decimalToNumber decimalString parseLiteral
                  mockWithUnfinishedPost
                  (axiosGet None "/path" (VStr "{") None)
     = (Throws (InvalidRequestsError [unfinishedPostJSON]),
        mockWithUnfinishedPost)
  /\ axiosAdapter decimalToNumber decimalString parseLiteral plainMock
                  (axiosGet None "/path" (VStr "{") None)
     = (Throws (JsError "Unexpected token"), plainMock).
Proof.
  assert (H : invalidRequests mockWithUnfinishedPost <> []) by discriminate.
  split; [exact H|]. split.
  - exact (proj1 (axiosAdapter_failure_order
                    decimalToNumber decimalString parseLiteral
                    mockWithUnfinishedPost
                    (axiosGet None "/path" (VStr "{") None)) H).
  - destruct (axiosAdapter_failure_order
                decimalToNumber decimalString parseLiteral plainMock
                (axiosGet None "/path" (VStr "{") None)) as (_ & H2 & _).
    exact (H2 (JsError "Unexpected token") eq_refl eq_refl eq_refl).
Defined.

Lemma axiosAdapter_strict_needs_headers_witness :
  mode bareAndAccept = strict
  /\ readConfig decimalString parseLiteral
                (axiosGet None "/path" VUndefined
                          (Some [("Accept", VStr "application/json")]))
     = Returned (mkConfig GET "/path"
                          (mkOptions (Some VUndefined) (Some VUndefined)
                                     (Some acceptJson)) None)
  /\ selects decimalToNumber bareAndAccept
             (mkConfig GET "/path"
                       (mkOptions (Some VUndefined) (Some VUndefined)
                                  (Some acceptJson)) None) = Some 1%nat
  /\ exists props,
      Request_headers (at_ bareAndAccept 1%nat) = VObj props.
Proof.
  split; [reflexivity|]. split; [reflexivity|]. split; [reflexivity|].
  destruct (axiosAdapter_strict_needs_headers
              decimalToNumber decimalString parseLiteral bareAndAccept
              (axiosGet None "/path" VUndefined
                        (Some [("Accept", VStr "application/json")]))
              (mkConfig GET "/path"
                        (mkOptions (Some VUndefined) (Some VUndefined)
                                   (Some acceptJson)) None)
              1%nat (at_ bareAndAccept 1%nat) eq_refl eq_refl eq_refl eq_refl)
    as (_ & H & _).
  apply H. discriminate.
Defined.

(** http-mock.spec.ts: the [baseURL] is respected, with or without its
    slash, and a definition without headers is not found by a call that
    has some. *)
Example baseURL_is_respected :
  fst (axiosAdapter decimalToNumber decimalString parseLiteral bareAndAccept
                    (mkAxiosConfig GET (Some "https://host.example/")
                                   (Some "/path") VUndefined
                                   (Some [("Accept", VStr "application/json")])
                                   VUndefined None))
  = fst (axiosAdapter decimalToNumber decimalString parseLiteral bareAndAccept
                      (mkAxiosConfig GET (Some "https://host.example")
                                     (Some "/path") VUndefined
                                     (Some [("Accept", VStr "application/json")])
                                     VUndefined None))
  /\ fst (axiosAdapter decimalToNumber decimalString parseLiteral bareAndAccept
                       (axiosGet None "/path" VUndefined
                                 (Some [("Accept", VStr "application/json")])))
     = Resolves (mkResponse 201 (VStr "Created") VUndefined (VObj [])).
Proof. split; reflexivity. Qed.

Lemma partial_mode_filter_witness :
  "a" <> "b" /\ "c" <> "a" /\ "c" <> "b"
  /\ FilterableRequest_pass decimalToNumber paramsAB
                            (withParams (VObj [("a", VStr "1")])) = false
  /\ FilterableRequest_pass decimalToNumber paramsAB
                            (withParams (VObj [("a", VStr "1");
                                               ("c", VStr "3")])) = false.
Proof.
  assert (Hab : "a" <> "b") by discriminate.
  assert (Hca : "c" <> "a") by discriminate.
  assert (Hcb : "c" <> "b") by discriminate.
  split; [exact Hab|]. split; [exact Hca|]. split; [exact Hcb|]. split.
  - exact (proj2 (partial_mode_filter
                    decimalToNumber paramsAB
                    (withParams (VObj [("a", VStr "1")])))
                 "a" "b" "c" (VStr "1") (VStr "2") (VStr "1") (VStr "3")
                 Hab Hca Hcb eq_refl (or_introl eq_refl)).
  - exact (proj2 (partial_mode_filter
                    decimalToNumber paramsAB
                    (withParams (VObj [("a", VStr "1"); ("c", VStr "3")])))
                 "a" "b" "c" (VStr "1") (VStr "2") (VStr "1") (VStr "3")
                 Hab Hca Hcb eq_refl (or_intror eq_refl)).
Defined.
